(** * Inventory-consistent order engine: a shallow embedding

    The Express route handlers of [src/app/routes/orders.ts] and
    [src/app/routes/products.ts] run synchronous better-sqlite3 statements
    against four tables declared in [src/app/database.ts].  Each handler is
    embedded as a function from a database value to a response and a new
    database value.

    Modelling choices:
    - a table with a TEXT PRIMARY KEY looked up by key only ([users],
      [products], [orders]) is a [gmap string row]; [order_items], which is
      scanned by [order_id], is a list of rows in insertion order;
    - INTEGER columns hold integers [Z] and REAL columns hold rationals [Q];
      a number that reaches JavaScript is a double: the sum and the product
      of [total += product.price * item.quantity] and the sum
      [existing.stock + quantity] round their exact result to the nearest
      double ([Js.add], [Js.mul_int], [Js.add_int]), a rational or an
      integer of a row or of a request body standing for the double nearest
      to it.  Only finite doubles are numbers of the model: a result beyond
      the largest double ([Infinity]) is outside it.  The arithmetic SQLite
      does itself ([stock - ?], [stock + ?]) is integer arithmetic, and so
      are the cart's quantities, which move by one per click;
    - request bodies are typed as the handlers read them: an absent field
      is [None], a quantity is an integer, a price is a number;
    - the [created_at] / [updated_at] columns are left out;
    - [uuidv4()] is an oracle [nat -> string]: call number [k] of a request
      returns [uuidv4 k];
    - a statement that violates a PRIMARY KEY or FOREIGN KEY constraint
      throws; inside [db.transaction] this rolls the transaction back and the
      handler's [catch] answers 500. *)

From Stdlib Require Import ZArith QArith Qround Lia.
From stdpp Require Import base option list gmap strings fin_maps.

Local Open Scope string_scope.
Local Open Scope Z_scope.

(** ** JavaScript numbers

    A finite IEEE 754 double is a rational [m * 2 ^ e] with [|m| <= 2 ^ 53]
    and [e >= -1074].  An arithmetic operation of the language returns the
    double nearest to the exact result, a tie going to the even mantissa. *)

Module Js.

(** [2 ^ e], for an exponent of either sign. *)
Definition pow2 (e : Z) : Q :=
  if 0 <=? e then inject_Z (2 ^ e) else 1 # Z.to_pos (2 ^ (- e)).

(** [2 ^ k <= n / d], for [d > 0]. *)
Definition at_least_pow2 (n d k : Z) : bool :=
  if 0 <=? k then d * 2 ^ k <=? n else d <=? n * 2 ^ (- k).

(** [n / d] rounded to the nearest integer, a tie to the even one. *)
Definition round_even (n d : Z) : Z :=
  let q := n / d in
  let r := n mod d in
  if 2 * r <? d then q
  else if d <? 2 * r then q + 1
  else if Z.even q then q else q + 1.

(** The exponent of the last mantissa bit of the double nearest to [n / d]
    ([n, d > 0]): 52 below the leading bit, and never below the exponent of
    the subnormal doubles. *)
Definition ulp_exponent (n d : Z) : Z :=
  let e0 := Z.log2 n - Z.log2 d - 53 in
  Z.max (if at_least_pow2 n d (e0 + 53) then e0 + 1 else e0) (-1074).

(** [n / d / 2 ^ e] rounded to an integer. *)
Definition mantissa (n d e : Z) : Z :=
  if 0 <=? e then round_even n (d * 2 ^ e) else round_even (n * 2 ^ (- e)) d.

(** The double nearest to [x], in lowest terms. *)
Definition to_double (x : Q) : Q :=
  let n := Z.abs (Qnum x) in
  let d := Zpos (Qden x) in
  if n =? 0 then 0%Q
  else
    let e := ulp_exponent n d in
    Qred (inject_Z (Z.sgn (Qnum x) * mantissa n d e) * pow2 e).

(** The double an integer literal denotes.  Every integer up to [2 ^ 53] in
    magnitude is a double. *)
Definition of_int (z : Z) : Z :=
  if Z.abs z <=? 2 ^ 53 then z else Qfloor (to_double (inject_Z z)).

(** [a + b] of two doubles. *)
Definition add (a b : Q) : Q := to_double (a + b).

(** [a * z] of a number and an integer. *)
Definition mul_int (a : Q) (z : Z) : Q :=
  to_double (to_double a * inject_Z (of_int z)).

(** [a + b] of two integers. *)
Definition add_int (a b : Z) : Z := of_int (of_int a + of_int b).


(** [Number.MAX_SAFE_INTEGER] and [Number.isSafeInteger]. *)
Definition MAX_SAFE_INTEGER : Z := 2 ^ 53 - 1.

Definition safe_integer (z : Z) : Prop :=
  - MAX_SAFE_INTEGER <= z <= MAX_SAFE_INTEGER.

End Js.

(** ** Rows *)

Module User.
Record t : Type := mk { email : string; name : string; password : string; role : string }.
End User.

Module Product.
Record t : Type := mk {
  name : string;
  description : option string;
  price : Q;
  stock : Z;
  category : option string;
  image_url : option string }.

Definition with_stock (s : Z) (p : t) : t :=
  mk (name p) (description p) (price p) s (category p) (image_url p).
End Product.

Module Order.
Record t : Type := mk {
  user_id : string;
  status : string;
  total : Q;
  shipping_address : string }.

Definition with_status (s : string) (o : t) : t :=
  mk (user_id o) s (total o) (shipping_address o).
End Order.

(** [interface OrderItem] of orders.ts: one entry of the request's [items]. *)
Module OrderItem.
Record t : Type := mk { product_id : string; quantity : Z }.
End OrderItem.

(** An element of the handler's local [orderItems] array. *)
Module PricedItem.
Record t : Type := mk { product_id : string; quantity : Z; price : Q }.
End PricedItem.

(** A row of the [order_items] table. *)
Module OrderItemRow.
Record t : Type := mk {
  id : string;
  order_id : string;
  product_id : string;
  quantity : Z;
  price : Q }.
End OrderItemRow.

Record Db : Type := mkDb {
  users : gmap string User.t;
  products : gmap string Product.t;
  orders : gmap string Order.t;
  order_items : list OrderItemRow.t }.

(** ** Responses *)

Inductive error : Type :=
  | MissingFields                      (* 400 Missing required fields: user_id, items (array) *)
  | UserNotFound                       (* 404 User not found *)
  | NoSuchProduct (pid : string)       (* 404 Product not found: <id> *)
  | ProductNotFound                    (* 404 Product not found *)
  | InsufficientStockFor (pname : string) (* 400 Insufficient stock for product: <name> *)
  | InsufficientStock                  (* 400 Insufficient stock *)
  | InvalidStatus                      (* 400 Invalid status. Must be one of: ... *)
  | OrderNotFound                      (* 404 Order not found *)
  | CannotCancelDelivered              (* 400 Cannot cancel delivered order *)
  | InvalidPrice                       (* 400 Price must be a positive number *)
  | Failed (what : string).            (* 500 Failed to ... *)

Inductive result (A : Type) : Type :=
  | Ok (a : A)
  | Err (e : error).
Arguments Ok {A} a.
Arguments Err {A} e.

Definition is_ok {A} (r : result A) : bool :=
  match r with Ok _ => true | Err _ => false end.

(** ** SQL statements *)

Module Sql.

Definition set_products (ps : gmap string Product.t) (db : Db) : Db :=
  mkDb (users db) ps (orders db) (order_items db).
Definition set_orders (os : gmap string Order.t) (db : Db) : Db :=
  mkDb (users db) (products db) os (order_items db).
Definition set_order_items (rows : list OrderItemRow.t) (db : Db) : Db :=
  mkDb (users db) (products db) (orders db) rows.

(** [INSERT INTO orders (id, user_id, total, shipping_address, status)]:
    throws on a duplicate primary key and when [user_id] references no user. *)
Definition insert_order (id : string) (o : Order.t) (db : Db) : option Db :=
  match orders db !! id with
  | Some _ => None
  | None =>
      match users db !! Order.user_id o with
      | None => None
      | Some _ => Some (set_orders (<[id := o]> (orders db)) db)
      end
  end.

Definition item_ids (rows : list OrderItemRow.t) : list string :=
  OrderItemRow.id <$> rows.

(** [INSERT INTO order_items (id, order_id, product_id, quantity, price)]:
    throws on a duplicate primary key and when [order_id] or [product_id]
    references no row. *)
Definition insert_order_item (r : OrderItemRow.t) (db : Db) : option Db :=
  if bool_decide (OrderItemRow.id r ∈ item_ids (order_items db)) then None
  else
    match orders db !! OrderItemRow.order_id r, products db !! OrderItemRow.product_id r with
    | Some _, Some _ => Some (set_order_items (order_items db ++ [r]) db)
    | _, _ => None
    end.

(** [UPDATE products SET stock = stock + ? WHERE id = ?] (with [- ?] the
    caller passes the opposite). *)
Definition add_stock (delta : Z) (pid : string) (db : Db) : Db :=
  set_products
    (alter (fun p => Product.with_stock (Product.stock p + delta) p) pid (products db)) db.

(** [UPDATE products SET stock = ? WHERE id = ?] *)
Definition write_stock (s : Z) (pid : string) (db : Db) : Db :=
  set_products (alter (Product.with_stock s) pid (products db)) db.

(** [SELECT * FROM order_items WHERE order_id = ?] *)
Definition items_of_order (oid : string) (db : Db) : list OrderItemRow.t :=
  filter (fun r => OrderItemRow.order_id r = oid) (order_items db).

(** [DELETE FROM order_items WHERE order_id = ?] *)
Definition delete_items_of_order (oid : string) (db : Db) : Db :=
  set_order_items (filter (fun r => OrderItemRow.order_id r ≠ oid) (order_items db)) db.

(** [DELETE FROM orders WHERE id = ?]: throws while a line item still
    references the order. *)
Definition delete_order (oid : string) (db : Db) : option Db :=
  if bool_decide (oid ∈ (OrderItemRow.order_id <$> order_items db)) then None
  else Some (set_orders (delete oid (orders db)) db).

(** [UPDATE orders SET status = ? WHERE id = ?] *)
Definition update_status (s : string) (oid : string) (db : Db) : Db :=
  set_orders (alter (Order.with_status s) oid (orders db)) db.

End Sql.

(** ** products.ts *)

(** JS [COALESCE(?, column)] on a NOT NULL column and on a nullable one; an
    absent body field is bound as NULL. *)
Definition coalesce {A} (param : option A) (column : A) : A :=
  match param with Some v => v | None => column end.
Definition coalesce_null {A} (param column : option A) : option A :=
  match param with Some v => Some v | None => column end.

(** Body of [PUT /api/products/:id]; [None] is an absent field. *)
Module ProductBody.
Record t : Type := mk {
  name : option string;
  description : option string;
  price : option Q;
  stock : option Z;
  category : option string;
  image_url : option string }.
End ProductBody.

(** [price !== undefined && (typeof price !== 'number' || price < 0)] *)
Definition bad_price (price : option Q) : bool :=
  match price with
  | None => false
  | Some p => negb (Qle_bool 0 p)
  end.

(** [PUT /api/products/:id] *)
Definition products_put (id : string) (body : ProductBody.t) (db : Db)
  : result (option Product.t) * Db :=
  match products db !! id with
  | None => (Err ProductNotFound, db)
  | Some _ =>
      if bad_price (ProductBody.price body) then (Err InvalidPrice, db)
      else
        let db' :=
          Sql.set_products
            (alter (fun p =>
                      Product.mk
                        (coalesce (ProductBody.name body) (Product.name p))
                        (coalesce_null (ProductBody.description body) (Product.description p))
                        (coalesce (ProductBody.price body) (Product.price p))
                        (coalesce (ProductBody.stock body) (Product.stock p))
                        (coalesce_null (ProductBody.category body) (Product.category p))
                        (coalesce_null (ProductBody.image_url body) (Product.image_url p)))
                   id (products db)) db in
        (Ok (products db' !! id), db')
  end.

(** [PATCH /api/products/:id/stock] with body [{ quantity }]; answers
    [{ id, stock: newStock }]. *)
Definition products_patch_stock (id : string) (quantity : Z) (db : Db) : result Z * Db :=
  match products db !! id with
  | None => (Err ProductNotFound, db)
  | Some existing =>
      let newStock := Js.add_int (Product.stock existing) quantity in
      if newStock <? 0 then (Err InsufficientStock, db)
      else (Ok newStock, Sql.write_stock newStock id db)
  end.

(** ** orders.ts *)

(** Body of [POST /api/orders]; [None] is an absent field. *)
Module OrderBody.
Record t : Type := mk {
  user_id : option string;
  items : option (list OrderItem.t);
  shipping_address : option string }.
End OrderBody.

(** JS truthiness of an optional string: absent and [''] are falsy. *)
Definition truthy (s : option string) : bool :=
  match s with
  | None => false
  | Some v => negb (String.eqb v "")
  end.

(** [shipping_address || ''] *)
Definition or_empty (s : option string) : string :=
  match s with
  | Some v => if truthy s then v else ""
  | None => ""
  end.

(** The answer of [GET /api/orders/:id]: the order row with the columns
    [u.name as user_name, u.email as user_email] of the LEFT JOIN on users
    (NULL when no user row matches), and [items], every line item with
    [p.name as product_name] of the LEFT JOIN on products. *)
Module OrderView.
Record t : Type := mk {
  order : Order.t;
  user_name : option string;
  user_email : option string;
  items : list (OrderItemRow.t * option string) }.
End OrderView.

(** [GET /api/orders/:id] *)
Definition orders_get (id : string) (db : Db) : result OrderView.t :=
  match orders db !! id with
  | None => Err OrderNotFound
  | Some order =>
      let user := users db !! Order.user_id order in
      Ok (OrderView.mk order (User.name <$> user) (User.email <$> user)
            ((fun r => (r, Product.name <$> products db !! OrderItemRow.product_id r))
               <$> Sql.items_of_order id db))
  end.

(** What [GET /api/orders/:id] answers from the [orders], [users] and
    [order_items] tables: everything but the [product_name] of the items. *)
Definition stored_order (id : string) (db : Db)
  : result (Order.t * option string * option string * list OrderItemRow.t) :=
  match orders_get id db with
  | Ok v =>
      Ok (OrderView.order v, OrderView.user_name v, OrderView.user_email v,
          fst <$> OrderView.items v)
  | Err e => Err e
  end.

(** The loop "Calculate total and verify products" of [POST /api/orders],
    started with [total = 0] and [orderItems = []]. *)
Fixpoint verify_products (db : Db) (items : list OrderItem.t)
    (total : Q) (orderItems : list PricedItem.t) : result (Q * list PricedItem.t) :=
  match items with
  | [] => Ok (total, orderItems)
  | item :: rest =>
      match products db !! OrderItem.product_id item with
      | None => Err (NoSuchProduct (OrderItem.product_id item))
      | Some product =>
          if Product.stock product <? OrderItem.quantity item
          then Err (InsufficientStockFor (Product.name product))
          else
            verify_products db rest
              (Js.add total (Js.mul_int (Product.price product) (OrderItem.quantity item)))
              (orderItems ++
                 [PricedItem.mk (OrderItem.product_id item) (OrderItem.quantity item)
                    (Product.price product)])
      end
  end.

(** The loop "Insert order items and update stock" inside the transaction;
    [k] counts the [uuidv4()] calls made so far. *)
Fixpoint insert_items (uuidv4 : nat -> string) (k : nat) (orderId : string)
    (orderItems : list PricedItem.t) (db : Db) : option Db :=
  match orderItems with
  | [] => Some db
  | item :: rest =>
      match
        Sql.insert_order_item
          (OrderItemRow.mk (uuidv4 k) orderId (PricedItem.product_id item)
             (PricedItem.quantity item) (PricedItem.price item)) db
      with
      | None => None
      | Some db1 =>
          insert_items uuidv4 (S k) orderId rest
            (Sql.add_stock (- PricedItem.quantity item) (PricedItem.product_id item) db1)
      end
  end.

(** The closure [createOrder = db.transaction(() => ...)]; [None] is a throw,
    which rolls back. *)
Definition createOrder (uuidv4 : nat -> string) (orderId user_id : string) (total : Q)
    (shipping_address : string) (orderItems : list PricedItem.t) (db : Db) : option Db :=
  match Sql.insert_order orderId (Order.mk user_id "pending" total shipping_address) db with
  | None => None
  | Some db1 => insert_items uuidv4 1%nat orderId orderItems db1
  end.

(** [POST /api/orders]; answers 201 with the freshly selected order row. *)
Definition orders_post (uuidv4 : nat -> string) (body : OrderBody.t) (db : Db)
  : result (string * option Order.t) * Db :=
  match OrderBody.user_id body, OrderBody.items body with
  | Some user_id, Some ((_ :: _) as items) =>
      if negb (truthy (Some user_id)) then (Err MissingFields, db)
      else
        match users db !! user_id with
        | None => (Err UserNotFound, db)
        | Some _ =>
            match verify_products db items 0%Q [] with
            | Err e => (Err e, db)
            | Ok (total, orderItems) =>
                let orderId := uuidv4 0%nat in
                match
                  createOrder uuidv4 orderId user_id total
                    (or_empty (OrderBody.shipping_address body)) orderItems db
                with
                | None => (Err (Failed "Failed to create order"), db)
                | Some db' => (Ok (orderId, orders db' !! orderId), db')
                end
            end
        end
  | _, _ => (Err MissingFields, db)
  end.

Definition validStatuses : list string :=
  ["pending"; "processing"; "shipped"; "delivered"; "cancelled"].

(** [PATCH /api/orders/:id/status]; answers the freshly selected row. *)
Definition orders_patch_status (id : string) (status : option string) (db : Db)
  : result (option Order.t) * Db :=
  match status with
  | Some s =>
      if negb (truthy status) || negb (bool_decide (s ∈ validStatuses))
      then (Err InvalidStatus, db)
      else
        match orders db !! id with
        | None => (Err OrderNotFound, db)
        | Some _ =>
            let db' := Sql.update_status s id db in
            (Ok (orders db' !! id), db')
        end
  | None => (Err InvalidStatus, db)
  end.

(** The loop "Restore stock" of the cancel transaction. *)
Fixpoint restore_stock (items : list OrderItemRow.t) (db : Db) : Db :=
  match items with
  | [] => db
  | item :: rest =>
      restore_stock rest
        (Sql.add_stock (OrderItemRow.quantity item) (OrderItemRow.product_id item) db)
  end.

(** The closure [cancelOrder = db.transaction(() => ...)]. *)
Definition cancelOrder (id : string) (db : Db) : option Db :=
  let items := Sql.items_of_order id db in
  Sql.delete_order id (Sql.delete_items_of_order id (restore_stock items db)).

(** [DELETE /api/orders/:id] *)
Definition orders_delete (id : string) (db : Db) : result unit * Db :=
  match orders db !! id with
  | None => (Err OrderNotFound, db)
  | Some order =>
      if String.eqb (Order.status order) "delivered" then (Err CannotCancelDelivered, db)
      else
        match cancelOrder id db with
        | None => (Err (Failed "Failed to cancel order"), db)
        | Some db' => (Ok tt, db')
        end
  end.

(** ** Views used in the statements *)

(** The stock of a product, as a later [SELECT] sees it. *)
Definition stock_of (db : Db) (pid : string) : option Z :=
  Product.stock <$> products db !! pid.

(** Every product row has a non-negative stock. *)
Definition stock_nonneg (db : Db) : Prop :=
  ∀ pid p, products db !! pid = Some p → 0 <= Product.stock p.

(** Quantity ordered of product [pid] over a list of request items. *)
Fixpoint ordered_qty (pid : string) (items : list OrderItem.t) : Z :=
  match items with
  | [] => 0
  | item :: rest =>
      (if bool_decide (OrderItem.product_id item = pid) then OrderItem.quantity item else 0)
      + ordered_qty pid rest
  end.

(** Quantity of product [pid] over a list of line-item rows. *)
Fixpoint rows_qty (pid : string) (rows : list OrderItemRow.t) : Z :=
  match rows with
  | [] => 0
  | r :: rest =>
      (if bool_decide (OrderItemRow.product_id r = pid) then OrderItemRow.quantity r else 0)
      + rows_qty pid rest
  end.


(** Quantity of product [pid] over the handler's [orderItems]. *)
Fixpoint priced_qty (pid : string) (orderItems : list PricedItem.t) : Z :=
  match orderItems with
  | [] => 0
  | item :: rest =>
      (if bool_decide (PricedItem.product_id item = pid) then PricedItem.quantity item else 0)
      + priced_qty pid rest
  end.

(** The catalog price of [pid] in [db] (0 when there is no such product). *)
Definition catalog_price (db : Db) (pid : string) : Q :=
  match products db !! pid with
  | Some p => Product.price p
  | None => 0%Q
  end.

(** [product.price * item.quantity] at the prices of [db]. *)
Definition line_amount (db : Db) (item : OrderItem.t) : Q :=
  Js.mul_int (catalog_price db (OrderItem.product_id item)) (OrderItem.quantity item).

(** The sum over the items of price times quantity: the amounts added one
    after the other, in the order of the request, starting from 0. *)
Definition order_total (db : Db) (items : list OrderItem.t) : Q :=
  fold_left (fun t item => Js.add t (line_amount db item)) items 0%Q.



(** The entry pushed on [orderItems] for a request item. *)
Definition priced (db : Db) (item : OrderItem.t) : PricedItem.t :=
  PricedItem.mk (OrderItem.product_id item) (OrderItem.quantity item)
    (catalog_price db (OrderItem.product_id item)).

(** The rows the transaction inserts for [orderItems], ids drawn from call
    [k] on. *)
Fixpoint item_rows (uuidv4 : nat -> string) (k : nat) (orderId : string)
    (orderItems : list PricedItem.t) : list OrderItemRow.t :=
  match orderItems with
  | [] => []
  | item :: rest =>
      OrderItemRow.mk (uuidv4 k) orderId (PricedItem.product_id item)
        (PricedItem.quantity item) (PricedItem.price item)
      :: item_rows uuidv4 (S k) orderId rest
  end.

(** The item passes both checks of the validation loop in [db]. *)
Definition sufficient (db : Db) (item : OrderItem.t) : Prop :=
  ∃ p, products db !! OrderItem.product_id item = Some p
       ∧ OrderItem.quantity item <= Product.stock p.

(** The ids a request with [n] items draws are unused: call 0 names no
    order, calls 1..n are pairwise distinct and name no line item. *)
Definition fresh_uuids (uuidv4 : nat -> string) (n : nat) (db : Db) : Prop :=
  orders db !! uuidv4 0%nat = None
  ∧ NoDup (uuidv4 <$> seq 1 n)
  ∧ ∀ i, (1 <= i <= n)%nat → uuidv4 i ∉ Sql.item_ids (order_items db).

(** Foreign key of [order_items.order_id]: every line item belongs to an
    order row. *)
Definition items_reference_orders (db : Db) : Prop :=
  ∀ r, r ∈ order_items db → is_Some (orders db !! OrderItemRow.order_id r).

(** What the validation loop can answer when it stops early. *)
Definition validation_error (e : error) : Prop :=
  match e with
  | NoSuchProduct _ | InsufficientStockFor _ => True
  | _ => False
  end.

(** The order row the handler inserts. *)
Definition placed_order (db : Db) (uid : string) (items : list OrderItem.t)
    (address : option string) : Order.t :=
  Order.mk uid "pending"
    (order_total db items)
    (or_empty address).

(** Line item [r] of order [oid] records request item [item] at the price
    the product has in [db]. *)
Definition snapshot_of (db : Db) (oid : string) (item : OrderItem.t)
    (r : OrderItemRow.t) : Prop :=
  OrderItemRow.order_id r = oid
  ∧ OrderItemRow.product_id r = OrderItem.product_id item
  ∧ OrderItemRow.quantity r = OrderItem.quantity item
  ∧ ∃ p, products db !! OrderItem.product_id item = Some p
         ∧ OrderItemRow.price r = Product.price p.

(** ** Request sequences *)

Inductive request : Type :=
  | AdjustStock (id : string) (quantity : Z)
  | CreateOrder (uuidv4 : nat -> string) (body : OrderBody.t)
  | CancelOrder (id : string)
  | UpdateStatus (id : string) (status : option string)
  | UpdateProduct (id : string) (body : ProductBody.t).

Definition handle (r : request) (db : Db) : Db :=
  match r with
  | AdjustStock id q => snd (products_patch_stock id q db)
  | CreateOrder uuidv4 body => snd (orders_post uuidv4 body db)
  | CancelOrder id => snd (orders_delete id db)
  | UpdateStatus id st => snd (orders_patch_status id st db)
  | UpdateProduct id body => snd (products_put id body db)
  end.

Fixpoint run (rs : list request) (db : Db) : Db :=
  match rs with
  | [] => db
  | r :: rest => run rest (handle r db)
  end.

(** Every stored line item has a quantity that is not negative. *)
Definition quantities_nonneg (db : Db) : Prop :=
  Forall (fun r => 0 <= OrderItemRow.quantity r) (order_items db).

(** Requests as the specification's data model expects them: an order names
    no product twice and asks for no negative quantity, and a catalog update
    sets no negative stock. *)
Definition plain_request (r : request) : Prop :=
  match r with
  | CreateOrder _ body =>
      ∀ items, OrderBody.items body = Some items →
               NoDup (OrderItem.product_id <$> items)
               ∧ Forall (fun item => 0 <= OrderItem.quantity item) items
  | UpdateProduct _ body =>
      ∀ s, ProductBody.stock body = Some s → 0 <= s
  | AdjustStock _ _ | CancelOrder _ | UpdateStatus _ _ => True
  end.

(** The same body posted once per id oracle, one request after the other. *)
Fixpoint serve (gens : list (nat -> string)) (body : OrderBody.t) (db : Db)
  : list (result (string * option Order.t)) * Db :=
  match gens with
  | [] => ([], db)
  | g :: rest =>
      let '(r, db1) := orders_post g body db in
      let '(rs, db2) := serve rest body db1 in
      (r :: rs, db2)
  end.

(** The ids the requests of [gens] draw (one order id, one item id each) are
    pairwise distinct and unused in [db]. *)
Definition fresh_single_orders (gens : list (nat -> string)) (db : Db) : Prop :=
  NoDup ((fun g => g 0%nat) <$> gens)
  ∧ NoDup ((fun g => g 1%nat) <$> gens)
  ∧ Forall (fun g => orders db !! g 0%nat = None
                     ∧ g 1%nat ∉ Sql.item_ids (order_items db)) gens.

(** A request for one unit of one product. *)
Definition single_body (uid pid : string) (address : option string) : OrderBody.t :=
  OrderBody.mk (Some uid) (Some [OrderItem.mk pid 1]) address.

(** ** Fixtures, after [tests/api/helpers/api-client.ts] *)

Module Fixture.

Definition laptop : Product.t :=
  Product.mk "Test Laptop" (Some "A test laptop for automation") (99999 # 100) 10
    (Some "electronics") None.
Definition shirt : Product.t :=
  Product.mk "Test Shirt" (Some "A test shirt") (2999 # 100) 50 (Some "clothing") None.
Definition tester : User.t := User.mk "newuser@example.com" "New User" "password123" "user".

(** One user, the two products of the order tests, no orders. *)
Definition db0 : Db :=
  mkDb {[ "u1" := tester ]} (<[ "p2" := shirt ]> {[ "p1" := laptop ]}) ∅ [].

(** An id oracle: call [k] answers [tag] followed by the letter number [k]. *)
Definition ids (tag : string) (k : nat) : string :=
  tag +:+ String (Ascii.ascii_of_nat (97 + k)) "".

Definition order_body (items : list OrderItem.t) : OrderBody.t :=
  OrderBody.mk (Some "u1") (Some items) None.

(** Six laptops, twice, in one request. *)
Definition laptops_twice : list OrderItem.t :=
  [OrderItem.mk "p1" 6; OrderItem.mk "p1" 6].

(** An unknown product, then more laptops than there are. *)
Definition ghost_then_laptops : list OrderItem.t :=
  [OrderItem.mk "ghost" 1; OrderItem.mk "p1" 100].

(** Three shirts, then more laptops than there are. *)
Definition shirts_then_laptops : list OrderItem.t :=
  [OrderItem.mk "p2" 3; OrderItem.mk "p1" 100].

(** A request for minus three laptops. *)
Definition minus_three : list OrderItem.t := [OrderItem.mk "p1" (-3)].

(** The request of the test "should create order with multiple items". *)
Definition two_items : OrderBody.t :=
  OrderBody.mk (Some "u1") (Some [OrderItem.mk "p1" 1; OrderItem.mk "p2" 3])
    (Some "123 Test Street").
(** Its total, [999.99 * 1 + 29.99 * 3] in doubles, is the double 1089.96. *)
Definition two_items_order : Order.t :=
  Order.mk "u1" "pending" (1198423693810729 # 1099511627776) "123 Test Street".

(** [db0] after one order of two laptops was placed and marked delivered. *)
Definition db_delivered : Db :=
  mkDb {[ "u1" := tester ]}
    (<[ "p2" := shirt ]> {[ "p1" := Product.with_stock 8 laptop ]})
    {[ "o1" := Order.mk "u1" "delivered" (199998 # 100) "" ]}
    [OrderItemRow.mk "i1" "o1" "p1" 2 (99999 # 100)].

(** The same order while it is still on its way. *)
Definition shipped_order : Order.t := Order.mk "u1" "shipped" (199998 # 100) "".
Definition db_shipped : Db :=
  mkDb {[ "u1" := tester ]}
    (<[ "p2" := shirt ]> {[ "p1" := Product.with_stock 8 laptop ]})
    {[ "o1" := shipped_order ]}
    [OrderItemRow.mk "i1" "o1" "p1" 2 (99999 # 100)].

(** A body that only changes the price. *)
Definition reprice (p : Q) : ProductBody.t :=
  ProductBody.mk None None (Some p) None None None.

End Fixture.

(** * The other routes

    [src/app/routes/users.ts], the remaining routes of
    [src/app/routes/products.ts] and [clearDatabase] of
    [src/app/database.ts], over the same [Db].  The two list routes
    ([GET /api/orders], [GET /api/products]) sort by [created_at] and filter
    with [LIKE]; they are not embedded. *)

(** An answer [res.status(status).json(...)]: the [data] of a success or the
    [error] string of a refusal. *)
Inductive reply (A : Type) : Type :=
  | Answer (status : Z) (data : A)
  | Refusal (status : Z) (message : string).
Arguments Answer {A} status data.
Arguments Refusal {A} status message.

Definition answered {A} (r : reply A) : bool :=
  match r with Answer _ _ => true | Refusal _ _ => false end.

(** ** More SQL statements *)

Module Stmt.

Definition set_users (us : gmap string User.t) (db : Db) : Db :=
  mkDb us (products db) (orders db) (order_items db).

(** [SELECT * FROM users WHERE email = ?]: the matching rows.  The column is
    UNIQUE, so [.get] has at most one row to choose from. *)
Definition users_with_email (email : string) (db : Db) : list (string * User.t) :=
  filter (fun kv => User.email (snd kv) = email) (map_to_list (users db)).

Definition user_by_email (email : string) (db : Db) : option (string * User.t) :=
  head (users_with_email email db).

(** [INSERT INTO users (id, email, name, password, role)]: throws "UNIQUE
    constraint failed" on a duplicate primary key and on a duplicate email. *)
Definition insert_user (id : string) (u : User.t) (db : Db) : option Db :=
  match users db !! id with
  | Some _ => None
  | None =>
      match users_with_email (User.email u) db with
      | [] => Some (set_users (<[ id := u ]> (users db)) db)
      | _ :: _ => None
      end
  end.

(** [UPDATE users SET email = COALESCE(?, email), name = COALESCE(?, name),
    role = COALESCE(?, role) WHERE id = ?]: throws when another row holds
    the new email. *)
Definition update_user (id : string) (email name role : option string) (db : Db)
  : option Db :=
  match users db !! id with
  | None => Some db
  | Some u =>
      let u' :=
        User.mk (coalesce email (User.email u)) (coalesce name (User.name u))
          (User.password u) (coalesce role (User.role u)) in
      match filter (fun kv => fst kv ≠ id) (users_with_email (User.email u') db) with
      | [] => Some (set_users (<[ id := u' ]> (users db)) db)
      | _ :: _ => None
      end
  end.

(** [SELECT * FROM orders WHERE user_id = ?], as the foreign key check of a
    user deletion scans it. *)
Definition orders_of_user (uid : string) (db : Db) : list (string * Order.t) :=
  filter (fun kv => Order.user_id (snd kv) = uid) (map_to_list (orders db)).

(** [DELETE FROM users WHERE id = ?]: throws while an order references the
    user. *)
Definition delete_user (id : string) (db : Db) : option Db :=
  match users db !! id with
  | None => Some db
  | Some _ =>
      match orders_of_user id db with
      | [] => Some (set_users (delete id (users db)) db)
      | _ :: _ => None
      end
  end.

(** [INSERT INTO products (id, name, description, price, stock, category,
    image_url)]: throws on a duplicate primary key. *)
Definition insert_product (id : string) (p : Product.t) (db : Db) : option Db :=
  match products db !! id with
  | Some _ => None
  | None => Some (Sql.set_products (<[ id := p ]> (products db)) db)
  end.

(** [DELETE FROM products WHERE id = ?]: throws while a line item references
    the product. *)
Definition delete_product (id : string) (db : Db) : option Db :=
  match products db !! id with
  | None => Some db
  | Some _ =>
      if bool_decide (id ∈ (OrderItemRow.product_id <$> order_items db)) then None
      else Some (Sql.set_products (delete id (products db)) db)
  end.

(** [DELETE FROM order_items] *)
Definition delete_all_order_items (db : Db) : option Db :=
  Some (Sql.set_order_items [] db).

(** [DELETE FROM orders]: throws when a line item references one of the
    orders. *)
Definition delete_all_orders (db : Db) : option Db :=
  match filter (fun r => is_Some (orders db !! OrderItemRow.order_id r)) (order_items db) with
  | [] => Some (Sql.set_orders ∅ db)
  | _ :: _ => None
  end.

(** [DELETE FROM products]: throws when a line item references one of the
    products. *)
Definition delete_all_products (db : Db) : option Db :=
  match filter (fun r => is_Some (products db !! OrderItemRow.product_id r)) (order_items db) with
  | [] => Some (Sql.set_products ∅ db)
  | _ :: _ => None
  end.

(** [DELETE FROM users]: throws when an order references one of the users. *)
Definition delete_all_users (db : Db) : option Db :=
  match filter (fun kv => is_Some (users db !! Order.user_id (snd kv)))
          (map_to_list (orders db)) with
  | [] => Some (set_users ∅ db)
  | _ :: _ => None
  end.

End Stmt.

(** ** database.ts *)

(** A run of [db.exec] calls outside any transaction: the first statement
    that throws stops the run and keeps what the earlier ones did. *)
Fixpoint exec_each (stmts : list (Db -> option Db)) (db : Db) : bool * Db :=
  match stmts with
  | [] => (true, db)
  | stmt :: rest =>
      match stmt db with
      | None => (false, db)
      | Some db' => exec_each rest db'
      end
  end.

(** [clearDatabase()]; the flag tells whether it returned normally. *)
Definition clearDatabase (db : Db) : bool * Db :=
  exec_each
    [Stmt.delete_all_order_items; Stmt.delete_all_orders;
     Stmt.delete_all_products; Stmt.delete_all_users] db.

Definition empty_db : Db := mkDb ∅ ∅ ∅ [].

(** ** users.ts *)

(** Body of the [/api/users] routes; [None] is an absent field. *)
Module UserBody.
Record t : Type := mk {
  email : option string;
  name : option string;
  password : option string;
  role : option string }.
End UserBody.

(** The columns [id, email, name, role] the user routes answer with. *)
Module UserView.
Record t : Type := mk { id : string; email : string; name : string; role : string }.
End UserView.

(** The [data] of a successful login. *)
Module Session.
Record t : Type := mk {
  id : string;
  email : string;
  name : string;
  role : string;
  token : string }.
End Session.

Definition view_user (id : string) (u : User.t) : UserView.t :=
  UserView.mk id (User.email u) (User.name u) (User.role u).

(** [GET /api/users/:id] *)
Definition users_get (id : string) (db : Db) : reply UserView.t :=
  match users db !! id with
  | None => Refusal 404 "User not found"
  | Some u => Answer 200 (view_user id u)
  end.

(** [POST /api/users]; [role] defaults to ['user'].  Either UNIQUE failure of
    the insert is answered 409. *)
Definition users_post (uuidv4 : nat -> string) (body : UserBody.t) (db : Db)
  : reply UserView.t * Db :=
  match UserBody.email body, UserBody.name body, UserBody.password body with
  | Some email, Some name, Some password =>
      if negb (truthy (Some email)) || negb (truthy (Some name))
         || negb (truthy (Some password))
      then (Refusal 400 "Missing required fields: email, name, password", db)
      else
        let role := coalesce (UserBody.role body) "user" in
        let id := uuidv4 0%nat in
        match Stmt.insert_user id (User.mk email name password role) db with
        | None => (Refusal 409 "Email already exists", db)
        | Some db' => (Answer 201 (UserView.mk id email name role), db')
        end
  | _, _, _ => (Refusal 400 "Missing required fields: email, name, password", db)
  end.

(** [PUT /api/users/:id]; reads [email], [name] and [role] of the body only. *)
Definition users_put (id : string) (body : UserBody.t) (db : Db)
  : reply (option UserView.t) * Db :=
  match users db !! id with
  | None => (Refusal 404 "User not found", db)
  | Some _ =>
      match
        Stmt.update_user id (UserBody.email body) (UserBody.name body)
          (UserBody.role body) db
      with
      | None => (Refusal 500 "Failed to update user", db)
      | Some db' => (Answer 200 (view_user id <$> users db' !! id), db')
      end
  end.

(** [DELETE /api/users/:id] *)
Definition users_delete (id : string) (db : Db) : reply unit * Db :=
  match users db !! id with
  | None => (Refusal 404 "User not found", db)
  | Some _ =>
      match Stmt.delete_user id db with
      | None => (Refusal 500 "Failed to delete user", db)
      | Some db' => (Answer 200 tt, db')
      end
  end.

(** [POST /api/users/login]; reads [email] and [password] of the body. *)
Definition users_login (body : UserBody.t) (db : Db) : reply Session.t :=
  match UserBody.email body, UserBody.password body with
  | Some email, Some password =>
      if negb (truthy (Some email)) || negb (truthy (Some password))
      then Refusal 400 "Email and password required"
      else
        match Stmt.user_by_email email db with
        | None => Refusal 401 "Invalid credentials"
        | Some (id, user) =>
            if negb (String.eqb (User.password user) password)
            then Refusal 401 "Invalid credentials"
            else
              Answer 200
                (Session.mk id (User.email user) (User.name user) (User.role user)
                   ("mock-jwt-token-" +:+ id))
        end
  | _, _ => Refusal 400 "Email and password required"
  end.

(** ** products.ts, the remaining routes *)

(** [GET /api/products/:id] *)
Definition products_get (id : string) (db : Db) : reply Product.t :=
  match products db !! id with
  | None => Refusal 404 "Product not found"
  | Some product => Answer 200 product
  end.

(** [POST /api/products]; [stock] defaults to 0; answers the freshly
    selected row. *)
Definition products_post (uuidv4 : nat -> string) (body : ProductBody.t) (db : Db)
  : reply (string * option Product.t) * Db :=
  match ProductBody.name body, ProductBody.price body with
  | Some name, Some price =>
      if negb (truthy (Some name))
      then (Refusal 400 "Missing required fields: name, price", db)
      else if bad_price (Some price)
      then (Refusal 400 "Price must be a positive number", db)
      else
        let id := uuidv4 0%nat in
        match
          Stmt.insert_product id
            (Product.mk name (ProductBody.description body) price
               (coalesce (ProductBody.stock body) 0) (ProductBody.category body)
               (ProductBody.image_url body)) db
        with
        | None => (Refusal 500 "Failed to create product", db)
        | Some db' => (Answer 201 (id, products db' !! id), db')
        end
  | _, _ => (Refusal 400 "Missing required fields: name, price", db)
  end.

(** [DELETE /api/products/:id] *)
Definition products_delete (id : string) (db : Db) : reply unit * Db :=
  match products db !! id with
  | None => (Refusal 404 "Product not found", db)
  | Some _ =>
      match Stmt.delete_product id db with
      | None => (Refusal 500 "Failed to delete product", db)
      | Some db' => (Answer 200 tt, db')
      end
  end.

(** The row the UPDATE of [PUT /api/products/:id] leaves for [body] over
    [p]. *)
Definition put_row (body : ProductBody.t) (p : Product.t) : Product.t :=
  Product.mk
    (coalesce (ProductBody.name body) (Product.name p))
    (coalesce_null (ProductBody.description body) (Product.description p))
    (coalesce (ProductBody.price body) (Product.price p))
    (coalesce (ProductBody.stock body) (Product.stock p))
    (coalesce_null (ProductBody.category body) (Product.category p))
    (coalesce_null (ProductBody.image_url body) (Product.image_url p)).

(** ** Every route that writes *)

Inductive api_call : Type :=
  | Engine (r : request)
  | CreateProduct (uuidv4 : nat -> string) (body : ProductBody.t)
  | DeleteProduct (id : string)
  | CreateUser (uuidv4 : nat -> string) (body : UserBody.t)
  | UpdateUser (id : string) (body : UserBody.t)
  | DeleteUser (id : string)
  | ClearDatabase.

Definition api_handle (c : api_call) (db : Db) : Db :=
  match c with
  | Engine r => handle r db
  | CreateProduct uuidv4 body => snd (products_post uuidv4 body db)
  | DeleteProduct id => snd (products_delete id db)
  | CreateUser uuidv4 body => snd (users_post uuidv4 body db)
  | UpdateUser id body => snd (users_put id body db)
  | DeleteUser id => snd (users_delete id db)
  | ClearDatabase => snd (clearDatabase db)
  end.

Fixpoint api_run (cs : list api_call) (db : Db) : Db :=
  match cs with
  | [] => db
  | c :: rest => api_run rest (api_handle c db)
  end.

(** ** What the schema promises *)

(** [order_items.product_id REFERENCES products(id)] *)
Definition items_reference_products (db : Db) : Prop :=
  ∀ r, r ∈ order_items db → is_Some (products db !! OrderItemRow.product_id r).

(** [orders.user_id REFERENCES users(id)] *)
Definition orders_reference_users (db : Db) : Prop :=
  ∀ id o, orders db !! id = Some o → is_Some (users db !! Order.user_id o).

(** [users.email UNIQUE] *)
Definition emails_unique (db : Db) : Prop :=
  ∀ i j u v, users db !! i = Some u → users db !! j = Some v →
             User.email u = User.email v → i = j.

(** [order_items.id PRIMARY KEY] *)
Definition item_ids_unique (db : Db) : Prop :=
  NoDup (Sql.item_ids (order_items db)).

Definition integrity (db : Db) : Prop :=
  items_reference_orders db ∧ items_reference_products db
  ∧ orders_reference_users db ∧ emails_unique db ∧ item_ids_unique db.

(** * The store front

    The cart of [src/app/public/app.js]: [state.products], [state.cart] and
    the functions that change them.  DOM updates are left out; a toast is
    returned as its message and type. *)

(** A product of the listing [state.products]: a row with its [id]. *)
Module Listed.
Record t : Type := mk { id : string; row : Product.t }.
End Listed.

(** An element [{ product, quantity }] of [state.cart]. *)
Module CartItem.
Record t : Type := mk { product : Listed.t; quantity : Z }.

Definition product_id (item : t) : string := Listed.id (product item).
Definition with_quantity (q : Z) (item : t) : t := mk (product item) q.
End CartItem.

(** [state], without [isLoading]. *)
Module Client.
Record t : Type := mk {
  user : option Session.t;
  products : list Listed.t;
  cart : list CartItem.t }.

Definition set_cart (c : list CartItem.t) (st : t) : t := mk (user st) (products st) c.
End Client.

Definition toast : Type := string * string.

Definition stock_limit_reached : toast :=
  ("Cannot add more items - stock limit reached", "warning").

(** [state.cart.find(item => item.product.id === productId)], with the
    position of the item found. *)
Definition find_item (productId : string) (cart : list CartItem.t)
  : option (nat * CartItem.t) :=
  list_find (fun item => CartItem.product_id item = productId) cart.

(** [state.products.find(p => p.id === productId)] *)
Definition find_product (productId : string) (listing : list Listed.t)
  : option (nat * Listed.t) :=
  list_find (fun p => Listed.id p = productId) listing.

(** [addToCart(productId)] *)
Definition addToCart (productId : string) (st : Client.t) : Client.t * option toast :=
  match find_product productId (Client.products st) with
  | None => (st, None)
  | Some (_, product) =>
      match find_item productId (Client.cart st) with
      | Some (i, existingItem) =>
          if CartItem.quantity existingItem >=? Product.stock (Listed.row product)
          then (st, Some stock_limit_reached)
          else
            (Client.set_cart
               (<[ i := CartItem.with_quantity (CartItem.quantity existingItem + 1)
                          existingItem ]> (Client.cart st)) st,
             Some (Product.name (Listed.row product) +:+ " added to cart", "success"))
      | None =>
          (Client.set_cart (Client.cart st ++ [CartItem.mk product 1]) st,
           Some (Product.name (Listed.row product) +:+ " added to cart", "success"))
      end
  end.

(** [removeFromCart(productId)] *)
Definition removeFromCart (productId : string) (st : Client.t) : Client.t :=
  Client.set_cart
    (filter (fun item => CartItem.product_id item ≠ productId) (Client.cart st)) st.

(** [updateQuantity(productId, change)] *)
Definition updateQuantity (productId : string) (change : Z) (st : Client.t)
  : Client.t * option toast :=
  match find_item productId (Client.cart st) with
  | None => (st, None)
  | Some (i, item) =>
      let newQuantity := CartItem.quantity item + change in
      if newQuantity <=? 0 then (removeFromCart productId st, None)
      else if newQuantity >? Product.stock (Listed.row (CartItem.product item))
      then (st, Some stock_limit_reached)
      else
        (Client.set_cart
           (<[ i := CartItem.with_quantity newQuantity item ]> (Client.cart st)) st,
         None)
  end.

(** [totalItems] and [totalAmount] of [updateCart()]. *)
Definition totalItems (cart : list CartItem.t) : Z :=
  fold_left (fun sum item => sum + CartItem.quantity item) cart 0.


(** [orderData] of [handleCheckout(e)], from the logged-in user, the three
    form fields and the cart. *)
Definition orderData (user : Session.t) (address city zip : string)
    (cart : list CartItem.t) : OrderBody.t :=
  OrderBody.mk (Some (Session.id user))
    (Some ((fun item => OrderItem.mk (CartItem.product_id item) (CartItem.quantity item))
             <$> cart))
    (Some (address +:+ ", " +:+ city +:+ " " +:+ zip)).

(** The clicks that change the cart. *)
Inductive click : Type :=
  | Add (productId : string)
  | Remove (productId : string)
  | Change (productId : string) (change : Z).

Definition on_click (c : click) (st : Client.t) : Client.t :=
  match c with
  | Add productId => fst (addToCart productId st)
  | Remove productId => removeFromCart productId st
  | Change productId change => fst (updateQuantity productId change st)
  end.

Fixpoint clicks (cs : list click) (st : Client.t) : Client.t :=
  match cs with
  | [] => st
  | c :: rest => clicks rest (on_click c st)
  end.

(** No product twice, every quantity at least 1. *)
Definition tidy_cart (cart : list CartItem.t) : Prop :=
  NoDup (CartItem.product_id <$> cart)
  ∧ Forall (fun item => 1 <= CartItem.quantity item) cart.

(** Every cart item carries the listed product of its id, and no more of it
    than the listing has in stock (one unit is always let in). *)
Definition cart_within_listing (st : Client.t) : Prop :=
  Forall (fun item =>
            (∃ i, find_product (CartItem.product_id item) (Client.products st)
                  = Some (i, CartItem.product item))
            ∧ CartItem.quantity item
              <= Z.max 1 (Product.stock (Listed.row (CartItem.product item))))
    (Client.cart st).

(** The listing shows the catalog rows of [db]. *)
Definition listing_mirrors (listing : list Listed.t) (db : Db) : Prop :=
  Forall (fun p => products db !! Listed.id p = Some (Listed.row p)) listing.

(** ** More fixtures *)

Module Sample.

(** A registration, the row it stores and what the route answers when the
    id drawn is "ua". *)
Definition alice : UserBody.t :=
  UserBody.mk (Some "alice@test.com") (Some "Alice") (Some "alice123") None.
Definition alice_row : User.t := User.mk "alice@test.com" "Alice" "alice123" "user".
Definition alice_view : UserView.t := UserView.mk "ua" "alice@test.com" "Alice" "user".
Definition db_registered : Db :=
  Stmt.set_users (<[ "ua" := alice_row ]> (users Fixture.db0)) Fixture.db0.

(** The login of the user of [Fixture.db0]. *)
Definition tester_login : UserBody.t :=
  UserBody.mk (Some "newuser@example.com") None (Some "password123") None.

(** A new email for that user, with a password the route does not read. *)
Definition new_email : UserBody.t :=
  UserBody.mk (Some "renamed@example.com") None (Some "ignored") None.
Definition renamed_row : User.t :=
  User.mk "renamed@example.com" "New User" "password123" "user".
Definition db_renamed : Db :=
  Stmt.set_users (<[ "u1" := renamed_row ]> (users Fixture.db0)) Fixture.db0.

(** The book of the product tests, without a stock. *)
Definition book : ProductBody.t :=
  ProductBody.mk (Some "Test Book") (Some "A test book") (Some (1999 # 100)) None
    (Some "books") None.
Definition book_row : Product.t :=
  Product.mk "Test Book" (Some "A test book") (1999 # 100) 0 (Some "books") None.

(** A few requests, starting with a registration. *)
Definition calls : list api_call :=
  [CreateUser (Fixture.ids "u") alice;
   CreateProduct (Fixture.ids "p") book;
   Engine (AdjustStock "pa" 3);
   Engine (CreateOrder (Fixture.ids "o")
             (OrderBody.mk (Some "ua") (Some [OrderItem.mk "pa" 2]) None));
   DeleteUser "ua";
   DeleteProduct "pa";
   Engine (CancelOrder "oa");
   DeleteUser "ua"].

(** Plain requests: an order, a sale over the counter, a cancellation. *)
Definition plain_calls : list request :=
  [CreateOrder (Fixture.ids "o") Fixture.two_items;
   AdjustStock "p1" (-2);
   CancelOrder "oa"].

(** Two laptops left, and three customers. *)
Definition db_two_left : Db :=
  mkDb {[ "u1" := Fixture.tester ]}
    (<[ "p2" := Fixture.shirt ]> {[ "p1" := Product.with_stock 2 Fixture.laptop ]}) ∅ [].
Definition three_customers : list (nat -> string) :=
  [Fixture.ids "a"; Fixture.ids "b"; Fixture.ids "c"].

(** One laptop left. *)
Definition db_one_left : Db :=
  mkDb {[ "u1" := Fixture.tester ]}
    (<[ "p2" := Fixture.shirt ]> {[ "p1" := Product.with_stock 1 Fixture.laptop ]}) ∅ [].

(** [Fixture.db0] after the one request for six laptops twice: the stock of
    the laptop is -2. *)
Definition db_oversold : Db :=
  snd (orders_post (Fixture.ids "o") (Fixture.order_body Fixture.laptops_twice) Fixture.db0).

(** The shipped order of two laptops, and next to it an order of three
    shirts; a body that renames the shirt. *)
Definition db_two_orders : Db :=
  mkDb {[ "u1" := Fixture.tester ]}
    (<[ "p2" := Product.with_stock 47 Fixture.shirt ]>
       {[ "p1" := Product.with_stock 8 Fixture.laptop ]})
    (<[ "oa" := Order.mk "u1" "pending" (3165537956832215 # 35184372088832) "" ]>
       {[ "o1" := Fixture.shipped_order ]})
    [OrderItemRow.mk "i1" "o1" "p1" 2 (99999 # 100);
     OrderItemRow.mk "ob" "oa" "p2" 3 (2999 # 100)].
Definition rename_shirt : ProductBody.t :=
  ProductBody.mk (Some "Plain Shirt") None None None None None.

(** The store front of the user of [Fixture.db0], with the two products
    listed. *)
Definition session : Session.t :=
  Session.mk "u1" "newuser@example.com" "New User" "user" "mock-jwt-token-u1".
Definition listed_laptop : Listed.t := Listed.mk "p1" Fixture.laptop.
Definition listed_shirt : Listed.t := Listed.mk "p2" Fixture.shirt.
Definition listing : list Listed.t := [listed_laptop; listed_shirt].
Definition shopper : Client.t := Client.mk (Some session) listing [].
Definition two_laptops : CartItem.t := CartItem.mk listed_laptop 2.
Definition basket : Client.t := Client.mk (Some session) listing [two_laptops].
Definition some_clicks : list click :=
  [Add "p1"; Add "p1"; Add "p2"; Change "p2" 2; Change "p1" (-1); Remove "p2"].

(** The shirt is sold out, in the database and in the listing the store
    front shows; the shopper has two laptops in the cart. *)
Definition sold_out_shirt : Listed.t := Listed.mk "p2" (Product.with_stock 0 Fixture.shirt).
Definition db_sold_out : Db :=
  mkDb {[ "u1" := Fixture.tester ]}
    (<[ "p2" := Product.with_stock 0 Fixture.shirt ]> {[ "p1" := Fixture.laptop ]}) ∅ [].
Definition late_shopper : Client.t :=
  Client.mk (Some session) [listed_laptop; sold_out_shirt] [two_laptops].

End Sample.

(** * Properties *)

(** ** Doubles *)




















(** Integers up to [2 ^ 53] in magnitude are doubles; so the sum of two safe
    integers is exact when it is a safe integer. *)
Lemma Js_of_int_exact (z : Z) : Z.abs z <= 2 ^ 53 → Js.of_int z = z.
Proof. intros Hz. unfold Js.of_int. by destruct (Z.leb_spec (Z.abs z) (2 ^ 53)); [|lia]. Qed.

Lemma Js_of_int_safe (z : Z) : Js.safe_integer z → Js.of_int z = z.
Proof.
  unfold Js.safe_integer, Js.MAX_SAFE_INTEGER. intros Hz. apply Js_of_int_exact.
  pose proof (Z.pow_pos_nonneg 2 53). lia.
Qed.

Lemma Js_add_int_safe (a b : Z) :
  Js.safe_integer a → Js.safe_integer b → Js.safe_integer (a + b) →
  Js.add_int a b = a + b.
Proof.
  intros Ha Hb Hab. unfold Js.add_int.
  by rewrite (Js_of_int_safe a), (Js_of_int_safe b), (Js_of_int_safe (a + b)).
Qed.





(** ** Stock adjustment *)

Lemma stock_of_write_stock db id s p :
  products db !! id = Some p → stock_of (Sql.write_stock s id db) id = Some s.
Proof.
  intros Hp. unfold stock_of, Sql.write_stock. simpl.
  rewrite lookup_alter_eq, Hp. reflexivity.
Qed.

Lemma products_write_stock_ne db id s other :
  other ≠ id → products (Sql.write_stock s id db) !! other = products db !! other.
Proof.
  intros Hne. unfold Sql.write_stock. simpl. by rewrite lookup_alter_ne.
Qed.

(** C9, as the code has it. [PATCH /api/products/:id/stock] on an unknown
    id answers "Product not found".  On a product with stock [s], for a
    [delta] such that [s], [delta] and [s + delta] are safe integers, it
    computes [s + delta], answers "Insufficient stock" and changes nothing
    when that is negative, and otherwise stores and answers [s + delta],
    touching no other row. *)
Theorem products_patch_stock_contract (db : Db) (id : string) (delta : Z) :
  (products db !! id = None →
     products_patch_stock id delta db = (Err ProductNotFound, db)) ∧
  (∀ p, products db !! id = Some p →
     let s := Product.stock p in
     Js.safe_integer s → Js.safe_integer delta → Js.safe_integer (s + delta) →
     (s + delta < 0 →
        products_patch_stock id delta db = (Err InsufficientStock, db) ∧
        stock_of (snd (products_patch_stock id delta db)) id = Some s) ∧
     (0 <= s + delta →
        ∃ db', products_patch_stock id delta db = (Ok (s + delta), db') ∧
               stock_of db' id = Some (s + delta) ∧
               products db' !! id = Some (Product.with_stock (s + delta) p) ∧
               (∀ other, other ≠ id → products db' !! other = products db !! other) ∧
               users db' = users db ∧ orders db' = orders db ∧
               order_items db' = order_items db)).
Proof.
  split.
  - intros Hnone. unfold products_patch_stock. by rewrite Hnone.
  - intros p Hp s Hs Hdelta Hsum. unfold products_patch_stock. rewrite Hp. fold s.
    rewrite (Js_add_int_safe s delta Hs Hdelta Hsum). split.
    + intros Hneg. apply Z.ltb_lt in Hneg. rewrite Hneg. simpl. split; [done|].
      unfold stock_of. by rewrite Hp.
    + intros Hpos. apply Z.ltb_ge in Hpos. rewrite Hpos.
      eexists. split; [reflexivity|]. repeat split.
      * eapply stock_of_write_stock; eauto.
      * unfold Sql.write_stock. simpl. by rewrite lookup_alter_eq, Hp.
      * intros other Hne. by apply products_write_stock_ne.
Qed.

Lemma safe_integer_small (z : Z) : -1000 <= z <= 1000 → Js.safe_integer z.
Proof. unfold Js.safe_integer, Js.MAX_SAFE_INTEGER. change (2 ^ 53) with 9007199254740992. lia. Qed.

(** The three answers of the route on the laptop of the tests, stock 10:
    an unknown id, 20 units too many taken out, 5 units put in. *)
Lemma products_patch_stock_contract_witness :
  products_patch_stock "ghost" 5 Fixture.db0 = (Err ProductNotFound, Fixture.db0)
  ∧ (products_patch_stock "p1" (-20) Fixture.db0 = (Err InsufficientStock, Fixture.db0)
     ∧ stock_of (snd (products_patch_stock "p1" (-20) Fixture.db0)) "p1" = Some 10)
  ∧ ∃ db', products_patch_stock "p1" 5 Fixture.db0 = (Ok 15, db')
           ∧ stock_of db' "p1" = Some 15
           ∧ stock_of db' "p2" = Some 50.
Proof.
  split; [|split].
  - apply (proj1 (products_patch_stock_contract Fixture.db0 "ghost" 5)).
    vm_compute. reflexivity.
  - apply (proj2 (products_patch_stock_contract Fixture.db0 "p1" (-20)) Fixture.laptop).
    + vm_compute. reflexivity.
    + apply safe_integer_small. simpl. lia.
    + apply safe_integer_small. lia.
    + apply safe_integer_small. simpl. lia.
    + simpl. lia.
  - destruct (proj2 (products_patch_stock_contract Fixture.db0 "p1" 5) Fixture.laptop)
      as [_ Hok].
    + vm_compute. reflexivity.
    + apply safe_integer_small. simpl. lia.
    + apply safe_integer_small. lia.
    + apply safe_integer_small. simpl. lia.
    + destruct Hok as (db' & Hpatch & Hstock & _ & Hothers & _); [simpl; lia|].
      exists db'. split; [exact Hpatch|]. split; [exact Hstock|].
      unfold stock_of. rewrite Hothers by discriminate. vm_compute. reflexivity.
Defined.

(** C9, as the specification words it, fails: the handler adds two doubles.
    With one unit in stock and a delta of 2 ^ 53 the exact sum is not a
    double; the route stores and answers 2 ^ 53, one unit short. *)
Lemma patch_stock_sum_is_rounded :
  ¬ (∀ (db : Db) (id : string) (delta : Z) (p : Product.t),
       products db !! id = Some p →
       0 <= Product.stock p + delta →
       ∃ db', products_patch_stock id delta db = (Ok (Product.stock p + delta), db')
              ∧ stock_of db' id = Some (Product.stock p + delta)).
Proof.
  intros H.
  destruct (H Sample.db_one_left "p1" 9007199254740992 (Product.with_stock 1 Fixture.laptop))
    as (db' & Hpatch & _).
  - vm_compute. reflexivity.
  - simpl. lia.
  - vm_compute in Hpatch. discriminate Hpatch.
Qed.

Example patch_stock_beyond_safe_integers :
  fst (products_patch_stock "p1" 9007199254740992 Sample.db_one_left) = Ok 9007199254740992
  ∧ stock_of (snd (products_patch_stock "p1" 9007199254740992 Sample.db_one_left)) "p1"
    = Some 9007199254740992.
Proof. split; vm_compute; reflexivity. Qed.

(** One unit in stock, 2 ^ 53 units in and 2 ^ 53 units out again: the unit
    is lost. *)
Example patch_stock_back_and_forth :
  let db1 := snd (products_patch_stock "p1" 9007199254740992 Sample.db_one_left) in
  products_patch_stock "p1" (-9007199254740992) db1
  = (Ok 0, Sql.write_stock 0 "p1" Sample.db_one_left).
Proof. vm_compute. reflexivity. Qed.

Example patch_stock_increase :
  fst (products_patch_stock "p1" 5 Fixture.db0) = Ok 15
  ∧ stock_of (snd (products_patch_stock "p1" 5 Fixture.db0)) "p1" = Some 15.
Proof. split; vm_compute; reflexivity. Qed.

Example patch_stock_insufficient :
  products_patch_stock "p1" (-20) Fixture.db0 = (Err InsufficientStock, Fixture.db0).
Proof. vm_compute. reflexivity. Qed.

(** ** Order status *)

Lemma truthy_valid_status (s : string) : s ∈ validStatuses → truthy (Some s) = true.
Proof.
  unfold validStatuses. intros Hin.
  repeat (apply elem_of_cons in Hin as [-> | Hin]; [reflexivity|]).
  by apply elem_of_nil in Hin.
Qed.

(** C2, as the code has it. [PATCH /api/orders/:id/status] looks at the
    requested status only: for every existing order, whatever its current
    status, and every recognized status, the request succeeds and the order
    then carries the requested status; nothing else changes. *)
Theorem orders_patch_status_overwrites (db : Db) (id : string) (o : Order.t) (s : string) :
  orders db !! id = Some o →
  s ∈ validStatuses →
  ∃ db', orders_patch_status id (Some s) db = (Ok (Some (Order.with_status s o)), db') ∧
         orders db' = <[ id := Order.with_status s o ]> (orders db) ∧
         Order.status <$> orders db' !! id = Some s ∧
         products db' = products db ∧ order_items db' = order_items db ∧
         users db' = users db.
Proof.
  intros Ho Hs. unfold orders_patch_status.
  rewrite (truthy_valid_status s Hs). rewrite bool_decide_true by done. simpl.
  rewrite Ho. unfold Sql.update_status. simpl.
  rewrite lookup_alter_eq, Ho. simpl.
  eexists. split; [reflexivity|]. simpl. repeat split.
  - apply map_eq. intros k. destruct (decide (k = id)) as [->|Hne].
    + by rewrite lookup_alter_eq, lookup_insert_eq, Ho.
    + by rewrite lookup_alter_ne, lookup_insert_ne.
  - by rewrite lookup_alter_eq, Ho.
Qed.

Lemma orders_patch_status_overwrites_witness :
  ∃ db', orders_patch_status "o1" (Some "pending") Fixture.db_delivered
         = (Ok (Some (Order.with_status "pending"
                        (Order.mk "u1" "delivered" (199998 # 100) ""))), db') ∧
         orders db' = <[ "o1" := Order.with_status "pending"
                                   (Order.mk "u1" "delivered" (199998 # 100) "") ]>
                        (orders Fixture.db_delivered) ∧
         Order.status <$> orders db' !! "o1" = Some "pending" ∧
         products db' = products Fixture.db_delivered ∧
         order_items db' = order_items Fixture.db_delivered ∧
         users db' = users Fixture.db_delivered.
Proof.
  apply (orders_patch_status_overwrites Fixture.db_delivered "o1"
           (Order.mk "u1" "delivered" (199998 # 100) "") "pending").
  - vm_compute. reflexivity.
  - unfold validStatuses. apply elem_of_cons. left. reflexivity.
Defined.

(** C2, as the specification words it, fails: a delivered order that is
    asked to become pending does become pending. *)
Lemma delivered_order_status_not_frozen :
  ¬ (∀ (db : Db) (id : string) (o : Order.t) (s : string),
       orders db !! id = Some o →
       Order.status o = "delivered" ∨ Order.status o = "cancelled" →
       s ∈ validStatuses →
       Order.status <$> orders (snd (orders_patch_status id (Some s) db)) !! id
       = Some (Order.status o)).
Proof.
  intros H.
  specialize (H Fixture.db_delivered "o1" (Order.mk "u1" "delivered" (199998 # 100) "")
                "pending").
  assert (Hin : "pending" ∈ validStatuses) by (apply elem_of_cons; by left).
  specialize (H eq_refl (or_introl eq_refl) Hin).
  vm_compute in H. discriminate H.
Qed.

(** ** Price snapshots *)

Lemma fst_joined {A B : Type} (g : A → B) (rows : list A) :
  fst <$> ((fun r => (r, g r)) <$> rows) = rows.
Proof. induction rows as [|r rows IH]; csimpl; [done|]. by rewrite IH. Qed.

Lemma stored_order_same (oid : string) (db db' : Db) :
  orders db' = orders db → users db' = users db → order_items db' = order_items db →
  stored_order oid db' = stored_order oid db.
Proof.
  intros Ho Hu Hi. unfold stored_order, orders_get, Sql.items_of_order.
  rewrite Ho, Hu, Hi. destruct (orders db !! oid) as [order|]; [|done].
  cbn [OrderView.order OrderView.user_name OrderView.user_email OrderView.items].
  by rewrite !fst_joined.
Qed.

Lemma orders_get_same (oid : string) (db db' : Db) :
  orders db' !! oid = orders db !! oid → users db' = users db →
  Sql.items_of_order oid db' = Sql.items_of_order oid db →
  (∀ r, r ∈ Sql.items_of_order oid db →
        Product.name <$> products db' !! OrderItemRow.product_id r
        = Product.name <$> products db !! OrderItemRow.product_id r) →
  orders_get oid db' = orders_get oid db.
Proof.
  intros Ho Hu Hi Hn. unfold orders_get.
  rewrite Ho, Hu, Hi. destruct (orders db !! oid) as [order|]; [|done].
  do 2 f_equal. apply list_fmap_ext. intros i r Hr.
  rewrite Hn; [done|]. by eapply list_elem_of_lookup_2.
Qed.

Lemma products_put_names (id : string) (body : ProductBody.t) (db : Db)
    (existing : Product.t) (pid : string) :
  products db !! id = Some existing → bad_price (ProductBody.price body) = false →
  ProductBody.name body = None ∨ pid ≠ id →
  Product.name <$> products (snd (products_put id body db)) !! pid
  = Product.name <$> products db !! pid.
Proof.
  intros Hp Hbad Hcase. unfold products_put. rewrite Hp, Hbad. cbn [snd].
  unfold Sql.set_products. cbn [products].
  destruct (decide (pid = id)) as [->|Hne].
  - destruct Hcase as [Hname|?]; [|done].
    rewrite lookup_alter_eq, Hp. simpl. by rewrite Hname.
  - by rewrite lookup_alter_ne.
Qed.

(** C8. [PUT /api/products/:id] writes the [products] table only: whatever
    the body (in particular a new price), every order row with its [total]
    and every line-item row with its [price] are the ones stored before.
    [GET /api/orders/:id] answers the same order with the same line items;
    it answers the same in full when the body gives no name, the
    [product_name] it joins to a line item being the product's current
    name. *)
Theorem products_put_keeps_order_snapshots (db : Db) (id : string) (body : ProductBody.t)
    (oid : string) :
  let db' := snd (products_put id body db) in
  orders db' = orders db ∧
  order_items db' = order_items db ∧
  stored_order oid db' = stored_order oid db ∧
  (ProductBody.name body = None → orders_get oid db' = orders_get oid db).
Proof.
  unfold products_put.
  destruct (products db !! id) as [existing|] eqn:Hp; [|done].
  destruct (bad_price (ProductBody.price body)) eqn:Hbad; [done|].
  cbn [snd]. split; [done|]. split; [done|]. split.
  - by apply stored_order_same.
  - intros Hname. apply orders_get_same; [done..|].
    intros r _. pose proof (products_put_names id body db existing
                              (OrderItemRow.product_id r) Hp Hbad (or_introl Hname)) as Hn.
    unfold products_put in Hn. by rewrite Hp, Hbad in Hn.
Qed.

(** The laptop of the delivered order is repriced from 999.99 to 5: the
    order still totals 1999.98, its line item still carries 999.99, and
    [GET] answers as before. *)
Lemma products_put_keeps_order_snapshots_witness :
  let db' := snd (products_put "p1" (Fixture.reprice (5 # 1)) Fixture.db_delivered) in
  Product.price <$> products db' !! "p1" = Some (5 # 1)
  ∧ orders db' !! "o1" = Some (Order.mk "u1" "delivered" (199998 # 100) "")
  ∧ order_items db' = [OrderItemRow.mk "i1" "o1" "p1" 2 (99999 # 100)]
  ∧ orders_get "o1" db' = orders_get "o1" Fixture.db_delivered.
Proof.
  destruct (products_put_keeps_order_snapshots Fixture.db_delivered "p1"
              (Fixture.reprice (5 # 1)) "o1") as (Horders & Hitems & _ & Hget).
  cbv zeta. rewrite Horders, Hitems. split; [vm_compute; reflexivity|].
  split; [vm_compute; reflexivity|]. split; [reflexivity|].
  apply Hget. reflexivity.
Defined.

Example reprice_after_delivery :
  let db' := snd (products_put "p1" (Fixture.reprice (5 # 1)) Fixture.db_delivered) in
  Product.price <$> products db' !! "p1" = Some (5 # 1) ∧
  orders_get "o1" db'
  = Ok (OrderView.mk (Order.mk "u1" "delivered" (199998 # 100) "")
          (Some "New User") (Some "newuser@example.com")
          [(OrderItemRow.mk "i1" "o1" "p1" 2 (99999 # 100), Some "Test Laptop")]).
Proof. split; vm_compute; reflexivity. Qed.

(** A new name shows in the line items of the orders placed before. *)
Example rename_after_delivery :
  let body := ProductBody.mk (Some "Old Laptop") None None None None None in
  let db' := snd (products_put "p1" body Fixture.db_delivered) in
  orders_get "o1" db'
  = Ok (OrderView.mk (Order.mk "u1" "delivered" (199998 # 100) "")
          (Some "New User") (Some "newuser@example.com")
          [(OrderItemRow.mk "i1" "o1" "p1" 2 (99999 # 100), Some "Old Laptop")]).
Proof. vm_compute. reflexivity. Qed.

(** ** Stock updates over a list of rows *)

Lemma with_stock_same (p : Product.t) (s : Z) :
  s = Product.stock p → Product.with_stock s p = p.
Proof. intros ->. by destruct p. Qed.

Lemma with_stock_twice (p : Product.t) (s1 s2 : Z) :
  Product.with_stock s2 (Product.with_stock s1 p) = Product.with_stock s2 p.
Proof. reflexivity. Qed.

Lemma products_add_stock (d : Z) (pid pid' : string) (db : Db) :
  products (Sql.add_stock d pid db) !! pid'
  = (fun p => Product.with_stock
                (Product.stock p + (if bool_decide (pid = pid') then d else 0)) p)
      <$> products db !! pid'.
Proof.
  unfold Sql.add_stock. simpl. case_bool_decide as Heq.
  - subst. by rewrite lookup_alter_eq.
  - rewrite lookup_alter_ne by done.
    destruct (products db !! pid') as [p|]; simpl; [|done].
    f_equal. symmetry. apply with_stock_same. lia.
Qed.

Lemma add_stock_frame (d : Z) (pid : string) (db : Db) :
  users (Sql.add_stock d pid db) = users db ∧
  orders (Sql.add_stock d pid db) = orders db ∧
  order_items (Sql.add_stock d pid db) = order_items db.
Proof. done. Qed.

Lemma restore_stock_frame (rows : list OrderItemRow.t) (db : Db) :
  users (restore_stock rows db) = users db ∧
  orders (restore_stock rows db) = orders db ∧
  order_items (restore_stock rows db) = order_items db.
Proof.
  revert db. induction rows as [|r rows IH]; intros db; simpl; [done|].
  destruct (IH (Sql.add_stock (OrderItemRow.quantity r) (OrderItemRow.product_id r) db))
    as (Hu & Ho & Hi).
  by rewrite Hu, Ho, Hi.
Qed.

Lemma restore_stock_products (rows : list OrderItemRow.t) (db : Db) (pid : string) :
  products (restore_stock rows db) !! pid
  = (fun p => Product.with_stock (Product.stock p + rows_qty pid rows) p)
      <$> products db !! pid.
Proof.
  revert db. induction rows as [|r rows IH]; intros db; simpl.
  - destruct (products db !! pid) as [p|]; simpl; [|done].
    f_equal. symmetry. apply with_stock_same. lia.
  - rewrite IH, products_add_stock.
    destruct (products db !! pid) as [p|]; simpl; [|done].
    f_equal. unfold Product.with_stock. simpl. f_equal. lia.
Qed.

(** ** Cancellation *)

Lemma delete_order_after_items (oid : string) (db : Db) :
  Sql.delete_order oid (Sql.delete_items_of_order oid db)
  = Some (Sql.set_orders (delete oid (orders db)) (Sql.delete_items_of_order oid db)).
Proof.
  unfold Sql.delete_order. rewrite bool_decide_false; [done|].
  unfold Sql.delete_items_of_order. simpl.
  intros Hin. apply list_elem_of_fmap in Hin as (r & Heq & Hr).
  apply list_elem_of_filter in Hr as [Hne _]. by apply Hne.
Qed.

Lemma items_of_order_after_delete (oid : string) (db : Db) (ps : gmap string Product.t)
    (os : gmap string Order.t) :
  Sql.items_of_order oid
    (mkDb (users db) ps os
       (filter (fun r => OrderItemRow.order_id r ≠ oid) (order_items db))) = [].
Proof.
  unfold Sql.items_of_order. simpl.
  induction (order_items db) as [|r rows IH]; [done|].
  rewrite filter_cons. case_decide as Hne; [|exact IH].
  rewrite filter_cons. case_decide as Heq; [|exact IH]. by destruct Hne.
Qed.

Lemma cancelOrder_some (id : string) (db : Db) :
  cancelOrder id db
  = Some (mkDb (users db)
               (products (restore_stock (Sql.items_of_order id db) db))
               (delete id (orders db))
               (filter (fun r => OrderItemRow.order_id r ≠ id) (order_items db))).
Proof.
  unfold cancelOrder. rewrite delete_order_after_items.
  destruct (restore_stock_frame (Sql.items_of_order id db) db) as (Hu & Ho & Hi).
  unfold Sql.set_orders, Sql.delete_items_of_order, Sql.set_order_items. simpl.
  by rewrite Hu, Ho, Hi.
Qed.





(** Scenario 3 of the specification, and the cancellation of the same order
    one step earlier. *)
Example cancel_delivered_refused :
  orders_delete "o1" Fixture.db_delivered = (Err CannotCancelDelivered, Fixture.db_delivered).
Proof. vm_compute. reflexivity. Qed.

Example cancel_shipped_restores :
  fst (orders_delete "o1" Fixture.db_shipped) = Ok tt
  ∧ snd (orders_delete "o1" Fixture.db_shipped) = Fixture.db0.
Proof. split; vm_compute; reflexivity. Qed.

(** ** The validation loop *)

Lemma sufficient_lookup (db : Db) (item : OrderItem.t) (p : Product.t) :
  products db !! OrderItem.product_id item = Some p →
  catalog_price db (OrderItem.product_id item) = Product.price p.
Proof. intros Hp. unfold catalog_price. by rewrite Hp. Qed.

Lemma verify_products_sufficient (db : Db) (items : list OrderItem.t) (total : Q)
    (acc : list PricedItem.t) :
  Forall (sufficient db) items →
  verify_products db items total acc
  = Ok (fold_left (fun t item => Js.add t (line_amount db item)) items total,
        (acc ++ (priced db <$> items))%list).
Proof.
  intros Hall. revert total acc.
  induction Hall as [|item rest (p & Hp & Hq) _ IH]; intros total acc; simpl.
  - by rewrite app_nil_r.
  - rewrite Hp. apply Z.ltb_ge in Hq. rewrite Hq. rewrite IH.
    unfold line_amount, priced. rewrite (sufficient_lookup db item p Hp).
    by rewrite <- app_assoc.
Qed.

Lemma verify_products_ok_inv (db : Db) (items : list OrderItem.t) (total : Q)
    (acc : list PricedItem.t) (r : Q * list PricedItem.t) :
  verify_products db items total acc = Ok r → Forall (sufficient db) items.
Proof.
  revert total acc. induction items as [|item rest IH]; intros total acc; simpl.
  - constructor.
  - destruct (products db !! OrderItem.product_id item) as [p|] eqn:Hp; [|discriminate].
    destruct (Product.stock p <? OrderItem.quantity item) eqn:Hq; [discriminate|].
    intros Hrest. constructor; [|by eapply IH].
    exists p. split; [done|]. by apply Z.ltb_ge.
Qed.

Lemma verify_products_first_short (db : Db) (pre post : list OrderItem.t)
    (item : OrderItem.t) (p : Product.t) (total : Q) (acc : list PricedItem.t) :
  Forall (sufficient db) pre →
  products db !! OrderItem.product_id item = Some p →
  Product.stock p < OrderItem.quantity item →
  verify_products db (pre ++ item :: post)%list total acc
  = Err (InsufficientStockFor (Product.name p)).
Proof.
  intros Hpre Hp Hq. revert total acc.
  induction Hpre as [|x pre (px & Hpx & Hqx) _ IH]; intros total acc; simpl.
  - rewrite Hp. apply Z.ltb_lt in Hq. by rewrite Hq.
  - rewrite Hpx. apply Z.ltb_ge in Hqx. rewrite Hqx. apply IH.
Qed.

Lemma verify_products_err (db : Db) (items : list OrderItem.t) (total : Q)
    (acc : list PricedItem.t) (e : error) :
  verify_products db items total acc = Err e → validation_error e.
Proof.
  revert total acc. induction items as [|item rest IH]; intros total acc; simpl.
  - discriminate.
  - destruct (products db !! OrderItem.product_id item) as [p|]; [|by intros [= <-]].
    destruct (Product.stock p <? OrderItem.quantity item); [by intros [= <-]|].
    apply IH.
Qed.

Lemma verify_products_short (db : Db) (items : list OrderItem.t) (item : OrderItem.t)
    (total : Q) (acc : list PricedItem.t) :
  item ∈ items → ¬ sufficient db item →
  ∃ e, verify_products db items total acc = Err e ∧ validation_error e.
Proof.
  intros Hin Hshort.
  destruct (verify_products db items total acc) as [r|e] eqn:Hv.
  - apply verify_products_ok_inv in Hv.
    rewrite Forall_forall in Hv. destruct Hshort. by apply Hv.
  - exists e. split; [done|]. by eapply verify_products_err.
Qed.

(** ** The order transaction *)

Lemma insert_order_item_inv (r : OrderItemRow.t) (db db' : Db) :
  Sql.insert_order_item r db = Some db' →
  db' = Sql.set_order_items (order_items db ++ [r])%list db
  ∧ (OrderItemRow.id r ∉ Sql.item_ids (order_items db))
  ∧ is_Some (orders db !! OrderItemRow.order_id r)
  ∧ is_Some (products db !! OrderItemRow.product_id r).
Proof.
  unfold Sql.insert_order_item. case_bool_decide as Hid; [discriminate|].
  destruct (orders db !! OrderItemRow.order_id r) as [o|]; [|discriminate].
  destruct (products db !! OrderItemRow.product_id r) as [p|]; [|discriminate].
  intros [= <-]. eauto.
Qed.

Lemma insert_order_item_some (r : OrderItemRow.t) (db : Db) :
  OrderItemRow.id r ∉ Sql.item_ids (order_items db) →
  is_Some (orders db !! OrderItemRow.order_id r) →
  is_Some (products db !! OrderItemRow.product_id r) →
  Sql.insert_order_item r db = Some (Sql.set_order_items (order_items db ++ [r])%list db).
Proof.
  intros Hid [o Ho] [p Hp]. unfold Sql.insert_order_item.
  rewrite bool_decide_false by done. by rewrite Ho, Hp.
Qed.

Lemma insert_items_inv (uuidv4 : nat -> string) (oid : string)
    (items : list PricedItem.t) (k : nat) (db1 db2 : Db) :
  insert_items uuidv4 k oid items db1 = Some db2 →
  users db2 = users db1
  ∧ orders db2 = orders db1
  ∧ order_items db2 = (order_items db1 ++ item_rows uuidv4 k oid items)%list
  ∧ (∀ pid, products db2 !! pid
            = (fun p => Product.with_stock (Product.stock p - priced_qty pid items) p)
                <$> products db1 !! pid).
Proof.
  revert k db1. induction items as [|item rest IH]; intros k db1; simpl.
  - intros [= <-]. rewrite app_nil_r. repeat split. intros pid.
    destruct (products db1 !! pid) as [p|]; simpl; [|done].
    f_equal. symmetry. apply with_stock_same. lia.
  - destruct (Sql.insert_order_item _ db1) as [db1'|] eqn:Hins; [|discriminate].
    apply insert_order_item_inv in Hins as (-> & _). intros Hrest.
    apply IH in Hrest as (Hu & Ho & Hi & Hp). simpl in *.
    rewrite Hu, Ho, Hi. repeat split.
    + by rewrite <- app_assoc.
    + intros pid. rewrite Hp.
      pose proof (products_add_stock (- PricedItem.quantity item)
                    (PricedItem.product_id item) pid
                    (Sql.set_order_items
                       (order_items db1 ++
                          [OrderItemRow.mk (uuidv4 k) oid (PricedItem.product_id item)
                             (PricedItem.quantity item) (PricedItem.price item)])%list db1))
        as Hadd.
      simpl in Hadd. rewrite Hadd.
      destruct (products db1 !! pid) as [p|]; simpl; [|done].
      f_equal. unfold Product.with_stock. simpl. f_equal.
      case_bool_decide; lia.
Qed.

Lemma insert_items_succeeds (uuidv4 : nat -> string) (oid : string)
    (items : list PricedItem.t) (k : nat) (db1 : Db) :
  is_Some (orders db1 !! oid) →
  Forall (fun item => is_Some (products db1 !! PricedItem.product_id item)) items →
  NoDup (uuidv4 <$> seq k (length items)) →
  (∀ i, (k <= i < k + length items)%nat → uuidv4 i ∉ Sql.item_ids (order_items db1)) →
  is_Some (insert_items uuidv4 k oid items db1).
Proof.
  revert k db1. induction items as [|item rest IH]; intros k db1 Ho Hps Hnd Hfresh; simpl.
  - eauto.
  - apply Forall_cons in Hps as [Hp Hps]. simpl in Hnd.
    apply NoDup_cons in Hnd as [Hk Hnd].
    rewrite insert_order_item_some; simpl; [|apply Hfresh; simpl; lia|done|done].
    apply IH; simpl.
    + done.
    + eapply Forall_impl; [exact Hps|]. intros x [px Hpx]. simpl.
      destruct (decide (PricedItem.product_id item = PricedItem.product_id x)) as [Heq|Hne].
      * rewrite Heq, lookup_alter_eq, Hpx. eauto.
      * rewrite lookup_alter_ne by done. eauto.
    + done.
    + intros i Hi. unfold Sql.item_ids. rewrite fmap_app. simpl.
      apply not_elem_of_app. split.
      * apply Hfresh. simpl. lia.
      * intros Hin. apply list_elem_of_singleton in Hin.
        apply Hk. rewrite <- Hin. apply list_elem_of_fmap_2.
        apply elem_of_seq. lia.
Qed.

Lemma priced_qty_priced (db : Db) (items : list OrderItem.t) (pid : string) :
  priced_qty pid (priced db <$> items) = ordered_qty pid items.
Proof. induction items as [|item rest IH]; csimpl; [done|]. by rewrite IH. Qed.


Lemma length_item_rows (uuidv4 : nat -> string) (k : nat) (oid : string)
    (orderItems : list PricedItem.t) :
  length (item_rows uuidv4 k oid orderItems) = length orderItems.
Proof.
  revert k. induction orderItems as [|item rest IH]; intros k; simpl; [done|].
  by rewrite IH.
Qed.

Lemma item_rows_order_id (uuidv4 : nat -> string) (k : nat) (oid : string)
    (orderItems : list PricedItem.t) :
  Forall (fun r => OrderItemRow.order_id r = oid) (item_rows uuidv4 k oid orderItems).
Proof.
  revert k. induction orderItems as [|item rest IH]; intros k; simpl; constructor; auto.
Qed.

Lemma truthy_nonempty (s : string) : truthy (Some s) = true ↔ s ≠ "".
Proof.
  unfold truthy. rewrite negb_true_iff. apply String.eqb_neq.
Qed.

(** Everything a 201 answer of [POST /api/orders] tells about the request
    and the two databases. *)
Lemma orders_post_ok_inv (uuidv4 : nat -> string) (body : OrderBody.t) (db db' : Db)
    (oid : string) (row : option Order.t) :
  orders_post uuidv4 body db = (Ok (oid, row), db') →
  ∃ uid items,
    OrderBody.user_id body = Some uid ∧ OrderBody.items body = Some items
    ∧ uid ≠ "" ∧ items ≠ []
    ∧ is_Some (users db !! uid)
    ∧ Forall (sufficient db) items
    ∧ oid = uuidv4 0%nat
    ∧ orders db !! oid = None
    ∧ row = Some (placed_order db uid items (OrderBody.shipping_address body))
    ∧ users db' = users db
    ∧ orders db'
      = <[ oid := placed_order db uid items (OrderBody.shipping_address body) ]> (orders db)
    ∧ order_items db'
      = (order_items db ++ item_rows uuidv4 1 oid (priced db <$> items))%list
    ∧ (∀ pid, products db' !! pid
              = (fun p => Product.with_stock (Product.stock p - ordered_qty pid items) p)
                  <$> products db !! pid).
Proof.
  unfold orders_post.
  destruct (OrderBody.user_id body) as [uid|]; [|discriminate].
  destruct (OrderBody.items body) as [[|item rest]|]; [discriminate| |discriminate].
  destruct (truthy (Some uid)) eqn:Huid; [|discriminate]. cbn [negb].
  destruct (users db !! uid) as [u|] eqn:Hu; [|discriminate].
  destruct (verify_products db (item :: rest) 0%Q []) as [[total orderItems]|e] eqn:Hv;
    [|discriminate].
  pose proof (verify_products_ok_inv _ _ _ _ _ Hv) as Hall.
  rewrite (verify_products_sufficient _ _ _ _ Hall), app_nil_l in Hv.
  injection Hv as <- <-.
  unfold createOrder, Sql.insert_order. simpl Order.user_id.
  destruct (orders db !! uuidv4 0%nat) as [o|] eqn:Ho; [discriminate|].
  rewrite Hu.
  destruct (insert_items _ _ _ _ _) as [db2|] eqn:Hins; [|discriminate].
  intros [= <- <- <-].
  apply insert_items_inv in Hins as (Husers & Horders & Hitems & Hprods).
  unfold Sql.set_orders in Husers, Horders, Hitems, Hprods.
  cbn [users orders order_items products] in Husers, Horders, Hitems, Hprods.
  assert (Hrow : orders db2 !! uuidv4 0%nat
                 = Some (placed_order db uid (item :: rest)
                           (OrderBody.shipping_address body))).
  { rewrite Horders, lookup_insert_eq. reflexivity. }
  assert (Hstock : ∀ pid, products db2 !! pid
                          = (fun p => Product.with_stock
                                        (Product.stock p
                                         - ordered_qty pid (item :: rest)) p)
                              <$> products db !! pid).
  { intros pid. rewrite Hprods, <- (priced_qty_priced db (item :: rest) pid).
    reflexivity. }
  apply truthy_nonempty in Huid.
  exists uid, (item :: rest). split_and!; eauto.
Qed.

(** With an existing user, items that all pass validation and unused ids,
    [POST /api/orders] answers 201. *)
Lemma orders_post_succeeds (uuidv4 : nat -> string) (body : OrderBody.t) (db : Db)
    (uid : string) (items : list OrderItem.t) :
  OrderBody.user_id body = Some uid → OrderBody.items body = Some items →
  uid ≠ "" → items ≠ [] →
  is_Some (users db !! uid) →
  Forall (sufficient db) items →
  fresh_uuids uuidv4 (length items) db →
  ∃ db', orders_post uuidv4 body db
         = (Ok (uuidv4 0%nat,
                Some (placed_order db uid items (OrderBody.shipping_address body))), db').
Proof.
  intros Hbu Hbi Huid Hne [u Hu] Hall (Hoid & Hnd & Hfresh).
  assert (Hins : is_Some
            (insert_items uuidv4 1 (uuidv4 0%nat) (priced db <$> items)
               (Sql.set_orders
                  (<[ uuidv4 0%nat := placed_order db uid items
                                        (OrderBody.shipping_address body) ]> (orders db))
                  db))).
  { apply insert_items_succeeds; simpl.
    - rewrite lookup_insert_eq. eauto.
    - apply Forall_fmap. eapply Forall_impl; [exact Hall|].
      intros x (p & Hp & _). simpl. eauto.
    - by rewrite length_fmap.
    - rewrite length_fmap. intros i Hi. apply Hfresh. lia. }
  destruct Hins as [db' Hins]. exists db'.
  unfold orders_post. rewrite Hbu, Hbi.
  destruct items as [|item rest]; [done|].
  apply truthy_nonempty in Huid. rewrite Huid. cbn [negb].
  rewrite Hu, (verify_products_sufficient _ _ _ _ Hall). rewrite app_nil_l.
  unfold createOrder, Sql.insert_order. simpl Order.user_id.
  rewrite Hoid, Hu. unfold placed_order, order_total in Hins. rewrite Hins.
  rewrite (proj1 (proj2 (insert_items_inv _ _ _ _ _ _ Hins))). simpl.
  by rewrite lookup_insert_eq.
Qed.

(** ** Totals and snapshots *)

Lemma item_rows_snapshot (uuidv4 : nat -> string) (k : nat) (oid : string) (db : Db)
    (items : list OrderItem.t) :
  Forall (sufficient db) items →
  Forall2 (snapshot_of db oid) items (item_rows uuidv4 k oid (priced db <$> items)).
Proof.
  intros Hall. revert k.
  induction Hall as [|item rest (p & Hp & _) _ IH]; intros k; csimpl; constructor.
  - unfold snapshot_of. simpl. repeat split. exists p.
    split; [done|]. unfold catalog_price. by rewrite Hp.
  - apply IH.
Qed.




(** Nor is it three times the double that 999.99 denotes: the product is
    rounded once more. *)
Example three_times_the_double :
  ¬ (Js.mul_int (99999 # 100) 3 == Js.to_double (99999 # 100) * 3)%Q.
Proof. intros H. vm_compute in H. discriminate H. Qed.

(** Scenario 1 of the specification: stock 10, quantity 3.  The total is
    [999.99 * 3] in doubles, 2999.9700000000003. *)
Example order_three_laptops :
  let r := orders_post (Fixture.ids "o") (Fixture.order_body [OrderItem.mk "p1" 3])
             Fixture.db0 in
  stock_of (snd r) "p1" = Some 7
  ∧ fst r = Ok ("oa", Some (Order.mk "u1" "pending"
                              (3298501897979167 # 1099511627776) "")).
Proof. split; vm_compute; reflexivity. Qed.

(** ** Quantities that are not positive *)





Example minus_one_laptop_refused :
  stock_of Sample.db_oversold "p1" = Some (-2)
  ∧ orders_post (Fixture.ids "q") (Fixture.order_body [OrderItem.mk "p1" (-1)])
      Sample.db_oversold
    = (Err (InsufficientStockFor "Test Laptop"), Sample.db_oversold).
Proof. split; vm_compute; reflexivity. Qed.

(** Minus three laptops: the stock grows from 10 to 13 and the total is
    -2999.9700000000003. *)
Example order_minus_three_laptops :
  let r := orders_post (Fixture.ids "o") (Fixture.order_body Fixture.minus_three)
             Fixture.db0 in
  stock_of (snd r) "p1" = Some 13
  ∧ fst r = Ok ("oa", Some (Order.mk "u1" "pending"
                              (-3298501897979167 # 1099511627776) "")).
Proof. split; vm_compute; reflexivity. Qed.

(** A product that costs nothing adds nothing, whatever the quantity. *)
Example free_item_adds_nothing :
  Js.mul_int 0 (-3) = 0%Q.
Proof. vm_compute. reflexivity. Qed.

(** ** Failure leaves no trace *)

Lemma orders_post_err_unchanged (uuidv4 : nat -> string) (body : OrderBody.t) (db : Db)
    (e : error) (db' : Db) :
  orders_post uuidv4 body db = (Err e, db') → db' = db.
Proof.
  unfold orders_post.
  destruct (OrderBody.user_id body) as [uid|]; [|by intros [= _ <-]].
  destruct (OrderBody.items body) as [[|item rest]|]; try by intros [= _ <-].
  destruct (negb (truthy (Some uid))); [by intros [= _ <-]|].
  destruct (users db !! uid); [|by intros [= _ <-]].
  destruct (verify_products _ _ _ _) as [[total orderItems]|e']; [|by intros [= _ <-]].
  destruct (createOrder _ _ _ _ _ _ _); [discriminate|by intros [= _ <-]].
Qed.

(** C4, as the code has it. When some item of the request names an existing
    product whose stock is below the quantity asked, [POST /api/orders]
    fails with a 400 or 404 of the validation phase and gives back the
    database it was given: no stock, order or line item differs.  The
    failure is "Insufficient stock for product: <name>" of that product when
    the user exists and every item before it passes both checks. *)
Theorem orders_post_short_stock_atomic (uuidv4 : nat -> string) (body : OrderBody.t)
    (db : Db) (items : list OrderItem.t) (item : OrderItem.t) (p : Product.t) :
  OrderBody.items body = Some items →
  item ∈ items →
  products db !! OrderItem.product_id item = Some p →
  Product.stock p < OrderItem.quantity item →
  (∃ e, orders_post uuidv4 body db = (Err e, db)
        ∧ (e = MissingFields ∨ e = UserNotFound ∨ validation_error e))
  ∧ (∀ uid pre post,
       OrderBody.user_id body = Some uid → uid ≠ "" → is_Some (users db !! uid) →
       items = (pre ++ item :: post)%list → Forall (sufficient db) pre →
       orders_post uuidv4 body db = (Err (InsufficientStockFor (Product.name p)), db)).
Proof.
  intros Hbi Hin Hp Hq. split.
  - assert (Hshort : ¬ sufficient db item).
    { intros (p' & Hp' & Hq'). assert (p' = p) as -> by congruence. lia. }
    unfold orders_post. rewrite Hbi.
    destruct (OrderBody.user_id body) as [uid|]; [|eauto].
    destruct items as [|x rest]; [eauto|].
    destruct (negb (truthy (Some uid))); [eauto|].
    destruct (users db !! uid); [|eauto 6].
    destruct (verify_products_short db (x :: rest) item 0%Q [] Hin Hshort)
      as (e & -> & He).
    eauto 6.
  - intros uid pre post Hbu Huid [u Hu] -> Hpre.
    unfold orders_post. rewrite Hbu, Hbi.
    destruct (pre ++ item :: post)%list as [|x rest] eqn:Hitems.
    { by destruct pre. }
    apply truthy_nonempty in Huid. rewrite Huid. cbn [negb]. rewrite Hu.
    rewrite <- Hitems.
    by rewrite (verify_products_first_short db pre post item p 0%Q [] Hpre Hp Hq).
Qed.

Lemma orders_post_short_stock_atomic_witness :
  (∃ e, orders_post (Fixture.ids "o") (Fixture.order_body Fixture.shirts_then_laptops)
          Fixture.db0
        = (Err e, Fixture.db0)
        ∧ (e = MissingFields ∨ e = UserNotFound ∨ validation_error e))
  ∧ (∀ uid pre post,
       OrderBody.user_id (Fixture.order_body Fixture.shirts_then_laptops) = Some uid →
       uid ≠ "" → is_Some (users Fixture.db0 !! uid) →
       Fixture.shirts_then_laptops = (pre ++ OrderItem.mk "p1" 100 :: post)%list →
       Forall (sufficient Fixture.db0) pre →
       orders_post (Fixture.ids "o") (Fixture.order_body Fixture.shirts_then_laptops)
         Fixture.db0
       = (Err (InsufficientStockFor (Product.name Fixture.laptop)), Fixture.db0)).
Proof.
  apply (orders_post_short_stock_atomic (Fixture.ids "o")
           (Fixture.order_body Fixture.shirts_then_laptops) Fixture.db0
           Fixture.shirts_then_laptops (OrderItem.mk "p1" 100) Fixture.laptop).
  - reflexivity.
  - apply elem_of_cons. right. apply elem_of_cons. left. reflexivity.
  - vm_compute. reflexivity.
  - simpl. lia.
Defined.

(** C4, as the specification words it, fails: the validation loop stops at
    the first item it rejects, so a request that names an unknown product
    before the short one is answered "Product not found". *)
Lemma short_stock_not_always_reported :
  ¬ (∀ (uuidv4 : nat -> string) (body : OrderBody.t) (db : Db)
       (items : list OrderItem.t) (item : OrderItem.t) (p : Product.t),
       OrderBody.items body = Some items →
       item ∈ items →
       products db !! OrderItem.product_id item = Some p →
       Product.stock p < OrderItem.quantity item →
       fst (orders_post uuidv4 body db) = Err (InsufficientStockFor (Product.name p))).
Proof.
  intros H.
  specialize (H (Fixture.ids "o") (Fixture.order_body Fixture.ghost_then_laptops)
                Fixture.db0 Fixture.ghost_then_laptops (OrderItem.mk "p1" 100)
                Fixture.laptop eq_refl).
  assert (Hin : OrderItem.mk "p1" 100 ∈ Fixture.ghost_then_laptops).
  { apply elem_of_cons. right. apply elem_of_cons. by left. }
  assert (Hp : products Fixture.db0 !! "p1" = Some Fixture.laptop)
    by (vm_compute; reflexivity).
  assert (Hq : Product.stock Fixture.laptop < 100) by (simpl; lia).
  specialize (H Hin Hp Hq). vm_compute in H. discriminate H.
Qed.

(** Scenario 5 of the specification, on the laptop fixture. *)
Example order_too_many_laptops :
  orders_post (Fixture.ids "o") (Fixture.order_body [OrderItem.mk "p1" 100]) Fixture.db0
  = (Err (InsufficientStockFor "Test Laptop"), Fixture.db0).
Proof. vm_compute. reflexivity. Qed.

(** ** Create, then cancel *)

Lemma filter_all {A} (P : A → Prop) `{∀ x, Decision (P x)} (l : list A) :
  Forall P l → filter P l = l.
Proof.
  induction 1 as [|x l Hx _ IH]; [done|].
  rewrite filter_cons_True by done. by rewrite IH.
Qed.

Lemma filter_none {A} (P : A → Prop) `{∀ x, Decision (P x)} (l : list A) :
  Forall (fun x => ¬ P x) l → filter P l = [].
Proof.
  induction 1 as [|x l Hx _ IH]; [done|].
  by rewrite filter_cons_False.
Qed.

Lemma unused_order_id_has_no_items (db : Db) (oid : string) :
  items_reference_orders db → orders db !! oid = None →
  Forall (fun r => OrderItemRow.order_id r ≠ oid) (order_items db).
Proof.
  intros Hfk Hfree. apply Forall_forall. intros r Hr Heq.
  destruct (Hfk r Hr) as [o Ho]. rewrite Heq in Ho. congruence.
Qed.




(** The test "should restore stock when order is cancelled": 10, 5, 10. *)
Example order_five_laptops_then_cancel :
  let db1 := snd (orders_post (Fixture.ids "o") (Fixture.order_body [OrderItem.mk "p1" 5])
                    Fixture.db0) in
  stock_of db1 "p1" = Some 5
  ∧ orders_delete "oa" db1 = (Ok tt, Fixture.db0)
  ∧ orders_get "oa" Fixture.db0 = Err OrderNotFound.
Proof. split_and!; vm_compute; reflexivity. Qed.

(** ** Stock below zero *)

Lemma db0_stock_nonneg : stock_nonneg Fixture.db0.
Proof.
  intros pid p. unfold Fixture.db0. cbn [products].
  rewrite lookup_insert_Some, lookup_singleton_Some.
  intros [[_ <-]|[_ [_ <-]]]; simpl; lia.
Qed.

(** C1 does not hold of the code. The validation loop of
    [POST /api/orders] compares every item with the stock read before any
    decrement, so a request that names the laptop (stock 10) twice for six
    units passes both checks; the transaction then takes twelve.  Starting
    from a database where every stock is at least 0, the request is answered
    201 and leaves the laptop at stock -2. *)
Theorem duplicate_items_drive_stock_negative :
  stock_nonneg Fixture.db0
  ∧ Forall (sufficient Fixture.db0) Fixture.laptops_twice
  ∧ is_ok (fst (orders_post (Fixture.ids "o") (Fixture.order_body Fixture.laptops_twice)
                  Fixture.db0)) = true
  ∧ stock_of (run [CreateOrder (Fixture.ids "o") (Fixture.order_body Fixture.laptops_twice)]
                Fixture.db0) "p1" = Some (-2)
  ∧ ¬ stock_nonneg
        (run [CreateOrder (Fixture.ids "o") (Fixture.order_body Fixture.laptops_twice)]
           Fixture.db0).
Proof.
  split_and!.
  - exact db0_stock_nonneg.
  - repeat constructor; exists Fixture.laptop; (split; [vm_compute; reflexivity|simpl; lia]).
  - vm_compute. reflexivity.
  - vm_compute. reflexivity.
  - intros Hnn.
    specialize (Hnn "p1" (Product.with_stock (-2) Fixture.laptop)).
    assert (0 <= -2); [|lia]. apply Hnn. vm_compute. reflexivity.
Qed.

(** A second way below zero: an order for minus three laptops raises the
    stock to 13, an adjustment by -13 empties it, and cancelling the order
    then "restores" minus three. *)
Example negative_order_cancelled_after_sellout :
  stock_of
    (run [CreateOrder (Fixture.ids "o") (Fixture.order_body Fixture.minus_three);
          AdjustStock "p1" (-13);
          CancelOrder "oa"] Fixture.db0) "p1" = Some (-3).
Proof. vm_compute. reflexivity. Qed.

(** What does hold: with plain requests the stock never goes below zero. *)

Lemma ordered_qty_absent (pid : string) (items : list OrderItem.t) :
  pid ∉ (OrderItem.product_id <$> items) → ordered_qty pid items = 0.
Proof.
  induction items as [|item rest IH]; csimpl; [done|].
  intros Hnot. apply not_elem_of_cons in Hnot as [Hne Hrest].
  rewrite bool_decide_false by done. rewrite IH by done. lia.
Qed.

Lemma ordered_qty_within_stock (db : Db) (pid : string) (p : Product.t)
    (items : list OrderItem.t) :
  NoDup (OrderItem.product_id <$> items) →
  Forall (sufficient db) items →
  products db !! pid = Some p →
  0 <= Product.stock p →
  ordered_qty pid items <= Product.stock p.
Proof.
  intros Hnd Hall Hp Hs.
  induction Hall as [|item rest (p' & Hp' & Hq) _ IH]; csimpl in *; [lia|].
  apply NoDup_cons in Hnd as [Hnot Hnd].
  case_bool_decide as Heq.
  - subst pid. assert (p' = p) as -> by congruence.
    rewrite ordered_qty_absent by done. lia.
  - specialize (IH Hnd). lia.
Qed.

Lemma rows_qty_nonneg (pid : string) (rows : list OrderItemRow.t) :
  Forall (fun r => 0 <= OrderItemRow.quantity r) rows → 0 <= rows_qty pid rows.
Proof.
  induction 1 as [|r rows Hr _ IH]; simpl; [lia|]. case_bool_decide; lia.
Qed.

Lemma item_rows_quantities (uuidv4 : nat -> string) (k : nat) (oid : string) (db : Db)
    (items : list OrderItem.t) :
  Forall (fun item => 0 <= OrderItem.quantity item) items →
  Forall (fun r => 0 <= OrderItemRow.quantity r)
    (item_rows uuidv4 k oid (priced db <$> items)).
Proof.
  intros Hall. revert k. induction Hall as [|item rest Hq _ IH]; intros k; csimpl.
  - constructor.
  - constructor; [done|apply IH].
Qed.

Lemma plain_request_keeps_stock_nonneg (r : request) (db : Db) :
  plain_request r →
  stock_nonneg db ∧ quantities_nonneg db →
  stock_nonneg (handle r db) ∧ quantities_nonneg (handle r db).
Proof.
  intros Hplain [Hstock Hqty].
  destruct r as [id q|uuidv4 body|id|id st|id body]; simpl.
  - (* PATCH stock *)
    unfold products_patch_stock.
    destruct (products db !! id) as [existing|] eqn:Hp; [|done].
    destruct (Js.add_int (Product.stock existing) q <? 0) eqn:Hneg; [done|].
    apply Z.ltb_ge in Hneg. simpl. split; [|done].
    intros pid p. unfold Sql.write_stock. simpl.
    destruct (decide (pid = id)) as [->|Hne].
    + rewrite lookup_alter_eq, Hp. by intros [= <-].
    + rewrite lookup_alter_ne by done. apply Hstock.
  - (* POST order *)
    destruct (orders_post uuidv4 body db) as [[[oid row]|e] db'] eqn:Hpost; simpl.
    + apply orders_post_ok_inv in Hpost
        as (uid & items & _ & Hbi & _ & _ & _ & Hall & _ & _ & _ & _ & _ & Hitems & Hprods).
      destruct (Hplain items Hbi) as [Hnd Hpos]. split.
      * intros pid p'. rewrite Hprods.
        destruct (products db !! pid) as [p|] eqn:Hp; [|done].
        intros [= <-]. simpl.
        pose proof (ordered_qty_within_stock db pid p items Hnd Hall Hp (Hstock pid p Hp)).
        lia.
      * unfold quantities_nonneg. rewrite Hitems. apply Forall_app. split; [done|].
        by apply item_rows_quantities.
    + by rewrite (orders_post_err_unchanged _ _ _ _ _ Hpost).
  - (* DELETE order *)
    unfold orders_delete.
    destruct (orders db !! id) as [order|]; [|done].
    destruct (String.eqb (Order.status order) "delivered"); [done|].
    rewrite cancelOrder_some. cbn [snd]. split.
    + intros pid p'. cbn [products]. rewrite restore_stock_products.
      destruct (products db !! pid) as [p|] eqn:Hp; [|done].
      intros [= <-]. simpl.
      assert (0 <= rows_qty pid (Sql.items_of_order id db)).
      { apply rows_qty_nonneg. unfold Sql.items_of_order.
        apply Forall_forall. intros r Hr. apply list_elem_of_filter in Hr as [_ Hr].
        unfold quantities_nonneg in Hqty. rewrite Forall_forall in Hqty. by apply Hqty. }
      specialize (Hstock pid p Hp). lia.
    + unfold quantities_nonneg in *. simpl.
      apply Forall_forall. intros r Hr. apply list_elem_of_filter in Hr as [_ Hr].
      rewrite Forall_forall in Hqty. by apply Hqty.
  - (* PATCH status *)
    unfold orders_patch_status.
    destruct st as [s|]; [|done].
    destruct (negb (truthy (Some s)) || negb (bool_decide (s ∈ validStatuses))); [done|].
    destruct (orders db !! id); done.
  - (* PUT product *)
    unfold products_put.
    destruct (products db !! id) as [existing|] eqn:Hp; [|done].
    destruct (bad_price (ProductBody.price body)); [done|].
    simpl. split; [|done].
    intros pid p. unfold Sql.set_products. cbn [products].
    destruct (decide (pid = id)) as [->|Hne].
    + rewrite lookup_alter_eq, Hp. intros [= <-]. simpl.
      destruct (ProductBody.stock body) as [s|] eqn:Hs; simpl.
      * by apply Hplain.
      * by apply (Hstock id existing).
    + rewrite lookup_alter_ne by done. apply Hstock.
Qed.

(** X25. For every sequence of plain requests - orders that name no product
    twice and ask for no negative quantity, catalog updates that set no
    negative stock, and any stock adjustment, cancellation or status change -
    a database with no negative stock and no negative line-item quantity
    stays so. *)
Lemma plain_requests_keep_stock_nonneg (rs : list request) (db : Db) :
  Forall plain_request rs →
  stock_nonneg db ∧ quantities_nonneg db →
  stock_nonneg (run rs db) ∧ quantities_nonneg (run rs db).
Proof.
  intros Hall. revert db. induction Hall as [|r rs Hr _ IH]; intros db Hinv; simpl.
  - done.
  - apply IH. by apply plain_request_keeps_stock_nonneg.
Qed.

(** ** The order-items foreign key is an invariant *)

Lemma handle_keeps_items_reference_orders (r : request) (db : Db) :
  items_reference_orders db → items_reference_orders (handle r db).
Proof.
  intros Hfk.
  destruct r as [id q|uuidv4 body|id|id st|id body]; simpl.
  - unfold products_patch_stock.
    destruct (products db !! id) as [existing|]; [|done].
    by destruct (Js.add_int (Product.stock existing) q <? 0).
  - destruct (orders_post uuidv4 body db) as [[[oid row]|e] db'] eqn:Hpost; simpl.
    + apply orders_post_ok_inv in Hpost
        as (uid & items & _ & _ & _ & _ & _ & _ & -> & _ & _ & _ & Horders & Hitems & _).
      intros r. rewrite Hitems, Horders. intros Hr.
      apply elem_of_app in Hr as [Hr|Hr].
      * rewrite lookup_insert_is_Some'. right. by apply Hfk.
      * pose proof (item_rows_order_id uuidv4 1 (uuidv4 0%nat) (priced db <$> items)) as Hnew.
        rewrite Forall_forall in Hnew. rewrite (Hnew r Hr), lookup_insert_eq. eauto.
    + by rewrite (orders_post_err_unchanged _ _ _ _ _ Hpost).
  - unfold orders_delete.
    destruct (orders db !! id) as [order|]; [|done].
    destruct (String.eqb (Order.status order) "delivered"); [done|].
    rewrite cancelOrder_some. cbn [snd]. intros r. cbn [order_items orders].
    intros Hr. apply list_elem_of_filter in Hr as [Hne Hr].
    rewrite lookup_delete_ne by done. by apply Hfk.
  - unfold orders_patch_status.
    destruct st as [s|]; [|done].
    destruct (negb (truthy (Some s)) || negb (bool_decide (s ∈ validStatuses))); [done|].
    destruct (orders db !! id) eqn:Ho; [|done].
    cbn [snd]. intros r Hr. unfold Sql.update_status. cbn [orders].
    apply lookup_alter_is_Some. by apply Hfk.
  - unfold products_put.
    destruct (products db !! id) as [existing|]; [|done].
    by destruct (bad_price (ProductBody.price body)).
Qed.

(** ** One request after the other

    The handlers contain no [await]: Node runs each of them to completion
    before it starts the next, so requests that arrive together are served
    in some order, one after the other.  The lemmas below follow one such
    order. *)

Lemma single_order_accepted (g : nat -> string) (db : Db) (uid pid : string)
    (address : option string) (p : Product.t) :
  uid ≠ "" → is_Some (users db !! uid) →
  products db !! pid = Some p → 1 <= Product.stock p →
  orders db !! g 0%nat = None → g 1%nat ∉ Sql.item_ids (order_items db) →
  ∃ order db1,
    orders_post g (single_body uid pid address) db = (Ok (g 0%nat, Some order), db1)
    ∧ users db1 = users db
    ∧ products db1 !! pid = Some (Product.with_stock (Product.stock p - 1) p)
    ∧ orders db1 = <[ g 0%nat := order ]> (orders db)
    ∧ Sql.item_ids (order_items db1) = (Sql.item_ids (order_items db) ++ [g 1%nat])%list.
Proof.
  intros Huid Hu Hp Hs Hoid Hiid.
  assert (Hall : Forall (sufficient db) [OrderItem.mk pid 1]).
  { constructor; [|constructor]. by exists p. }
  assert (Hfresh : fresh_uuids g 1 db).
  { split; [done|]. split; [apply NoDup_singleton|].
    intros i Hi. by assert (i = 1%nat) as -> by lia. }
  destruct (orders_post_succeeds g (single_body uid pid address) db uid
              [OrderItem.mk pid 1] eq_refl eq_refl Huid ltac:(done) Hu Hall Hfresh)
    as [db1 Hpost].
  eexists _, db1. split; [exact Hpost|].
  apply orders_post_ok_inv in Hpost
    as (uid' & items' & [= <-] & [= <-] & _ & _ & _ & _ & _ & _ & _ & Husers & Horders
        & Hitems & Hprods).
  split_and!.
  - done.
  - rewrite Hprods, Hp. simpl. by rewrite bool_decide_true.
  - exact Horders.
  - rewrite Hitems. unfold Sql.item_ids. by rewrite fmap_app.
Qed.

Lemma single_order_refused (g : nat -> string) (db : Db) (uid pid : string)
    (address : option string) (p : Product.t) :
  uid ≠ "" → is_Some (users db !! uid) →
  products db !! pid = Some p → Product.stock p < 1 →
  orders_post g (single_body uid pid address) db
  = (Err (InsufficientStockFor (Product.name p)), db).
Proof.
  intros Huid [u Hu] Hp Hs. unfold orders_post, single_body. simpl.
  apply String.eqb_neq in Huid. rewrite Huid. simpl. rewrite Hu, Hp.
  apply Z.ltb_lt in Hs. by rewrite Hs.
Qed.

Lemma serve_sold_out (gens : list (nat -> string)) (db : Db) (uid pid : string)
    (address : option string) (p : Product.t) :
  uid ≠ "" → is_Some (users db !! uid) →
  products db !! pid = Some p → Product.stock p < 1 →
  serve gens (single_body uid pid address) db
  = (replicate (length gens) (Err (InsufficientStockFor (Product.name p))), db).
Proof.
  intros Huid Hu Hp Hs. induction gens as [|g gens IH]; simpl; [done|].
  rewrite (single_order_refused g db uid pid address p) by done.
  by rewrite IH.
Qed.

(** The sequential counterpart of the overselling property: of the requests
    for one unit each, served one after the other with unused ids against a
    product with stock [n], the first [n] are answered 201, all later ones
    "Insufficient stock for product", and the stock ends at
    [n - length gens], cut off at 0. *)
Lemma serve_sells_exactly_the_stock (gens : list (nat -> string)) (n : nat) (db : Db)
    (uid pid : string) (address : option string) (p : Product.t) :
  uid ≠ "" → is_Some (users db !! uid) →
  products db !! pid = Some p → Product.stock p = Z.of_nat n →
  fresh_single_orders gens db →
  ∃ oks db',
    serve gens (single_body uid pid address) db
    = ((oks ++ replicate (length gens - n)
                 (Err (InsufficientStockFor (Product.name p))))%list, db')
    ∧ length oks = Nat.min n (length gens)
    ∧ Forall (fun r => is_ok r = true) oks
    ∧ stock_of db' pid = Some (Z.of_nat (n - length gens)).
Proof.
  intros Huid. revert n db p.
  induction gens as [|g gens IH]; intros n db p Hu Hp Hs (Hnd0 & Hnd1 & Hfree).
  - exists [], db. simpl. split_and!; [done|by rewrite Nat.min_0_r|done|].
    unfold stock_of. rewrite Hp. simpl. rewrite Hs. f_equal. lia.
  - destruct n as [|m].
    + exists [], db. rewrite (serve_sold_out _ db uid pid address p) by (done || lia).
      split_and!; [done|done|done|]. unfold stock_of. rewrite Hp. simpl. by rewrite Hs.
    + apply Forall_cons in Hfree as [[Hoid Hiid] Hfree].
      csimpl in Hnd0. csimpl in Hnd1.
      apply NoDup_cons in Hnd0 as [Hg0 Hnd0]. apply NoDup_cons in Hnd1 as [Hg1 Hnd1].
      destruct (single_order_accepted g db uid pid address p Huid Hu Hp ltac:(lia) Hoid Hiid)
        as (order & db1 & Hpost & Husers & Hp1 & Horders & Hids).
      destruct (IH m db1 (Product.with_stock (Product.stock p - 1) p))
        as (oks & db' & Hserve & Hlen & Hoks & Hstock).
      * by rewrite Husers.
      * done.
      * simpl. lia.
      * split; [done|]. split; [done|].
        apply Forall_forall. intros g' Hg'. rewrite Forall_forall in Hfree.
        destruct (Hfree g' Hg') as [Hoid' Hiid']. split.
        -- rewrite Horders, lookup_insert_ne; [done|].
           intros Heq. apply Hg0. rewrite Heq.
           by apply (list_elem_of_fmap_2 (fun g => g 0%nat)).
        -- rewrite Hids. apply not_elem_of_app. split; [done|].
           intros Hin. apply list_elem_of_singleton in Hin.
           apply Hg1. rewrite <- Hin.
           by apply (list_elem_of_fmap_2 (fun g => g 1%nat)).
      * exists (Ok (g 0%nat, Some order) :: oks), db'.
        cbn [serve]. rewrite Hpost, Hserve. simpl. split_and!; try done.
        -- by rewrite Hlen.
        -- by constructor.
Qed.

(** X26. Served one after the other with unused ids, [n + k] requests for
    one unit each of a product with stock [n] get [n] answers 201 followed
    by [k] answers "Insufficient stock for product", and the stock ends at
    0. *)
Lemma serve_more_requests_than_stock (gens : list (nat -> string)) (n k : nat) (db : Db)
    (uid pid : string) (address : option string) (p : Product.t) :
  uid ≠ "" → is_Some (users db !! uid) →
  products db !! pid = Some p → Product.stock p = Z.of_nat n →
  fresh_single_orders gens db →
  length gens = (n + k)%nat →
  ∃ oks db',
    serve gens (single_body uid pid address) db
    = ((oks ++ replicate k (Err (InsufficientStockFor (Product.name p))))%list, db')
    ∧ length oks = n
    ∧ Forall (fun r => is_ok r = true) oks
    ∧ stock_of db' pid = Some 0.
Proof.
  intros Huid Hu Hp Hs Hfresh Hlen.
  destruct (serve_sells_exactly_the_stock gens n db uid pid address p Huid Hu Hp Hs Hfresh)
    as (oks & db' & Hserve & Hl & Hoks & Hstock).
  exists oks, db'. rewrite Hlen in *.
  replace (n + k - n)%nat with k in Hserve by lia.
  replace (n - (n + k))%nat with 0%nat in Hstock by lia.
  split_and!; [done|lia|done|done].
Qed.

(** * Properties of the other routes *)

(** ** Rows found by a column *)

Lemma elem_of_users_with_email (email : string) (db : Db) (id : string) (u : User.t) :
  (id, u) ∈ Stmt.users_with_email email db
  ↔ users db !! id = Some u ∧ User.email u = email.
Proof.
  unfold Stmt.users_with_email. rewrite list_elem_of_filter, elem_of_map_to_list.
  simpl. tauto.
Qed.

Lemma elem_of_orders_of_user (uid : string) (db : Db) (id : string) (o : Order.t) :
  (id, o) ∈ Stmt.orders_of_user uid db
  ↔ orders db !! id = Some o ∧ Order.user_id o = uid.
Proof.
  unfold Stmt.orders_of_user. rewrite list_elem_of_filter, elem_of_map_to_list.
  simpl. tauto.
Qed.

Lemma nil_iff_no_elem {A} (l : list A) : l = [] ↔ ∀ x, x ∉ l.
Proof.
  split.
  - intros -> x. apply not_elem_of_nil.
  - destruct l as [|x l]; [done|]. intros H. destruct (H x). by left.
Qed.

Lemma NoDup_all_equal {A} (l : list A) (x : A) :
  NoDup l → x ∈ l → (∀ y, y ∈ l → y = x) → l = [x].
Proof.
  intros Hnd Hx Hall. destruct l as [|a l]; [by apply elem_of_nil in Hx|].
  assert (a = x) as -> by (apply Hall; by left).
  destruct l as [|b l]; [done|].
  assert (b = x) as -> by (apply Hall; right; by left).
  apply NoDup_cons in Hnd as [Hnot _]. destruct Hnot. by left.
Qed.

Lemma users_with_email_unique (db : Db) (id : string) (u : User.t) :
  emails_unique db → users db !! id = Some u →
  Stmt.users_with_email (User.email u) db = [(id, u)].
Proof.
  intros Huniq Hu. apply NoDup_all_equal.
  - unfold Stmt.users_with_email. apply NoDup_filter, NoDup_map_to_list.
  - by apply elem_of_users_with_email.
  - intros [j v] Hjv. apply elem_of_users_with_email in Hjv as [Hv He].
    assert (j = id) as -> by (eapply Huniq; eauto). congruence.
Qed.

Lemma users_with_email_none (db : Db) (email : string) :
  Stmt.users_with_email email db = []
  ↔ ∀ id u, users db !! id = Some u → User.email u ≠ email.
Proof.
  rewrite nil_iff_no_elem. split.
  - intros H id u Hu He. apply (H (id, u)). by apply elem_of_users_with_email.
  - intros H [id u] Hin. apply elem_of_users_with_email in Hin as [Hu He].
    by apply (H id u).
Qed.

(** ** clearDatabase *)

(** X1. [clearDatabase()] returns normally on every database and leaves the
    four tables empty: it deletes line items, then orders, then products,
    then users, so no foreign key is ever violated. *)
Theorem clearDatabase_empties (db : Db) : clearDatabase db = (true, empty_db).
Proof.
  unfold clearDatabase, exec_each, Stmt.delete_all_order_items.
  unfold Stmt.delete_all_orders. cbn [order_items Sql.set_order_items filter list_filter].
  unfold Stmt.delete_all_products. cbn [order_items Sql.set_orders Sql.set_order_items
    filter list_filter].
  unfold Stmt.delete_all_users.
  cbn [orders Sql.set_orders Sql.set_products Sql.set_order_items].
  rewrite map_to_list_empty. reflexivity.
Qed.

(** ** Referential integrity *)

Lemma insert_items_keeps_ids_unique (uuidv4 : nat -> string) (oid : string)
    (items : list PricedItem.t) (k : nat) (db1 db2 : Db) :
  insert_items uuidv4 k oid items db1 = Some db2 →
  item_ids_unique db1 → item_ids_unique db2.
Proof.
  revert k db1. induction items as [|item rest IH]; intros k db1; simpl.
  - by intros [= <-].
  - destruct (Sql.insert_order_item _ db1) as [db1'|] eqn:Hins; [|discriminate].
    apply insert_order_item_inv in Hins as (-> & Hfresh & _). simpl in Hfresh.
    intros Hrest Hnd. eapply IH; [exact Hrest|].
    unfold item_ids_unique, Sql.item_ids in *. simpl.
    rewrite fmap_app. apply NoDup_app. split_and!; [done| |apply NoDup_singleton].
    intros x Hx Hin. apply list_elem_of_singleton in Hin. simpl in Hin. by subst.
Qed.

Lemma orders_post_keeps_ids_unique (uuidv4 : nat -> string) (body : OrderBody.t)
    (db : Db) :
  item_ids_unique db → item_ids_unique (snd (orders_post uuidv4 body db)).
Proof.
  intros Hnd. unfold orders_post.
  destruct (OrderBody.user_id body) as [uid|]; [|done].
  destruct (OrderBody.items body) as [[|item rest]|]; [done| |done].
  destruct (negb (truthy (Some uid))); [done|].
  destruct (users db !! uid) as [u|] eqn:Hu; [|done].
  destruct (verify_products _ _ _ _) as [[total orderItems]|e]; [|done].
  unfold createOrder, Sql.insert_order. simpl Order.user_id.
  destruct (orders db !! uuidv4 0%nat); [done|]. rewrite Hu.
  destruct (insert_items _ _ _ _ _) as [db2|] eqn:Hins; [|done].
  cbn [snd]. by eapply insert_items_keeps_ids_unique.
Qed.

Lemma item_rows_products_exist (uuidv4 : nat -> string) (k : nat) (oid : string)
    (db : Db) (items : list OrderItem.t) (r : OrderItemRow.t) :
  Forall (sufficient db) items →
  r ∈ item_rows uuidv4 k oid (priced db <$> items) →
  is_Some (products db !! OrderItemRow.product_id r).
Proof.
  intros Hall. revert k. induction Hall as [|item rest (p & Hp & _) _ IH]; intros k; csimpl.
  - intros Hr. by apply elem_of_nil in Hr.
  - intros Hr. apply elem_of_cons in Hr as [->|Hr]; [simpl; eauto|by eapply IH].
Qed.

Lemma handle_keeps_integrity (r : request) (db : Db) :
  integrity db → integrity (handle r db).
Proof.
  intros (Hio & Hip & Hou & Heu & Hid).
  split; [by apply handle_keeps_items_reference_orders|].
  destruct r as [id q|uuidv4 body|id|id st|id body].
  - (* PATCH stock *)
    simpl. unfold products_patch_stock.
    destruct (products db !! id) as [existing|]; [|done].
    destruct (Js.add_int (Product.stock existing) q <? 0); [done|].
    cbn [snd]. split_and!; try done.
    intros r Hr. unfold Sql.write_stock. cbn [products Sql.set_products].
    apply lookup_alter_is_Some. by apply Hip.
  - (* POST order *)
    pose proof (orders_post_keeps_ids_unique uuidv4 body db Hid) as Hid'.
    simpl in *.
    destruct (orders_post uuidv4 body db) as [[[oid row]|e] db'] eqn:Hpost; cbn [snd] in *.
    + apply orders_post_ok_inv in Hpost
        as (uid & items & _ & _ & _ & _ & Hu & Hall & -> & _ & _ & Husers & Horders
            & Hitems & Hprods).
      split_and!; [| |by unfold emails_unique; rewrite Husers|done].
      * intros r. rewrite Hitems, Hprods. intros Hr.
        apply fmap_is_Some. apply elem_of_app in Hr as [Hr|Hr]; [by apply Hip|].
        by eapply item_rows_products_exist.
      * intros id o. rewrite Horders, Husers. intros Ho.
        apply lookup_insert_Some in Ho as [[_ <-]|[_ Ho]]; [done|by eapply Hou].
    + by rewrite (orders_post_err_unchanged _ _ _ _ _ Hpost).
  - (* DELETE order *)
    simpl. unfold orders_delete.
    destruct (orders db !! id) as [order|]; [|done].
    destruct (String.eqb (Order.status order) "delivered"); [done|].
    rewrite cancelOrder_some. cbn [snd]. split_and!.
    + intros r. cbn [order_items products]. intros Hr.
      apply list_elem_of_filter in Hr as [_ Hr].
      rewrite restore_stock_products. apply fmap_is_Some. by apply Hip.
    + intros oid o. cbn [orders users]. intros Ho.
      apply lookup_delete_Some in Ho as [_ Ho]. by eapply Hou.
    + done.
    + unfold item_ids_unique, Sql.item_ids in *. cbn [order_items].
      induction (order_items db) as [|r rows IH]; [done|].
      csimpl in Hid. apply NoDup_cons in Hid as [Hr Hid].
      rewrite filter_cons. case_decide; [|by apply IH].
      csimpl. apply NoDup_cons. split; [|by apply IH].
      intros Hin. apply Hr. apply list_elem_of_fmap in Hin as (x & Hx & Hin).
      apply list_elem_of_filter in Hin as [_ Hin].
      rewrite Hx. by apply list_elem_of_fmap_2.
  - (* PATCH status *)
    simpl. unfold orders_patch_status.
    destruct st as [s|]; [|done].
    destruct (negb (truthy (Some s)) || negb (bool_decide (s ∈ validStatuses))); [done|].
    destruct (orders db !! id) eqn:Ho; [|done].
    cbn [snd]. split_and!; try done.
    intros oid o. unfold Sql.update_status. cbn [orders users Sql.set_orders].
    intros Ho'. apply lookup_alter_Some in Ho' as [(-> & o' & Ho' & ->)|[_ Ho']].
    + simpl. by eapply Hou.
    + by eapply Hou.
  - (* PUT product *)
    simpl. unfold products_put.
    destruct (products db !! id) as [existing|]; [|done].
    destruct (bad_price (ProductBody.price body)); [done|].
    cbn [snd]. split_and!; try done.
    intros r Hr. unfold Sql.set_products. cbn [products].
    apply lookup_alter_is_Some. by apply Hip.
Qed.

Lemma insert_user_inv (id : string) (u : User.t) (db db' : Db) :
  Stmt.insert_user id u db = Some db' →
  users db !! id = None
  ∧ (∀ j v, users db !! j = Some v → User.email v ≠ User.email u)
  ∧ db' = Stmt.set_users (<[ id := u ]> (users db)) db.
Proof.
  unfold Stmt.insert_user.
  destruct (users db !! id); [discriminate|].
  destruct (Stmt.users_with_email (User.email u) db) eqn:Hnone; [|discriminate].
  intros [= <-]. split_and!; [done| |done].
  by apply users_with_email_none.
Qed.

Lemma update_user_inv (id : string) (email name role : option string) (u : User.t)
    (db db' : Db) :
  users db !! id = Some u →
  Stmt.update_user id email name role db = Some db' →
  let u' := User.mk (coalesce email (User.email u)) (coalesce name (User.name u))
              (User.password u) (coalesce role (User.role u)) in
  (∀ j v, users db !! j = Some v → j ≠ id → User.email v ≠ User.email u')
  ∧ db' = Stmt.set_users (<[ id := u' ]> (users db)) db.
Proof.
  intros Hu. unfold Stmt.update_user. rewrite Hu. cbv zeta.
  destruct (filter _ _) eqn:Hnone; [|discriminate].
  intros [= <-]. split; [|done].
  intros j v Hv Hne He.
  apply nil_iff_no_elem with (x := (j, v)) in Hnone. apply Hnone.
  apply list_elem_of_filter. split; [done|].
  by apply elem_of_users_with_email.
Qed.

Lemma delete_user_inv (id : string) (u : User.t) (db db' : Db) :
  users db !! id = Some u →
  Stmt.delete_user id db = Some db' →
  (∀ oid o, orders db !! oid = Some o → Order.user_id o ≠ id)
  ∧ db' = Stmt.set_users (delete id (users db)) db.
Proof.
  intros Hu. unfold Stmt.delete_user. rewrite Hu.
  destruct (Stmt.orders_of_user id db) eqn:Hnone; [|discriminate].
  intros [= <-]. split; [|done].
  intros oid o Ho He.
  apply nil_iff_no_elem with (x := (oid, o)) in Hnone. apply Hnone.
  by apply elem_of_orders_of_user.
Qed.

Lemma clear_integrity : integrity empty_db.
Proof.
  unfold integrity, empty_db. split_and!.
  - intros r Hr. by apply elem_of_nil in Hr.
  - intros r Hr. by apply elem_of_nil in Hr.
  - intros id o Ho. cbn in Ho. by rewrite lookup_empty in Ho.
  - intros i j u v Hu. cbn in Hu. by rewrite lookup_empty in Hu.
  - apply NoDup_nil_2.
Qed.

Lemma clearDatabase_snd (db : Db) : snd (clearDatabase db) = empty_db.
Proof.
  unfold clearDatabase, exec_each, Stmt.delete_all_order_items,
    Stmt.delete_all_orders, Stmt.delete_all_products.
  cbn [order_items Sql.set_order_items Sql.set_orders filter list_filter].
  unfold Stmt.delete_all_users.
  cbn [orders Sql.set_orders Sql.set_products Sql.set_order_items].
  by rewrite map_to_list_empty.
Qed.

Lemma api_handle_keeps_integrity (c : api_call) (db : Db) :
  integrity db → integrity (api_handle c db).
Proof.
  intros Hint. pose proof Hint as (Hio & Hip & Hou & Heu & Hid).
  destruct c as [r|uuidv4 body|id|uuidv4 body|id body|id|]; simpl.
  - by apply handle_keeps_integrity.
  - (* POST product *)
    unfold products_post.
    destruct (ProductBody.name body) as [name|]; [|done].
    destruct (ProductBody.price body) as [price|]; [|done].
    destruct (negb (truthy (Some name))); [done|].
    destruct (bad_price (Some price)); [done|].
    unfold Stmt.insert_product.
    destruct (products db !! uuidv4 0%nat) eqn:Hfree; [done|].
    cbn [snd]. split_and!; try done.
    intros r Hr. cbn [products Sql.set_products].
    apply lookup_insert_is_Some'. right. by apply Hip.
  - (* DELETE product *)
    unfold products_delete, Stmt.delete_product.
    destruct (products db !! id) as [p|]; [|done].
    case_bool_decide as Href; [done|].
    cbn [snd]. split_and!; try done.
    intros r Hr. cbn [products Sql.set_products].
    rewrite lookup_delete_ne; [by apply Hip|].
    intros ->. apply Href. by apply list_elem_of_fmap_2.
  - (* POST user *)
    unfold users_post.
    destruct (UserBody.email body) as [email|]; [|done].
    destruct (UserBody.name body) as [name|]; [|done].
    destruct (UserBody.password body) as [password|]; [|done].
    destruct (negb (truthy (Some email)) || negb (truthy (Some name))
              || negb (truthy (Some password))); [done|].
    destruct (Stmt.insert_user _ _ db) as [db'|] eqn:Hins; [|done].
    apply insert_user_inv in Hins as (Hfree & Hnew & ->).
    cbn [snd]. split_and!; try done.
    + intros oid o Ho. cbn [users Stmt.set_users].
      apply lookup_insert_is_Some'. right. by eapply Hou.
    + intros i j u v. cbn [users Stmt.set_users].
      rewrite !lookup_insert_Some.
      intros [[<- <-]|[Hi Hu]] [[<- <-]|[Hj Hv]] He; try done.
      * simpl in He. by destruct (Hnew j v Hv).
      * simpl in He. by destruct (Hnew i u Hu).
      * by eapply Heu.
  - (* PUT user *)
    unfold users_put.
    destruct (users db !! id) as [u|] eqn:Hu; [|done].
    destruct (Stmt.update_user _ _ _ _ db) as [db'|] eqn:Hupd; [|done].
    apply (update_user_inv _ _ _ _ u) in Hupd as (Hnew & ->); [|done].
    cbn [snd]. split_and!; try done.
    + intros oid o Ho. cbn [users Stmt.set_users].
      apply lookup_insert_is_Some'. right. by eapply Hou.
    + intros i j a b. cbn [users Stmt.set_users].
      rewrite !lookup_insert_Some.
      intros [[<- <-]|[Hi Ha]] [[<- <-]|[Hj Hb]] He; try done.
      * by destruct (Hnew j b Hb).
      * by destruct (Hnew i a Ha).
      * by eapply Heu.
  - (* DELETE user *)
    unfold users_delete.
    destruct (users db !! id) as [u|] eqn:Hu; [|done].
    destruct (Stmt.delete_user id db) as [db'|] eqn:Hdel; [|done].
    apply (delete_user_inv _ u) in Hdel as (Hnone & ->); [|done].
    cbn [snd]. split_and!; try done.
    + intros oid o Ho. cbn [users Stmt.set_users].
      rewrite lookup_delete_ne; [by eapply Hou|].
      intros Heq. by apply (Hnone oid o Ho).
    + intros i j a b. cbn [users Stmt.set_users].
      rewrite !lookup_delete_Some. intros [_ Ha] [_ Hb]. by eapply Heu.
  - rewrite clearDatabase_snd. exact clear_integrity.
Qed.

(** X2. Every sequence of writing requests keeps the database within its
    schema: line items reference existing orders and products, orders
    reference existing users, no two users share an email and no two line
    items share an id.  The requests are the five engine routes, product
    creation and deletion, user creation, update and deletion, and
    [clearDatabase]. *)
Theorem api_run_keeps_integrity (cs : list api_call) (db : Db) :
  integrity db → integrity (api_run cs db).
Proof.
  revert db. induction cs as [|c cs IH]; intros db Hint; simpl; [done|].
  apply IH. by apply api_handle_keeps_integrity.
Qed.

Lemma api_run_keeps_integrity_witness :
  integrity (api_run Sample.calls empty_db).
Proof.
  apply (api_run_keeps_integrity Sample.calls empty_db).
  - exact clear_integrity.
Defined.

(** ** Users *)

Lemma db0_emails_unique : emails_unique Fixture.db0.
Proof.
  intros i j u v. unfold Fixture.db0. cbn [users].
  rewrite !lookup_singleton_Some. by intros [<- _] [<- _] _.
Qed.


Lemma truthy_some (s : string) : s ≠ "" → negb (truthy (Some s)) = false.
Proof. intros Hs. apply truthy_nonempty in Hs. by rewrite Hs. Qed.

Lemma user_by_email_found (db : Db) (id : string) (u : User.t) :
  emails_unique db → users db !! id = Some u →
  Stmt.user_by_email (User.email u) db = Some (id, u).
Proof.
  intros Huniq Hu. unfold Stmt.user_by_email.
  by rewrite (users_with_email_unique db id u Huniq Hu).
Qed.

Lemma user_by_email_inv (db : Db) (email id : string) (u : User.t) :
  Stmt.user_by_email email db = Some (id, u) →
  users db !! id = Some u ∧ User.email u = email.
Proof.
  unfold Stmt.user_by_email. intros Hhead.
  apply head_Some_elem_of in Hhead. by apply elem_of_users_with_email.
Qed.

Lemma user_by_email_none (db : Db) (email : string) :
  Stmt.user_by_email email db = None
  ↔ ∀ id u, users db !! id = Some u → User.email u ≠ email.
Proof.
  unfold Stmt.user_by_email. rewrite head_None. apply users_with_email_none.
Qed.

(** X3. Registration: with the three fields present and not empty,
    [POST /api/users] answers 409 "Email already exists" and changes nothing
    when some user already has the email (or the drawn id), and otherwise
    answers 201 and stores exactly the new row, with role 'user' unless the
    body names one. *)
Theorem users_post_outcome (uuidv4 : nat -> string) (body : UserBody.t) (db : Db)
    (email name password : string) :
  UserBody.email body = Some email → UserBody.name body = Some name →
  UserBody.password body = Some password →
  email ≠ "" → name ≠ "" → password ≠ "" →
  ((∃ j v, users db !! j = Some v ∧ User.email v = email)
   ∨ is_Some (users db !! uuidv4 0%nat) →
   users_post uuidv4 body db = (Refusal 409 "Email already exists", db))
  ∧ ((∀ j v, users db !! j = Some v → User.email v ≠ email) →
     users db !! uuidv4 0%nat = None →
     users_post uuidv4 body db
     = (Answer 201
          (UserView.mk (uuidv4 0%nat) email name (coalesce (UserBody.role body) "user")),
        Stmt.set_users
          (<[ uuidv4 0%nat := User.mk email name password
                                (coalesce (UserBody.role body) "user") ]> (users db)) db)).
Proof.
  intros He Hn Hp Hes Hns Hps.
  unfold users_post. rewrite He, Hn, Hp.
  rewrite (truthy_some email Hes), (truthy_some name Hns), (truthy_some password Hps).
  cbn [orb]. unfold Stmt.insert_user. cbn [User.email]. split.
  - intros [(j & v & Hv & Hve)|[w Hw]].
    + destruct (users db !! uuidv4 0%nat); [done|].
      destruct (Stmt.users_with_email email db) eqn:Hnone; [|done].
      pose proof (proj1 (users_with_email_none db email) Hnone) as Hno.
      by destruct (Hno j v Hv).
    + by rewrite Hw.
  - intros Hnew Hfree. rewrite Hfree.
    pose proof (proj2 (users_with_email_none db email) Hnew) as Hno. by rewrite Hno.
Qed.

Lemma users_post_outcome_witness :
  ((∃ j v, users Fixture.db0 !! j = Some v ∧ User.email v = "alice@test.com")
   ∨ is_Some (users Fixture.db0 !! (Fixture.ids "u") 0%nat) →
   users_post (Fixture.ids "u") Sample.alice Fixture.db0 = (Refusal 409 "Email already exists", Fixture.db0))
  ∧ ((∀ j v, users Fixture.db0 !! j = Some v → User.email v ≠ "alice@test.com") →
     users Fixture.db0 !! (Fixture.ids "u") 0%nat = None →
     users_post (Fixture.ids "u") Sample.alice Fixture.db0
     = (Answer 201
          (UserView.mk ((Fixture.ids "u") 0%nat) "alice@test.com" "Alice" (coalesce (UserBody.role Sample.alice) "user")),
        Stmt.set_users
          (<[ (Fixture.ids "u") 0%nat := User.mk "alice@test.com" "Alice" "alice123"
                                (coalesce (UserBody.role Sample.alice) "user") ]> (users Fixture.db0)) Fixture.db0)).
Proof.
  apply (users_post_outcome
           (Fixture.ids "u") Sample.alice Fixture.db0 "alice@test.com" "Alice" "alice123").
  - reflexivity.
  - reflexivity.
  - reflexivity.
  - discriminate.
  - discriminate.
  - discriminate.
Defined.

(** X4. Register, then log in: in a database without duplicate emails, after
    [POST /api/users] has answered 201, [POST /api/users/login] with the same
    email and password answers 200 with the new user's id, name and role and
    the token "mock-jwt-token-<id>", and [GET /api/users/:id] answers the
    same view. *)
Theorem register_then_login (uuidv4 : nat -> string) (body : UserBody.t) (db db' : Db)
    (v : UserView.t) :
  emails_unique db →
  users_post uuidv4 body db = (Answer 201 v, db') →
  users_login (UserBody.mk (UserBody.email body) None (UserBody.password body) None) db'
  = Answer 200
      (Session.mk (UserView.id v) (UserView.email v) (UserView.name v) (UserView.role v)
         ("mock-jwt-token-" +:+ UserView.id v))
  ∧ users_get (UserView.id v) db' = Answer 200 v
  ∧ UserView.id v = uuidv4 0%nat.
Proof.
  intros Huniq. unfold users_post.
  destruct (UserBody.email body) as [email|]; [|discriminate].
  destruct (UserBody.name body) as [name|]; [|discriminate].
  destruct (UserBody.password body) as [password|]; [|discriminate].
  destruct (negb (truthy (Some email))) eqn:He; [discriminate|].
  destruct (negb (truthy (Some name))) eqn:Hn; [discriminate|].
  destruct (negb (truthy (Some password))) eqn:Hp; [discriminate|].
  cbn [orb].
  destruct (Stmt.insert_user _ _ db) as [db1|] eqn:Hins; [|discriminate].
  intros [= <- <-].
  pose proof Hins as Hins'.
  apply insert_user_inv in Hins' as (Hfree & Hnew & ->).
  set (u := User.mk email name password (coalesce (UserBody.role body) "user")).
  set (db1 := Stmt.set_users (<[ uuidv4 0%nat := u ]> (users db)) db).
  assert (Hu : users db1 !! uuidv4 0%nat = Some u) by apply lookup_insert_eq.
  assert (Huniq1 : emails_unique db1).
  { intros i j a b. unfold db1. cbn [users Stmt.set_users].
    rewrite !lookup_insert_Some.
    intros [[<- <-]|[Hi Ha]] [[<- <-]|[Hj Hb]] Heq; try done.
    - by destruct (Hnew j b Hb).
    - by destruct (Hnew i a Ha).
    - by eapply Huniq. }
  split_and!.
  - unfold users_login. cbn [UserBody.email UserBody.password].
    rewrite He, Hp. cbn [orb].
    change email with (User.email u).
    rewrite (user_by_email_found db1 _ u Huniq1 Hu).
    cbn [User.password User.email User.name User.role u].
    by rewrite String.eqb_refl.
  - unfold users_get. cbn [UserView.id]. by rewrite Hu.
  - done.
Qed.

Lemma register_then_login_witness :
  users_login (UserBody.mk (UserBody.email Sample.alice) None (UserBody.password Sample.alice) None) Sample.db_registered
  = Answer 200
      (Session.mk (UserView.id Sample.alice_view) (UserView.email Sample.alice_view) (UserView.name Sample.alice_view) (UserView.role Sample.alice_view)
         ("mock-jwt-token-" +:+ UserView.id Sample.alice_view))
  ∧ users_get (UserView.id Sample.alice_view) Sample.db_registered = Answer 200 Sample.alice_view
  ∧ UserView.id Sample.alice_view = (Fixture.ids "u") 0%nat.
Proof.
  apply (register_then_login
           (Fixture.ids "u") Sample.alice Fixture.db0 Sample.db_registered Sample.alice_view).
  - exact db0_emails_unique.
  - vm_compute; reflexivity.
Defined.

Lemma users_login_accepts (body : UserBody.t) (db : Db) (id : string) (u : User.t) :
  emails_unique db →
  UserBody.email body = Some (User.email u) →
  UserBody.password body = Some (User.password u) →
  User.email u ≠ "" → User.password u ≠ "" →
  users db !! id = Some u →
  users_login body db
  = Answer 200
      (Session.mk id (User.email u) (User.name u) (User.role u)
         ("mock-jwt-token-" +:+ id)).
Proof.
  intros Huniq He Hp Hes Hps Hu. unfold users_login. rewrite He, Hp.
  rewrite (truthy_some _ Hes), (truthy_some _ Hps). cbn [orb].
  rewrite (user_by_email_found db id u Huniq Hu).
  by rewrite String.eqb_refl.
Qed.

Lemma users_login_refuses (body : UserBody.t) (db : Db) (email password : string) :
  UserBody.email body = Some email → UserBody.password body = Some password →
  email ≠ "" → password ≠ "" →
  (∀ id u, users db !! id = Some u → User.email u = email →
           User.password u ≠ password) →
  users_login body db = Refusal 401 "Invalid credentials".
Proof.
  intros He Hp Hes Hps Hwrong. unfold users_login. rewrite He, Hp.
  rewrite (truthy_some email Hes), (truthy_some password Hps). cbn [orb].
  destruct (Stmt.user_by_email email db) as [[id u]|] eqn:Hfind; [|done].
  apply user_by_email_inv in Hfind as [Hu Hue].
  pose proof (Hwrong id u Hu Hue) as Hpw.
  apply String.eqb_neq in Hpw. by rewrite Hpw.
Qed.

(** X5. Login: in a database without duplicate emails and for a non-empty
    email and password, [POST /api/users/login] answers 200 for the user
    that has this email and this password, and answers 401 "Invalid
    credentials" both when no user has the email and when the user that has
    it has another password. *)
Theorem users_login_outcome (body : UserBody.t) (db : Db) (email password : string) :
  emails_unique db →
  UserBody.email body = Some email → UserBody.password body = Some password →
  email ≠ "" → password ≠ "" →
  (∀ id u, users db !! id = Some u → User.email u = email →
           User.password u = password →
           users_login body db
           = Answer 200
               (Session.mk id email (User.name u) (User.role u)
                  ("mock-jwt-token-" +:+ id)))
  ∧ ((∀ id u, users db !! id = Some u → User.email u = email →
              User.password u ≠ password) →
     users_login body db = Refusal 401 "Invalid credentials").
Proof.
  intros Huniq He Hp Hes Hps. split.
  - intros id u Hu <- <-. by apply users_login_accepts.
  - intros Hwrong. by eapply users_login_refuses.
Qed.

Lemma users_login_outcome_witness :
  (∀ id u, users Fixture.db0 !! id = Some u → User.email u = "newuser@example.com" →
           User.password u = "password123" →
           users_login Sample.tester_login Fixture.db0
           = Answer 200
               (Session.mk id "newuser@example.com" (User.name u) (User.role u)
                  ("mock-jwt-token-" +:+ id)))
  ∧ ((∀ id u, users Fixture.db0 !! id = Some u → User.email u = "newuser@example.com" →
              User.password u ≠ "password123") →
     users_login Sample.tester_login Fixture.db0 = Refusal 401 "Invalid credentials").
Proof.
  apply (users_login_outcome
           Sample.tester_login Fixture.db0 "newuser@example.com" "password123").
  - exact db0_emails_unique.
  - reflexivity.
  - reflexivity.
  - discriminate.
  - discriminate.
Defined.

(** The row [PUT /api/users/:id] writes for [body] over [u]. *)
Lemma users_put_ok_inv (id : string) (body : UserBody.t) (db db' : Db) (u : User.t)
    (v : option UserView.t) :
  users db !! id = Some u →
  users_put id body db = (Answer 200 v, db') →
  let u' := User.mk (coalesce (UserBody.email body) (User.email u))
              (coalesce (UserBody.name body) (User.name u)) (User.password u)
              (coalesce (UserBody.role body) (User.role u)) in
  v = Some (view_user id u')
  ∧ (∀ j w, users db !! j = Some w → j ≠ id → User.email w ≠ User.email u')
  ∧ db' = Stmt.set_users (<[ id := u' ]> (users db)) db.
Proof.
  intros Hu. unfold users_put. rewrite Hu.
  destruct (Stmt.update_user _ _ _ _ db) as [db1|] eqn:Hupd; [|discriminate].
  intros [= <- <-].
  apply (update_user_inv _ _ _ _ u) in Hupd as (Hnew & ->); [|done].
  cbv zeta. split_and!; [|done|done].
  cbn [users Stmt.set_users]. by rewrite lookup_insert_eq.
Qed.

(** X6. [PUT /api/users/:id] never touches the password, whatever the body
    carries.  In a database without duplicate emails, after it has answered
    200 the row has the body's email, name and role where given and the old
    ones elsewhere; the user logs in with the old password under the
    resulting email, and, when the email was changed, nobody logs in under
    the old one any more. *)
Theorem users_put_then_login (id : string) (body : UserBody.t) (db db' : Db) (u : User.t)
    (v : option UserView.t) :
  emails_unique db →
  users db !! id = Some u →
  users_put id body db = (Answer 200 v, db') →
  ∃ u', users db' !! id = Some u'
        ∧ User.password u' = User.password u
        ∧ User.email u' = coalesce (UserBody.email body) (User.email u)
        ∧ User.name u' = coalesce (UserBody.name body) (User.name u)
        ∧ User.role u' = coalesce (UserBody.role body) (User.role u)
        ∧ (User.email u' ≠ "" → User.password u ≠ "" →
           users_login (UserBody.mk (Some (User.email u')) None
                          (Some (User.password u)) None) db'
           = Answer 200
               (Session.mk id (User.email u') (User.name u') (User.role u')
                  ("mock-jwt-token-" +:+ id)))
        ∧ (User.email u' ≠ User.email u → User.email u ≠ "" →
           ∀ pw, pw ≠ "" →
                 users_login (UserBody.mk (Some (User.email u)) None (Some pw) None) db'
                 = Refusal 401 "Invalid credentials").
Proof.
  intros Huniq Hu Hput.
  apply (users_put_ok_inv _ _ _ _ u) in Hput as (_ & Hnew & ->); [|done].
  set (u' := User.mk (coalesce (UserBody.email body) (User.email u))
               (coalesce (UserBody.name body) (User.name u)) (User.password u)
               (coalesce (UserBody.role body) (User.role u))) in *.
  set (db1 := Stmt.set_users (<[ id := u' ]> (users db)) db).
  assert (Hu' : users db1 !! id = Some u') by apply lookup_insert_eq.
  assert (Huniq1 : emails_unique db1).
  { intros i j a b. unfold db1. cbn [users Stmt.set_users].
    rewrite !lookup_insert_Some.
    intros [[<- <-]|[Hi Ha]] [[<- <-]|[Hj Hb]] Heq; try done.
    - by destruct (Hnew j b Hb).
    - by destruct (Hnew i a Ha).
    - by eapply Huniq. }
  exists u'. split_and!; try done.
  - intros He Hp.
    by apply (users_login_accepts
                (UserBody.mk (Some (User.email u')) None (Some (User.password u)) None)
                db1 id u' Huniq1).
  - intros Hchanged He pw Hpw.
    apply (users_login_refuses (UserBody.mk (Some (User.email u)) None (Some pw) None)
             db1 (User.email u) pw eq_refl eq_refl He Hpw).
    intros j w. unfold db1. cbn [users Stmt.set_users].
    rewrite lookup_insert_Some. intros [[<- <-]|[Hne Hw]] Hemail.
    + done.
    + assert (j = id) by (eapply Huniq; eauto). done.
Qed.

Lemma users_put_then_login_witness :
  ∃ u', users Sample.db_renamed !! "u1" = Some u'
        ∧ User.password u' = User.password Fixture.tester
        ∧ User.email u' = coalesce (UserBody.email Sample.new_email) (User.email Fixture.tester)
        ∧ User.name u' = coalesce (UserBody.name Sample.new_email) (User.name Fixture.tester)
        ∧ User.role u' = coalesce (UserBody.role Sample.new_email) (User.role Fixture.tester)
        ∧ (User.email u' ≠ "" → User.password Fixture.tester ≠ "" →
           users_login (UserBody.mk (Some (User.email u')) None
                          (Some (User.password Fixture.tester)) None) Sample.db_renamed
           = Answer 200
               (Session.mk "u1" (User.email u') (User.name u') (User.role u')
                  ("mock-jwt-token-" +:+ "u1")))
        ∧ (User.email u' ≠ User.email Fixture.tester → User.email Fixture.tester ≠ "" →
           ∀ pw, pw ≠ "" →
                 users_login (UserBody.mk (Some (User.email Fixture.tester)) None (Some pw) None) Sample.db_renamed
                 = Refusal 401 "Invalid credentials").
Proof.
  apply (users_put_then_login
           "u1" Sample.new_email Fixture.db0 Sample.db_renamed Fixture.tester
           (Some (view_user "u1" Sample.renamed_row))).
  - exact db0_emails_unique.
  - vm_compute; reflexivity.
  - vm_compute; reflexivity.
Defined.

Lemma orders_of_user_nonempty (db : Db) (uid oid : string) (o : Order.t) :
  orders db !! oid = Some o → Order.user_id o = uid →
  Stmt.orders_of_user uid db ≠ [].
Proof.
  intros Ho Hu Hnil.
  apply nil_iff_no_elem with (x := (oid, o)) in Hnil. apply Hnil.
  by apply elem_of_orders_of_user.
Qed.

Lemma users_delete_refused (id : string) (db : Db) (u : User.t) (oid : string)
    (o : Order.t) :
  users db !! id = Some u → orders db !! oid = Some o → Order.user_id o = id →
  users_delete id db = (Refusal 500 "Failed to delete user", db).
Proof.
  intros Hu Ho Hid. unfold users_delete, Stmt.delete_user. rewrite Hu.
  pose proof (orders_of_user_nonempty db id oid o Ho Hid) as Hne.
  by destruct (Stmt.orders_of_user id db).
Qed.

(** X7. [DELETE /api/users/:id] on an existing user: while some order
    belongs to the user it answers 500 "Failed to delete user" and changes
    nothing; when none does it answers 200 and removes exactly that row, so
    that [GET /api/users/:id] answers 404 and, emails being unique, a login
    under the deleted user's email answers 401. *)
Theorem users_delete_outcome (id : string) (db : Db) (u : User.t) :
  users db !! id = Some u →
  ((∃ oid o, orders db !! oid = Some o ∧ Order.user_id o = id) →
   users_delete id db = (Refusal 500 "Failed to delete user", db))
  ∧ ((∀ oid o, orders db !! oid = Some o → Order.user_id o ≠ id) →
     users_delete id db = (Answer 200 tt, Stmt.set_users (delete id (users db)) db)
     ∧ users_get id (snd (users_delete id db)) = Refusal 404 "User not found"
     ∧ (emails_unique db → User.email u ≠ "" →
        ∀ pw, pw ≠ "" →
              users_login (UserBody.mk (Some (User.email u)) None (Some pw) None)
                (snd (users_delete id db))
              = Refusal 401 "Invalid credentials")).
Proof.
  intros Hu. split.
  - intros (oid & o & Ho & Hid). by eapply users_delete_refused.
  - intros Hnone.
    assert (Hdel : users_delete id db
                   = (Answer 200 tt, Stmt.set_users (delete id (users db)) db)).
    { unfold users_delete, Stmt.delete_user. rewrite Hu.
      destruct (Stmt.orders_of_user id db) as [|[oid o] rest] eqn:Hlist; [done|].
      assert (Hin : (oid, o) ∈ Stmt.orders_of_user id db) by (rewrite Hlist; by left).
      apply elem_of_orders_of_user in Hin as [Ho Hid]. by destruct (Hnone oid o Ho). }
    rewrite Hdel. cbn [snd]. split_and!; [done| |].
    + unfold users_get. cbn [users Stmt.set_users]. by rewrite lookup_delete_eq.
    + intros Huniq He pw Hpw.
      apply (users_login_refuses (UserBody.mk (Some (User.email u)) None (Some pw) None)
               _ (User.email u) pw eq_refl eq_refl He Hpw).
      intros j w. cbn [users Stmt.set_users]. rewrite lookup_delete_Some.
      intros [Hne Hw] Hemail. destruct Hne. symmetry. by eapply Huniq.
Qed.

Lemma users_delete_outcome_witness :
  ((∃ oid o, orders Fixture.db_shipped !! oid = Some o ∧ Order.user_id o = "u1") →
   users_delete "u1" Fixture.db_shipped = (Refusal 500 "Failed to delete user", Fixture.db_shipped))
  ∧ ((∀ oid o, orders Fixture.db_shipped !! oid = Some o → Order.user_id o ≠ "u1") →
     users_delete "u1" Fixture.db_shipped = (Answer 200 tt, Stmt.set_users (delete "u1" (users Fixture.db_shipped)) Fixture.db_shipped)
     ∧ users_get "u1" (snd (users_delete "u1" Fixture.db_shipped)) = Refusal 404 "User not found"
     ∧ (emails_unique Fixture.db_shipped → User.email Fixture.tester ≠ "" →
        ∀ pw, pw ≠ "" →
              users_login (UserBody.mk (Some (User.email Fixture.tester)) None (Some pw) None)
                (snd (users_delete "u1" Fixture.db_shipped))
              = Refusal 401 "Invalid credentials")).
Proof.
  apply (users_delete_outcome "u1" Fixture.db_shipped Fixture.tester).
  - vm_compute; reflexivity.
Defined.

(** X8. A customer cannot be deleted: once [POST /api/orders] has answered
    201 for a user, [DELETE /api/users/:id] for that user answers 500 and
    changes nothing, until the order is gone. *)
Theorem customer_cannot_be_deleted (uuidv4 : nat -> string) (body : OrderBody.t)
    (db db' : Db) (oid : string) (row : option Order.t) (uid : string) :
  orders_post uuidv4 body db = (Ok (oid, row), db') →
  OrderBody.user_id body = Some uid →
  users_delete uid db' = (Refusal 500 "Failed to delete user", db').
Proof.
  intros Hpost Huid.
  apply orders_post_ok_inv in Hpost
    as (uid' & items & Hbu & _ & _ & _ & [u Hu] & _ & -> & _ & _ & Husers & Horders & _).
  assert (uid' = uid) as -> by congruence.
  eapply (users_delete_refused uid db' u (uuidv4 0%nat)).
  - by rewrite Husers.
  - rewrite Horders. apply lookup_insert_eq.
  - done.
Qed.

Lemma customer_cannot_be_deleted_witness :
  users_delete "u1" (snd (orders_post (Fixture.ids "o") Fixture.two_items Fixture.db0)) = (Refusal 500 "Failed to delete user", (snd (orders_post (Fixture.ids "o") Fixture.two_items Fixture.db0))).
Proof.
  apply (customer_cannot_be_deleted
           (Fixture.ids "o") Fixture.two_items Fixture.db0
           (snd (orders_post (Fixture.ids "o") Fixture.two_items Fixture.db0)) "oa"
           (Some Fixture.two_items_order) "u1").
  - vm_compute; reflexivity.
  - reflexivity.
Defined.

(** ** Products *)

Lemma products_delete_refused (id : string) (db : Db) (p : Product.t)
    (r : OrderItemRow.t) :
  products db !! id = Some p → r ∈ order_items db → OrderItemRow.product_id r = id →
  products_delete id db = (Refusal 500 "Failed to delete product", db).
Proof.
  intros Hp Hr Hid. unfold products_delete, Stmt.delete_product. rewrite Hp.
  rewrite bool_decide_true; [done|].
  rewrite <- Hid. by apply list_elem_of_fmap_2.
Qed.

(** X9. [DELETE /api/products/:id] on an existing product: while a line item
    names the product it answers 500 "Failed to delete product" and changes
    nothing; otherwise it answers 200, removes exactly that row and leaves
    users, orders and line items alone, and [GET /api/products/:id] then
    answers 404. *)
Theorem products_delete_outcome (id : string) (db : Db) (p : Product.t) :
  products db !! id = Some p →
  ((∃ r, r ∈ order_items db ∧ OrderItemRow.product_id r = id) →
   products_delete id db = (Refusal 500 "Failed to delete product", db))
  ∧ ((∀ r, r ∈ order_items db → OrderItemRow.product_id r ≠ id) →
     products_delete id db
     = (Answer 200 tt, Sql.set_products (delete id (products db)) db)
     ∧ products_get id (snd (products_delete id db)) = Refusal 404 "Product not found"
     ∧ (∀ other, other ≠ id →
          products_get other (snd (products_delete id db)) = products_get other db)).
Proof.
  intros Hp. split.
  - intros (r & Hr & Hid). by eapply products_delete_refused.
  - intros Hnone.
    assert (Hdel : products_delete id db
                   = (Answer 200 tt, Sql.set_products (delete id (products db)) db)).
    { unfold products_delete, Stmt.delete_product. rewrite Hp.
      rewrite bool_decide_false; [done|].
      intros Hin. apply list_elem_of_fmap in Hin as (r & Hid & Hr).
      by destruct (Hnone r Hr). }
    rewrite Hdel. cbn [snd]. split_and!; [done| |].
    + unfold products_get. cbn [products Sql.set_products]. by rewrite lookup_delete_eq.
    + intros other Hne. unfold products_get. cbn [products Sql.set_products].
      by rewrite lookup_delete_ne.
Qed.

Lemma products_delete_outcome_witness :
  ((∃ r, r ∈ order_items Fixture.db_shipped ∧ OrderItemRow.product_id r = "p1") →
   products_delete "p1" Fixture.db_shipped = (Refusal 500 "Failed to delete product", Fixture.db_shipped))
  ∧ ((∀ r, r ∈ order_items Fixture.db_shipped → OrderItemRow.product_id r ≠ "p1") →
     products_delete "p1" Fixture.db_shipped
     = (Answer 200 tt, Sql.set_products (delete "p1" (products Fixture.db_shipped)) Fixture.db_shipped)
     ∧ products_get "p1" (snd (products_delete "p1" Fixture.db_shipped)) = Refusal 404 "Product not found"
     ∧ (∀ other, other ≠ "p1" →
          products_get other (snd (products_delete "p1" Fixture.db_shipped)) = products_get other Fixture.db_shipped)).
Proof.
  apply (products_delete_outcome "p1" Fixture.db_shipped (Product.with_stock 8 Fixture.laptop)).
  - vm_compute; reflexivity.
Defined.

(** X10. An ordered product cannot be deleted: once [POST /api/orders] has
    answered 201, [DELETE /api/products/:id] answers 500 and changes nothing
    for every product the request names. *)
Theorem ordered_product_cannot_be_deleted (uuidv4 : nat -> string) (body : OrderBody.t)
    (db db' : Db) (oid : string) (row : option Order.t) (items : list OrderItem.t)
    (item : OrderItem.t) :
  orders_post uuidv4 body db = (Ok (oid, row), db') →
  OrderBody.items body = Some items → item ∈ items →
  products_delete (OrderItem.product_id item) db'
  = (Refusal 500 "Failed to delete product", db').
Proof.
  intros Hpost Hbi Hin.
  apply orders_post_ok_inv in Hpost
    as (uid & items' & _ & Hbi' & _ & _ & _ & Hall & -> & _ & _ & _ & _ & Hitems & Hprods).
  assert (items' = items) as -> by congruence.
  pose proof (item_rows_snapshot uuidv4 1 (uuidv4 0%nat) db items Hall) as Hsnap.
  apply list_elem_of_lookup in Hin as [i Hi].
  destruct (Forall2_lookup_l _ _ _ _ _ Hsnap Hi) as (r & Hr & Hsn).
  destruct Hsn as (_ & Hpid & _ & p & Hp & _).
  eapply (products_delete_refused _ db' _ r).
  - rewrite Hprods, Hp. reflexivity.
  - rewrite Hitems. apply elem_of_app. right. by eapply list_elem_of_lookup_2.
  - done.
Qed.

Lemma ordered_product_cannot_be_deleted_witness :
  products_delete (OrderItem.product_id (OrderItem.mk "p2" 3)) (snd (orders_post (Fixture.ids "o") Fixture.two_items Fixture.db0))
  = (Refusal 500 "Failed to delete product", (snd (orders_post (Fixture.ids "o") Fixture.two_items Fixture.db0))).
Proof.
  apply (ordered_product_cannot_be_deleted
           (Fixture.ids "o") Fixture.two_items Fixture.db0
           (snd (orders_post (Fixture.ids "o") Fixture.two_items Fixture.db0)) "oa"
           (Some Fixture.two_items_order) [OrderItem.mk "p1" 1; OrderItem.mk "p2" 3]
           (OrderItem.mk "p2" 3)).
  - vm_compute; reflexivity.
  - reflexivity.
  - apply elem_of_cons; right; apply elem_of_cons; left; reflexivity.
Defined.

(** X11. Create, then read: whenever [POST /api/products] answers 201, the
    body had a non-empty name and a price that is not negative, the id was
    unused, and the row stored, returned and served by
    [GET /api/products/:id] carries the body's fields with stock 0 when the
    body gives none; the stock given is stored as it is, whatever its sign.
    No other product and no other table changes. *)
Theorem products_post_then_get (uuidv4 : nat -> string) (body : ProductBody.t)
    (db db' : Db) (id : string) (row : option Product.t) :
  products_post uuidv4 body db = (Answer 201 (id, row), db') →
  ∃ name price,
    ProductBody.name body = Some name ∧ ProductBody.price body = Some price
    ∧ name ≠ "" ∧ (0 <= price)%Q
    ∧ id = uuidv4 0%nat ∧ products db !! id = None
    ∧ row = Some (Product.mk name (ProductBody.description body) price
                    (coalesce (ProductBody.stock body) 0) (ProductBody.category body)
                    (ProductBody.image_url body))
    ∧ products_get id db'
      = Answer 200 (Product.mk name (ProductBody.description body) price
                      (coalesce (ProductBody.stock body) 0) (ProductBody.category body)
                      (ProductBody.image_url body))
    ∧ (∀ other, other ≠ id → products_get other db' = products_get other db)
    ∧ users db' = users db ∧ orders db' = orders db
    ∧ order_items db' = order_items db.
Proof.
  unfold products_post.
  destruct (ProductBody.name body) as [name|]; [|discriminate].
  destruct (ProductBody.price body) as [price|]; [|discriminate].
  destruct (negb (truthy (Some name))) eqn:Hname; [discriminate|].
  destruct (bad_price (Some price)) eqn:Hprice; [discriminate|].
  unfold Stmt.insert_product.
  destruct (products db !! uuidv4 0%nat) eqn:Hfree; [discriminate|].
  intros [= <- <- <-]. exists name, price.
  unfold products_get, Sql.set_products. cbn [products users orders order_items].
  split_and!; try done.
  - apply truthy_nonempty. by apply negb_false_iff in Hname.
  - simpl in Hprice. apply negb_false_iff in Hprice. by apply Qle_bool_iff.
  - by rewrite lookup_insert_eq.
  - by rewrite lookup_insert_eq.
  - intros other Hne. by rewrite lookup_insert_ne.
Qed.

Lemma products_post_then_get_witness :
  ∃ name price,
    ProductBody.name Sample.book = Some name ∧ ProductBody.price Sample.book = Some price
    ∧ name ≠ "" ∧ (0 <= price)%Q
    ∧ "pa" = (Fixture.ids "p") 0%nat ∧ products Fixture.db0 !! "pa" = None
    ∧ (Some Sample.book_row) = Some (Product.mk name (ProductBody.description Sample.book) price
                    (coalesce (ProductBody.stock Sample.book) 0) (ProductBody.category Sample.book)
                    (ProductBody.image_url Sample.book))
    ∧ products_get "pa" (snd (products_post (Fixture.ids "p") Sample.book Fixture.db0))
      = Answer 200 (Product.mk name (ProductBody.description Sample.book) price
                      (coalesce (ProductBody.stock Sample.book) 0) (ProductBody.category Sample.book)
                      (ProductBody.image_url Sample.book))
    ∧ (∀ other, other ≠ "pa" → products_get other (snd (products_post (Fixture.ids "p") Sample.book Fixture.db0)) = products_get other Fixture.db0)
    ∧ users (snd (products_post (Fixture.ids "p") Sample.book Fixture.db0)) = users Fixture.db0 ∧ orders (snd (products_post (Fixture.ids "p") Sample.book Fixture.db0)) = orders Fixture.db0
    ∧ order_items (snd (products_post (Fixture.ids "p") Sample.book Fixture.db0)) = order_items Fixture.db0.
Proof.
  apply (products_post_then_get
           (Fixture.ids "p") Sample.book Fixture.db0
           (snd (products_post (Fixture.ids "p") Sample.book Fixture.db0)) "pa"
           (Some Sample.book_row)).
  - vm_compute; reflexivity.
Defined.

Lemma coalesce_twice {A} (param : option A) (column : A) :
  coalesce param (coalesce param column) = coalesce param column.
Proof. by destruct param. Qed.

Lemma coalesce_null_twice {A} (param column : option A) :
  coalesce_null param (coalesce_null param column) = coalesce_null param column.
Proof. by destruct param. Qed.

Lemma put_row_twice (body : ProductBody.t) (p : Product.t) :
  put_row body (put_row body p) = put_row body p.
Proof.
  unfold put_row. cbn. by rewrite !coalesce_twice, !coalesce_null_twice.
Qed.

Lemma products_put_missing (id : string) (body : ProductBody.t) (db : Db) :
  products db !! id = None → products_put id body db = (Err ProductNotFound, db).
Proof. intros Hp. unfold products_put. by rewrite Hp. Qed.

Lemma products_put_bad_price (id : string) (body : ProductBody.t) (db : Db)
    (p : Product.t) :
  products db !! id = Some p → bad_price (ProductBody.price body) = true →
  products_put id body db = (Err InvalidPrice, db).
Proof. intros Hp Hbad. unfold products_put. by rewrite Hp, Hbad. Qed.

Lemma products_put_writes (id : string) (body : ProductBody.t) (db : Db)
    (p : Product.t) :
  products db !! id = Some p → bad_price (ProductBody.price body) = false →
  products_put id body db
  = (Ok (Some (put_row body p)),
     Sql.set_products (alter (put_row body) id (products db)) db).
Proof.
  intros Hp Hbad. unfold products_put. rewrite Hp, Hbad.
  unfold Sql.set_products. cbn [products]. fold (put_row body).
  by rewrite lookup_alter_eq, Hp.
Qed.

(** X12. [PUT /api/products/:id] is idempotent: sending the same body a
    second time gives the same answer and the same database as sending it
    once. *)
Theorem products_put_idempotent (id : string) (body : ProductBody.t) (db : Db) :
  products_put id body (snd (products_put id body db)) = products_put id body db.
Proof.
  destruct (products db !! id) as [existing|] eqn:Hp.
  - destruct (bad_price (ProductBody.price body)) eqn:Hbad.
    + rewrite (products_put_bad_price id body db existing Hp Hbad). cbn [snd].
      by rewrite (products_put_bad_price id body db existing Hp Hbad).
    + rewrite (products_put_writes id body db existing Hp Hbad). cbn [snd].
      rewrite (products_put_writes id body _ (put_row body existing)); [|by unfold Sql.set_products; cbn [products]; rewrite lookup_alter_eq, Hp|done].
      f_equal.
      * by rewrite put_row_twice.
      * unfold Sql.set_products. cbn [users products orders order_items]. f_equal.
        rewrite alter_alter_eq. apply alter_ext. intros p _. apply put_row_twice.
  - rewrite (products_put_missing id body db Hp). cbn [snd].
    by rewrite (products_put_missing id body db Hp).
Qed.

(** X13. Stock adjustments add up, as long as the numbers are safe
    integers: on a product with stock [s], an adjustment by [a] followed by
    one by [b], both accepted, leaves the database that a single adjustment
    by [a + b] leaves and answers [s + a + b]; in particular an accepted
    adjustment followed by its opposite gives back the database it started
    from. *)
Theorem products_patch_stock_adds_up (id : string) (a b : Z) (db : Db) (p : Product.t) :
  products db !! id = Some p →
  Js.safe_integer (Product.stock p) → Js.safe_integer a → Js.safe_integer b →
  Js.safe_integer (a + b) →
  Js.safe_integer (Product.stock p + a) →
  Js.safe_integer (Product.stock p + a + b) →
  0 <= Product.stock p + a →
  0 <= Product.stock p + a + b →
  products_patch_stock id b (snd (products_patch_stock id a db))
  = (Ok (Product.stock p + a + b), snd (products_patch_stock id (a + b) db))
  ∧ (b = - a → snd (products_patch_stock id b (snd (products_patch_stock id a db))) = db).
Proof.
  intros Hp Hs Hsa Hsb Hsab Hssa Hssab Ha Hb.
  assert (Hstep : ∀ d, Js.safe_integer d → Js.safe_integer (Product.stock p + d) →
            0 <= Product.stock p + d →
            products_patch_stock id d db
            = (Ok (Product.stock p + d), Sql.write_stock (Product.stock p + d) id db)).
  { intros d Hsd Hssd Hd. unfold products_patch_stock. rewrite Hp.
    rewrite (Js_add_int_safe _ _ Hs Hsd Hssd).
    apply Z.ltb_ge in Hd. by rewrite Hd. }
  rewrite (Hstep a Hsa Hssa Ha). cbn [snd].
  assert (Hsecond : products_patch_stock id b (Sql.write_stock (Product.stock p + a) id db)
                    = (Ok (Product.stock p + a + b),
                       Sql.write_stock (Product.stock p + a + b) id db)).
  { unfold products_patch_stock, Sql.write_stock. cbn [products Sql.set_products].
    rewrite lookup_alter_eq, Hp. cbn [fmap option_fmap option_map Product.stock Product.with_stock].
    rewrite (Js_add_int_safe _ _ Hssa Hsb Hssab).
    apply Z.ltb_ge in Hb. rewrite Hb. f_equal.
    unfold Sql.set_products. cbn [users products orders order_items]. f_equal.
    rewrite alter_alter_eq. by apply alter_ext. }
  rewrite Hsecond. split.
  - rewrite (Hstep (a + b)); [|done|by rewrite Z.add_assoc|lia].
    cbn [snd]. do 2 f_equal. lia.
  - intros ->. cbn [snd]. unfold Sql.write_stock, Sql.set_products.
    destruct db as [us ps os rows]. cbn [users products orders order_items] in *.
    f_equal. apply map_eq. intros k. destruct (decide (k = id)) as [->|Hne].
    + rewrite lookup_alter_eq, Hp. cbn. f_equal. apply with_stock_same. lia.
    + by rewrite lookup_alter_ne.
Qed.

(** Five laptops in, five out: the answer is the stock before, 10, and the
    database is the one before. *)
Lemma products_patch_stock_adds_up_witness :
  products_patch_stock "p1" (-5) (snd (products_patch_stock "p1" 5 Fixture.db0))
  = (Ok 10, snd (products_patch_stock "p1" 0 Fixture.db0))
  ∧ snd (products_patch_stock "p1" (-5) (snd (products_patch_stock "p1" 5 Fixture.db0)))
    = Fixture.db0.
Proof.
  destruct (products_patch_stock_adds_up "p1" 5 (-5) Fixture.db0 Fixture.laptop)
    as [Hsum Hback].
  - vm_compute; reflexivity.
  - apply safe_integer_small. simpl. lia.
  - apply safe_integer_small. lia.
  - apply safe_integer_small. lia.
  - apply safe_integer_small. lia.
  - apply safe_integer_small. simpl. lia.
  - apply safe_integer_small. simpl. lia.
  - simpl; lia.
  - simpl; lia.
  - split; [exact Hsum|]. apply Hback. reflexivity.
Defined.

(** ** Orders, one next to the other *)

Lemma filter_filter_ne (oid other : string) (rows : list OrderItemRow.t) :
  oid ≠ other →
  filter (fun r => OrderItemRow.order_id r = other)
    (filter (fun r => OrderItemRow.order_id r ≠ oid) rows)
  = filter (fun r => OrderItemRow.order_id r = other) rows.
Proof.
  intros Hne. induction rows as [|r rows IH]; [done|].
  rewrite (filter_cons (fun r => OrderItemRow.order_id r ≠ oid)).
  rewrite (filter_cons (fun r => OrderItemRow.order_id r = other) r rows).
  case_decide as H1.
  - rewrite filter_cons. case_decide; by rewrite IH.
  - case_decide as H2; [|done]. destruct H1. congruence.
Qed.

Lemma products_put_keeps (id : string) (body : ProductBody.t) (db : Db) :
  users (snd (products_put id body db)) = users db
  ∧ orders (snd (products_put id body db)) = orders db
  ∧ order_items (snd (products_put id body db)) = order_items db.
Proof.
  unfold products_put. destruct (products db !! id); [|done].
  by destruct (bad_price (ProductBody.price body)).
Qed.

(** X14. What a request does to one order it does to no other: after
    [POST /api/orders], [PATCH /api/orders/:id/status] or
    [DELETE /api/orders/:id], and after [PATCH /api/products/:id/stock],
    [GET /api/orders/:id] of every other order answers exactly as before,
    whether the request succeeded or not.  After [PUT /api/products/:id] it
    answers the same order with the same line items, and exactly as before
    when the body gives no name or no line item of that order names the
    product: the [product_name] joined to a line item is the current one. *)
Theorem other_orders_untouched (db : Db) (other : string) :
  (∀ uuidv4 body, uuidv4 0%nat ≠ other →
     orders_get other (snd (orders_post uuidv4 body db)) = orders_get other db)
  ∧ (∀ id status, id ≠ other →
       orders_get other (snd (orders_patch_status id status db)) = orders_get other db)
  ∧ (∀ id, id ≠ other →
       orders_get other (snd (orders_delete id db)) = orders_get other db)
  ∧ (∀ id quantity,
       orders_get other (snd (products_patch_stock id quantity db)) = orders_get other db)
  ∧ (∀ id body,
       stored_order other (snd (products_put id body db)) = stored_order other db
       ∧ (ProductBody.name body = None
          ∨ (∀ r, r ∈ order_items db → OrderItemRow.order_id r = other →
                  OrderItemRow.product_id r ≠ id) →
          orders_get other (snd (products_put id body db)) = orders_get other db)).
Proof.
  split_and!.
  - intros uuidv4 body Hne.
    destruct (orders_post uuidv4 body db) as [[[oid row]|e] db'] eqn:Hpost; cbn [snd].
    + apply orders_post_ok_inv in Hpost
        as (uid & items & _ & _ & _ & _ & _ & _ & -> & _ & _ & Husers & Horders & Hitems
            & Hprods).
      apply orders_get_same.
      * by rewrite Horders, lookup_insert_ne.
      * done.
      * unfold Sql.items_of_order. rewrite Hitems, filter_app.
        rewrite (filter_none _ (item_rows _ _ _ _)); [by rewrite app_nil_r|].
        eapply Forall_impl; [apply item_rows_order_id|].
        intros r Hr. cbn beta in *. congruence.
      * intros r _. rewrite Hprods.
        by destruct (products db !! OrderItemRow.product_id r).
    + by rewrite (orders_post_err_unchanged _ _ _ _ _ Hpost).
  - intros id status Hne. unfold orders_patch_status.
    destruct status as [s|]; [|done].
    destruct (negb (truthy (Some s)) || negb (bool_decide (s ∈ validStatuses))); [done|].
    destruct (orders db !! id); [|done].
    cbn [snd]. apply orders_get_same; [|done..].
    unfold Sql.update_status, Sql.set_orders. cbn [orders].
    by rewrite lookup_alter_ne.
  - intros id Hne. unfold orders_delete.
    destruct (orders db !! id) as [order|]; [|done].
    destruct (String.eqb (Order.status order) "delivered"); [done|].
    rewrite cancelOrder_some. cbn [snd]. apply orders_get_same.
    + cbn [orders]. by rewrite lookup_delete_ne.
    + done.
    + unfold Sql.items_of_order. cbn [order_items]. by apply filter_filter_ne.
    + intros r _. cbn [products]. rewrite restore_stock_products.
      by destruct (products db !! OrderItemRow.product_id r).
  - intros id quantity. unfold products_patch_stock.
    destruct (products db !! id) as [existing|] eqn:Hp; [|done].
    destruct (Js.add_int (Product.stock existing) quantity <? 0); [done|].
    cbn [snd]. apply orders_get_same; [done..|].
    intros r _. unfold Sql.write_stock, Sql.set_products. cbn [products].
    destruct (decide (OrderItemRow.product_id r = id)) as [->|Hne].
    + by rewrite lookup_alter_eq, Hp.
    + by rewrite lookup_alter_ne.
  - intros id body.
    destruct (products_put_keeps id body db) as (Hu & Ho & Hi). split.
    + by apply stored_order_same.
    + intros Hcase.
      destruct (products db !! id) as [existing|] eqn:Hp;
        [|by rewrite (products_put_missing id body db Hp)].
      destruct (bad_price (ProductBody.price body)) eqn:Hbad;
        [by rewrite (products_put_bad_price id body db existing Hp Hbad)|].
      apply orders_get_same.
      * by rewrite Ho.
      * done.
      * unfold Sql.items_of_order. by rewrite Hi.
      * intros r Hr. apply (products_put_names id body db existing _ Hp Hbad).
        destruct Hcase as [Hname|Hnone]; [by left|right].
        unfold Sql.items_of_order in Hr. apply list_elem_of_filter in Hr as [Hoid Hin].
        by apply Hnone.
Qed.

(** The order of the tests next to a second one: a cancellation of the
    second, and a new name for a product the first does not hold, leave what
    [GET] answers for the first as it was. *)
Lemma other_orders_untouched_witness :
  orders_get "o1" (snd (orders_delete "oa" Sample.db_two_orders))
  = orders_get "o1" Sample.db_two_orders
  ∧ orders_get "o1" (snd (products_put "p2" Sample.rename_shirt Sample.db_two_orders))
    = orders_get "o1" Sample.db_two_orders
  ∧ is_ok (orders_get "o1" Sample.db_two_orders) = true.
Proof.
  pose proof (other_orders_untouched Sample.db_two_orders "o1")
    as (_ & _ & Hdelete & _ & Hput).
  split; [|split].
  - apply Hdelete. discriminate.
  - apply (Hput "p2" Sample.rename_shirt). right.
    intros r Hr Hoid Hpid. vm_compute in Hr.
    apply elem_of_cons in Hr as [->|Hr]; [discriminate Hpid|].
    apply elem_of_cons in Hr as [->|Hr]; [discriminate Hoid|].
    by apply elem_of_nil in Hr.
  - vm_compute. reflexivity.
Defined.

(** X15. A cancelled order is gone for every route of its id: after
    [DELETE /api/orders/:id] has answered 200, [GET], [PATCH status] with
    any recognized status and a second [DELETE] of that id all answer
    "Order not found" and change nothing. *)
Theorem cancelled_order_is_gone (id : string) (db db' : Db) :
  orders_delete id db = (Ok tt, db') →
  orders_get id db' = Err OrderNotFound
  ∧ orders_delete id db' = (Err OrderNotFound, db')
  ∧ (∀ s, s ∈ validStatuses →
          orders_patch_status id (Some s) db' = (Err OrderNotFound, db')).
Proof.
  unfold orders_delete at 1.
  destruct (orders db !! id) as [order|]; [|discriminate].
  destruct (String.eqb (Order.status order) "delivered"); [discriminate|].
  rewrite cancelOrder_some. intros [= <-].
  assert (Hgone : orders
            (mkDb (users db) (products (restore_stock (Sql.items_of_order id db) db))
               (delete id (orders db))
               (filter (fun r => OrderItemRow.order_id r ≠ id) (order_items db)))
            !! id = None) by apply lookup_delete_eq.
  split_and!.
  - unfold orders_get. by rewrite Hgone.
  - unfold orders_delete. by rewrite Hgone.
  - intros s Hs. unfold orders_patch_status.
    rewrite (truthy_valid_status s Hs), bool_decide_true by done.
    cbn [negb orb]. by rewrite Hgone.
Qed.

Lemma cancelled_order_is_gone_witness :
  orders_get "o1" Fixture.db0 = Err OrderNotFound
  ∧ orders_delete "o1" Fixture.db0 = (Err OrderNotFound, Fixture.db0)
  ∧ (∀ s, s ∈ validStatuses →
          orders_patch_status "o1" (Some s) Fixture.db0 = (Err OrderNotFound, Fixture.db0)).
Proof.
  apply (cancelled_order_is_gone "o1" Fixture.db_shipped Fixture.db0).
  - vm_compute; reflexivity.
Defined.



Lemma item_rows_joined {B : Type} (g : string → B) (uuidv4 : nat -> string) (k : nat)
    (oid : string) (db : Db) (items : list OrderItem.t) :
  (fun r => g (OrderItemRow.product_id r)) <$> item_rows uuidv4 k oid (priced db <$> items)
  = (fun item => g (OrderItem.product_id item)) <$> items.
Proof.
  revert k. induction items as [|item rest IH]; intros k; csimpl; [done|].
  by rewrite IH.
Qed.

Lemma snd_joined {A B : Type} (g : A → B) (rows : list A) :
  snd <$> ((fun r => (r, g r)) <$> rows) = g <$> rows.
Proof. induction rows as [|r rows IH]; csimpl; [done|]. by rewrite IH. Qed.

(** X17. Create, then read: in a database whose line items all belong to
    orders, after [POST /api/orders] has answered 201, [GET /api/orders/:id]
    of the new id answers the order returned, with the name and email of
    its user, together with exactly one line item per request item, in
    request order, each at the product's price before the request and under
    the product's name. *)
Theorem orders_post_then_get (uuidv4 : nat -> string) (body : OrderBody.t) (db db' : Db)
    (oid : string) (row : option Order.t) :
  items_reference_orders db →
  orders_post uuidv4 body db = (Ok (oid, row), db') →
  ∃ items order rows view,
    OrderBody.items body = Some items ∧ row = Some order
    ∧ orders_get oid db' = Ok view
    ∧ OrderView.order view = order
    ∧ fst <$> OrderView.items view = rows
    ∧ Forall2 (snapshot_of db oid) items rows
    ∧ OrderView.user_name view = User.name <$> users db !! Order.user_id order
    ∧ OrderView.user_email view = User.email <$> users db !! Order.user_id order
    ∧ is_Some (users db !! Order.user_id order)
    ∧ snd <$> OrderView.items view
      = (fun item => Product.name <$> products db !! OrderItem.product_id item) <$> items.
Proof.
  intros Hfk Hpost.
  apply orders_post_ok_inv in Hpost
    as (uid & items & _ & Hbi & _ & _ & Hu & Hall & -> & Hfree & -> & Husers & Horders
        & Hitems & Hprods).
  assert (Hrows : Sql.items_of_order (uuidv4 0%nat) db'
                  = item_rows uuidv4 1 (uuidv4 0%nat) (priced db <$> items)).
  { unfold Sql.items_of_order. rewrite Hitems, filter_app.
    rewrite (filter_none _ (order_items db)).
    - rewrite filter_all; [done|apply item_rows_order_id].
    - pose proof (unused_order_id_has_no_items db _ Hfk Hfree) as Hold.
      eapply Forall_impl; [exact Hold|]. intros r Hr Heq. by apply Hr. }
  eexists items, (placed_order db uid items (OrderBody.shipping_address body)),
    (item_rows uuidv4 1 (uuidv4 0%nat) (priced db <$> items)), _.
  split; [done|]. split; [done|]. split.
  { unfold orders_get. rewrite Horders, lookup_insert_eq, Hrows, Husers. reflexivity. }
  cbn [OrderView.order OrderView.items OrderView.user_name OrderView.user_email
       placed_order Order.user_id].
  split_and!; try done.
  - apply fst_joined.
  - by apply item_rows_snapshot.
  - rewrite snd_joined.
    etrans; [apply (item_rows_joined (fun pid => Product.name <$> products db' !! pid))|].
    apply list_fmap_ext. intros i item _. cbn beta. rewrite Hprods.
    by destruct (products db !! OrderItem.product_id item).
Qed.

(** The request of the test "should return order with items", with one
    laptop and three shirts: the answer carries the order stored, the user's
    name and email, and the two line items under the products' names. *)
Lemma orders_post_then_get_witness :
  orders_get "oa" (snd (orders_post (Fixture.ids "o") Fixture.two_items Fixture.db0))
  = Ok (OrderView.mk Fixture.two_items_order (Some "New User") (Some "newuser@example.com")
          [(OrderItemRow.mk "ob" "oa" "p1" 1 (99999 # 100), Some "Test Laptop");
           (OrderItemRow.mk "oc" "oa" "p2" 3 (2999 # 100), Some "Test Shirt")])
  ∧ ∃ view rows,
      orders_get "oa" (snd (orders_post (Fixture.ids "o") Fixture.two_items Fixture.db0))
      = Ok view
      ∧ OrderView.order view = Fixture.two_items_order
      ∧ fst <$> OrderView.items view = rows
      ∧ Forall2 (snapshot_of Fixture.db0 "oa") [OrderItem.mk "p1" 1; OrderItem.mk "p2" 3] rows
      ∧ OrderView.user_name view = Some "New User"
      ∧ snd <$> OrderView.items view = [Some "Test Laptop"; Some "Test Shirt"].
Proof.
  split; [vm_compute; reflexivity|].
  destruct (orders_post_then_get
              (Fixture.ids "o") Fixture.two_items Fixture.db0
              (snd (orders_post (Fixture.ids "o") Fixture.two_items Fixture.db0)) "oa"
              (Some Fixture.two_items_order))
    as (items & order & rows & view & Hitems & Horder & Hget & Hview & Hrows & Hsnap
        & Hname & _ & _ & Hnames).
  - intros r Hr; by apply elem_of_nil in Hr.
  - vm_compute; reflexivity.
  - injection Hitems as <-. injection Horder as <-.
    exists view, rows. split; [exact Hget|]. split; [exact Hview|]. split; [exact Hrows|].
    split; [exact Hsnap|]. rewrite Hname, Hnames. split; vm_compute; reflexivity.
Defined.

(** * Properties of the store front *)

Lemma find_item_Some (productId : string) (cart : list CartItem.t) (i : nat)
    (item : CartItem.t) :
  find_item productId cart = Some (i, item) →
  cart !! i = Some item ∧ CartItem.product_id item = productId.
Proof.
  unfold find_item. intros H. apply list_find_Some in H as (Hi & Hp & _). done.
Qed.

Lemma find_item_None (productId : string) (cart : list CartItem.t) :
  find_item productId cart = None → productId ∉ (CartItem.product_id <$> cart).
Proof.
  unfold find_item. intros H. apply list_find_None in H.
  intros Hin. apply list_elem_of_fmap in Hin as (item & -> & Hitem).
  rewrite Forall_forall in H. by apply (H item Hitem).
Qed.

Lemma find_product_Some (productId : string) (listing : list Listed.t) (i : nat)
    (product : Listed.t) :
  find_product productId listing = Some (i, product) →
  listing !! i = Some product ∧ Listed.id product = productId.
Proof.
  unfold find_product. intros H. apply list_find_Some in H as (Hi & Hp & _). done.
Qed.

Lemma ids_after_requantity (cart : list CartItem.t) (i : nat) (item : CartItem.t) (q : Z) :
  cart !! i = Some item →
  CartItem.product_id <$> <[ i := CartItem.with_quantity q item ]> cart
  = CartItem.product_id <$> cart.
Proof.
  intros Hi. rewrite list_fmap_insert. apply list_insert_id.
  rewrite list_lookup_fmap, Hi. reflexivity.
Qed.

Lemma removeFromCart_tidy (productId : string) (st : Client.t) :
  tidy_cart (Client.cart st) → tidy_cart (Client.cart (removeFromCart productId st)).
Proof.
  intros [Hnd Hq]. unfold removeFromCart. cbn [Client.cart Client.set_cart]. split.
  - induction (Client.cart st) as [|item cart IH]; [done|].
    csimpl in Hnd. apply NoDup_cons in Hnd as [Hnot Hnd].
    apply Forall_cons in Hq as [_ Hq].
    rewrite filter_cons. case_decide; [|by apply IH].
    csimpl. apply NoDup_cons. split; [|by apply IH].
    intros Hin. apply Hnot. apply list_elem_of_fmap in Hin as (x & Hx & Hin).
    apply list_elem_of_filter in Hin as [_ Hin]. rewrite Hx.
    by apply list_elem_of_fmap_2.
  - apply Forall_forall. intros item Hin. apply list_elem_of_filter in Hin as [_ Hin].
    rewrite Forall_forall in Hq. by apply Hq.
Qed.

Lemma on_click_keeps_cart_tidy (c : click) (st : Client.t) :
  tidy_cart (Client.cart st) → tidy_cart (Client.cart (on_click c st)).
Proof.
  intros Htidy. pose proof Htidy as [Hnd Hq].
  destruct c as [productId|productId|productId change]; simpl.
  - unfold addToCart.
    destruct (find_product productId (Client.products st)) as [[j product]|] eqn:Hprod;
      [|done].
    apply find_product_Some in Hprod as [_ Hpid].
    destruct (find_item productId (Client.cart st)) as [[i existingItem]|] eqn:Hitem.
    + apply find_item_Some in Hitem as [Hi _].
      destruct (CartItem.quantity existingItem >=? Product.stock (Listed.row product));
        [done|].
      cbn [fst Client.cart Client.set_cart]. split.
      * by rewrite ids_after_requantity.
      * apply Forall_insert; [done|]. simpl.
        rewrite Forall_lookup in Hq. specialize (Hq i existingItem Hi). simpl in Hq. lia.
    + apply find_item_None in Hitem.
      cbn [fst Client.cart Client.set_cart]. split.
      * rewrite fmap_app. apply NoDup_app. split_and!; [done| |apply NoDup_singleton].
        intros x Hx Hin. apply list_elem_of_singleton in Hin.
        unfold CartItem.product_id in Hin. simpl in Hin. congruence.
      * apply Forall_app. split; [done|]. by repeat constructor.
  - by apply removeFromCart_tidy.
  - unfold updateQuantity.
    destruct (find_item productId (Client.cart st)) as [[i item]|] eqn:Hitem; [|done].
    apply find_item_Some in Hitem as [Hi _].
    destruct (CartItem.quantity item + change <=? 0) eqn:Hle.
    { cbn [fst]. by apply removeFromCart_tidy. }
    destruct (CartItem.quantity item + change
              >? Product.stock (Listed.row (CartItem.product item))); [done|].
    cbn [fst Client.cart Client.set_cart]. split.
    + by rewrite ids_after_requantity.
    + apply Forall_insert; [done|]. simpl. apply Z.leb_gt in Hle. lia.
Qed.

(** X18. The cart stays tidy: starting from a cart that names no product
    twice and holds no quantity below 1 (the empty cart, for one), every
    sequence of [addToCart], [removeFromCart] and [updateQuantity] calls
    leaves such a cart. *)
Theorem clicks_keep_cart_tidy (cs : list click) (st : Client.t) :
  tidy_cart (Client.cart st) → tidy_cart (Client.cart (clicks cs st)).
Proof.
  revert st. induction cs as [|c cs IH]; intros st Htidy; simpl; [done|].
  apply IH. by apply on_click_keeps_cart_tidy.
Qed.

Lemma clicks_keep_cart_tidy_witness :
  tidy_cart (Client.cart (clicks Sample.some_clicks Sample.shopper)).
Proof.
  apply (clicks_keep_cart_tidy Sample.some_clicks Sample.shopper).
  - split; [apply NoDup_nil_2|apply Forall_nil_2].
Defined.

Lemma orderData_items_ids (cart : list CartItem.t) :
  OrderItem.product_id
    <$> ((fun item => OrderItem.mk (CartItem.product_id item) (CartItem.quantity item))
           <$> cart)
  = CartItem.product_id <$> cart.
Proof. rewrite <- list_fmap_compose. by apply list_fmap_ext. Qed.

(** X19. An order checked out from a tidy cart never oversells: the request
    [handleCheckout] builds names no product twice and asks for no quantity
    below 1, so posting it to a database with no negative stock and no
    negative line-item quantity leaves such a database, whether the order is
    accepted or refused. *)
Theorem cart_checkout_keeps_stock_nonneg (uuidv4 : nat -> string) (user : Session.t)
    (address city zip : string) (cart : list CartItem.t) (db : Db) :
  tidy_cart cart →
  stock_nonneg db ∧ quantities_nonneg db →
  stock_nonneg (snd (orders_post uuidv4 (orderData user address city zip cart) db))
  ∧ quantities_nonneg (snd (orders_post uuidv4 (orderData user address city zip cart) db)).
Proof.
  intros [Hnd Hq] Hdb.
  apply (plain_request_keeps_stock_nonneg
           (CreateOrder uuidv4 (orderData user address city zip cart)) db); [|done].
  intros items [= <-]. split.
  - by rewrite orderData_items_ids.
  - apply Forall_fmap. eapply Forall_impl; [exact Hq|]. intros item Hitem.
    unfold compose. simpl in *. lia.
Qed.

Lemma cart_checkout_keeps_stock_nonneg_witness :
  stock_nonneg (snd (orders_post (Fixture.ids "o") (orderData Sample.session "1 Main St" "Springfield" "12345" [Sample.two_laptops]) Fixture.db0))
  ∧ quantities_nonneg (snd (orders_post (Fixture.ids "o") (orderData Sample.session "1 Main St" "Springfield" "12345" [Sample.two_laptops]) Fixture.db0)).
Proof.
  apply (cart_checkout_keeps_stock_nonneg
           (Fixture.ids "o") Sample.session "1 Main St" "Springfield" "12345"
           [Sample.two_laptops] Fixture.db0).
  - split; [apply NoDup_singleton|]. constructor; [simpl; lia|constructor].
  - split; [exact db0_stock_nonneg|apply Forall_nil_2].
Defined.

Lemma clicks_keep_listing (cs : list click) (st : Client.t) :
  Client.products (clicks cs st) = Client.products st
  ∧ Client.user (clicks cs st) = Client.user st.
Proof.
  revert st. induction cs as [|c cs IH]; intros st; simpl; [done|].
  destruct (IH (on_click c st)) as [-> ->].
  destruct c as [productId|productId|productId change]; simpl.
  - unfold addToCart.
    destruct (find_product productId (Client.products st)) as [[j product]|]; [|done].
    destruct (find_item productId (Client.cart st)) as [[i existingItem]|]; [|done].
    by destruct (CartItem.quantity existingItem >=? Product.stock (Listed.row product)).
  - done.
  - unfold updateQuantity.
    destruct (find_item productId (Client.cart st)) as [[i item]|]; [|done].
    destruct (CartItem.quantity item + change <=? 0); [done|].
    by destruct (CartItem.quantity item + change
                 >? Product.stock (Listed.row (CartItem.product item))).
Qed.

Lemma removeFromCart_within (productId : string) (st : Client.t) :
  cart_within_listing st → cart_within_listing (removeFromCart productId st).
Proof.
  unfold cart_within_listing, removeFromCart. cbn [Client.cart Client.products Client.set_cart].
  intros Hall. apply Forall_forall. intros item Hin.
  apply list_elem_of_filter in Hin as [_ Hin].
  rewrite Forall_forall in Hall. by apply Hall.
Qed.

Lemma on_click_keeps_cart_within (c : click) (st : Client.t) :
  cart_within_listing st → cart_within_listing (on_click c st).
Proof.
  intros Hall.
  destruct c as [productId|productId|productId change]; simpl.
  - unfold addToCart.
    destruct (find_product productId (Client.products st)) as [[j product]|] eqn:Hprod;
      [|done].
    pose proof (find_product_Some _ _ _ _ Hprod) as [_ Hpid].
    destruct (find_item productId (Client.cart st)) as [[i existingItem]|] eqn:Hitem.
    + apply find_item_Some in Hitem as [Hi Hid].
      destruct (CartItem.quantity existingItem >=? Product.stock (Listed.row product))
        eqn:Hge; [done|].
      unfold cart_within_listing in *.
      cbn [fst Client.cart Client.products Client.set_cart].
      apply Forall_insert; [done|].
      rewrite Forall_lookup in Hall. destruct (Hall i existingItem Hi) as [[k Hk] Hq].
      unfold CartItem.product_id in *. cbn [CartItem.with_quantity CartItem.product
        CartItem.quantity]. split; [eauto|].
      rewrite Hid, Hprod in Hk. injection Hk as _ ->.
      rewrite Z.geb_leb in Hge. apply Z.leb_gt in Hge. lia.
    + unfold cart_within_listing in *.
      cbn [fst Client.cart Client.products Client.set_cart].
      apply Forall_app. split; [done|]. constructor; [|constructor].
      unfold CartItem.product_id. cbn [CartItem.product CartItem.quantity].
      rewrite Hpid. split; [eauto|lia].
  - by apply removeFromCart_within.
  - unfold updateQuantity.
    destruct (find_item productId (Client.cart st)) as [[i item]|] eqn:Hitem; [|done].
    apply find_item_Some in Hitem as [Hi _].
    destruct (CartItem.quantity item + change <=? 0) eqn:Hle.
    { cbn [fst]. by apply removeFromCart_within. }
    destruct (CartItem.quantity item + change
              >? Product.stock (Listed.row (CartItem.product item))) eqn:Hgt; [done|].
    unfold cart_within_listing in *.
    cbn [fst Client.cart Client.products Client.set_cart].
    apply Forall_insert; [done|].
    rewrite Forall_lookup in Hall. destruct (Hall i item Hi) as [Hk _].
    unfold CartItem.product_id in *. cbn [CartItem.with_quantity CartItem.product
      CartItem.quantity]. split; [done|].
    rewrite Z.gtb_ltb in Hgt. apply Z.ltb_ge in Hgt. lia.
Qed.

(** X20. The cart respects the listing: as long as the listing is not
    reloaded, every sequence of cart calls that starts from a cart whose
    items carry the listed product of their id in a quantity within its
    stock (the empty cart, for one) leaves such a cart, where one unit is
    let in even of a product listed with no stock. *)
Theorem clicks_keep_cart_within_listing (cs : list click) (st : Client.t) :
  cart_within_listing st → cart_within_listing (clicks cs st).
Proof.
  revert st. induction cs as [|c cs IH]; intros st Hall; simpl; [done|].
  apply IH. by apply on_click_keeps_cart_within.
Qed.

Lemma clicks_keep_cart_within_listing_witness :
  cart_within_listing (clicks Sample.some_clicks Sample.shopper).
Proof.
  apply (clicks_keep_cart_within_listing Sample.some_clicks Sample.shopper).
  - apply Forall_nil_2.
Defined.






Lemma orders_post_rejected (uuidv4 : nat -> string) (body : OrderBody.t) (db : Db)
    (uid : string) (items : list OrderItem.t) (e : error) :
  OrderBody.user_id body = Some uid → OrderBody.items body = Some items →
  uid ≠ "" → items ≠ [] → is_Some (users db !! uid) →
  verify_products db items 0%Q [] = Err e →
  orders_post uuidv4 body db = (Err e, db).
Proof.
  intros Hbu Hbi Huid Hne [u Hu] Hv. unfold orders_post. rewrite Hbu, Hbi.
  destruct items as [|item rest]; [done|].
  rewrite (truthy_some _ Huid), Hu. by rewrite Hv.
Qed.

(** X22. [addToCart] lets the first unit in without looking at the stock: a
    listed product that is not yet in the cart is appended with quantity 1
    even when it is listed with no stock.  When the listing shows the
    catalog, the user exists and every other cart item passes the server's
    checks, checking that cart out is refused with "Insufficient stock for
    product: <name>" and the database stays as it was. *)
Theorem first_unit_ignores_stock (uuidv4 : nat -> string) (productId : string)
    (st : Client.t) (db : Db) (i : nat) (product : Listed.t) (user : Session.t)
    (address city zip : string) :
  find_product productId (Client.products st) = Some (i, product) →
  find_item productId (Client.cart st) = None →
  Client.cart (fst (addToCart productId st))
  = (Client.cart st ++ [CartItem.mk product 1])%list
  ∧ (Product.stock (Listed.row product) <= 0 →
     listing_mirrors (Client.products st) db →
     Session.id user ≠ "" → is_Some (users db !! Session.id user) →
     Forall (fun item =>
               sufficient db
                 (OrderItem.mk (CartItem.product_id item) (CartItem.quantity item)))
       (Client.cart st) →
     orders_post uuidv4
       (orderData user address city zip (Client.cart (fst (addToCart productId st)))) db
     = (Err (InsufficientStockFor (Product.name (Listed.row product))), db)).
Proof.
  intros Hprod Hitem.
  assert (Hadd : Client.cart (fst (addToCart productId st))
                 = (Client.cart st ++ [CartItem.mk product 1])%list).
  { unfold addToCart. by rewrite Hprod, Hitem. }
  split; [done|].
  intros Hstock Hmirror Huid [u Hu] Hothers. rewrite Hadd.
  pose proof (find_product_Some _ _ _ _ Hprod) as [Hi Hpid].
  assert (Hrow : products db !! Listed.id product = Some (Listed.row product)).
  { unfold listing_mirrors in Hmirror. rewrite Forall_lookup in Hmirror.
    exact (Hmirror i product Hi). }
  apply (orders_post_rejected uuidv4 _ db (Session.id user)
           (((fun item => OrderItem.mk (CartItem.product_id item) (CartItem.quantity item))
               <$> Client.cart st) ++ [OrderItem.mk (Listed.id product) 1])%list).
  - done.
  - unfold orderData. cbn [OrderBody.items]. by rewrite fmap_app.
  - done.
  - by destruct (_ <$> Client.cart st).
  - eauto.
  - apply verify_products_first_short; [by apply Forall_fmap|done|simpl; lia].
Qed.

(** The shirt is sold out and listed so.  With two laptops in the cart, a
    click on the shirt still puts one shirt in the cart, and the checkout of
    that cart is refused for the shirt, the database staying as it was. *)
Lemma first_unit_ignores_stock_witness :
  Product.stock (Listed.row Sample.sold_out_shirt) = 0
  ∧ Client.cart (fst (addToCart "p2" Sample.late_shopper))
    = [Sample.two_laptops; CartItem.mk Sample.sold_out_shirt 1]
  ∧ orders_post (Fixture.ids "o")
      (orderData Sample.session "1 Main St" "Springfield" "12345"
         (Client.cart (fst (addToCart "p2" Sample.late_shopper)))) Sample.db_sold_out
    = (Err (InsufficientStockFor "Test Shirt"), Sample.db_sold_out).
Proof.
  destruct (first_unit_ignores_stock
              (Fixture.ids "o") "p2" Sample.late_shopper Sample.db_sold_out 1%nat
              Sample.sold_out_shirt Sample.session "1 Main St" "Springfield" "12345")
    as [Hcart Hrefused].
  - vm_compute; reflexivity.
  - vm_compute; reflexivity.
  - split; [reflexivity|]. split; [exact Hcart|].
    apply Hrefused.
    + simpl. lia.
    + repeat constructor.
    + discriminate.
    + exists Fixture.tester. vm_compute. reflexivity.
    + constructor; [|constructor]. exists Fixture.laptop.
      split; [vm_compute; reflexivity|]. simpl. lia.
Defined.

Lemma find_item_requantity (productId : string) (cart : list CartItem.t) (i : nat)
    (item : CartItem.t) (q : Z) :
  find_item productId cart = Some (i, item) →
  find_item productId (<[ i := CartItem.with_quantity q item ]> cart)
  = Some (i, CartItem.with_quantity q item).
Proof.
  unfold find_item. intros H. apply list_find_Some in H as (Hi & Hp & Hbefore).
  apply list_find_Some. split_and!.
  - apply list_lookup_insert_eq. by eapply lookup_lt_Some.
  - done.
  - intros j y Hj Hlt. rewrite list_lookup_insert_ne in Hj by lia.
    by eapply Hbefore.
Qed.

(** X23. One more, one less: for a cart item with quantity at least 1 and
    room for one more within its product's stock, [updateQuantity] by +1
    followed by [updateQuantity] by -1 gives back the very same state, and
    [updateQuantity] by -1 on a quantity of 1 removes every item of that
    product. *)
Theorem updateQuantity_up_then_down (productId : string) (st : Client.t) (i : nat)
    (item : CartItem.t) :
  find_item productId (Client.cart st) = Some (i, item) →
  1 <= CartItem.quantity item →
  (CartItem.quantity item + 1 <= Product.stock (Listed.row (CartItem.product item)) →
   fst (updateQuantity productId (-1) (fst (updateQuantity productId 1 st))) = st)
  ∧ (CartItem.quantity item = 1 →
     fst (updateQuantity productId (-1) st) = removeFromCart productId st
     ∧ find_item productId (Client.cart (fst (updateQuantity productId (-1) st))) = None).
Proof.
  intros Hfind Hq. pose proof (find_item_Some _ _ _ _ Hfind) as [Hi Hid]. split.
  - intros Hroom.
    assert (Hup : fst (updateQuantity productId 1 st)
                  = Client.set_cart
                      (<[ i := CartItem.with_quantity (CartItem.quantity item + 1) item ]>
                         (Client.cart st)) st).
    { unfold updateQuantity. rewrite Hfind. cbv zeta.
      assert ((CartItem.quantity item + 1 <=? 0) = false) as -> by (apply Z.leb_gt; lia).
      assert ((CartItem.quantity item + 1
               >? Product.stock (Listed.row (CartItem.product item))) = false) as ->
        by (rewrite Z.gtb_ltb; apply Z.ltb_ge; lia).
      done. }
    rewrite Hup. unfold updateQuantity. cbn [Client.cart Client.set_cart].
    rewrite (find_item_requantity productId _ i item _ Hfind). cbv zeta.
    cbn [CartItem.quantity CartItem.with_quantity CartItem.product].
    assert ((CartItem.quantity item + 1 + -1 <=? 0) = false) as -> by (apply Z.leb_gt; lia).
    assert ((CartItem.quantity item + 1 + -1
             >? Product.stock (Listed.row (CartItem.product item))) = false) as ->
      by (rewrite Z.gtb_ltb; apply Z.ltb_ge; lia).
    cbn [fst]. destruct st as [user listing cart]. unfold Client.set_cart.
    cbn [Client.user Client.products Client.cart] in *. f_equal.
    rewrite list_insert_insert_eq. apply list_insert_id. rewrite Hi. f_equal.
    destruct item as [product q]. unfold CartItem.with_quantity. simpl. f_equal. lia.
  - intros Hone.
    assert (Hdown : fst (updateQuantity productId (-1) st) = removeFromCart productId st).
    { unfold updateQuantity. rewrite Hfind. cbv zeta. rewrite Hone. done. }
    split; [done|]. rewrite Hdown. unfold find_item.
    apply list_find_None. unfold removeFromCart. cbn [Client.cart Client.set_cart].
    apply Forall_forall. intros x Hx Heq.
    apply list_elem_of_filter in Hx as [Hne _]. by apply Hne.
Qed.

Lemma updateQuantity_up_then_down_witness :
  (CartItem.quantity Sample.two_laptops + 1 <= Product.stock (Listed.row (CartItem.product Sample.two_laptops)) →
   fst (updateQuantity "p1" (-1) (fst (updateQuantity "p1" 1 Sample.basket))) = Sample.basket)
  ∧ (CartItem.quantity Sample.two_laptops = 1 →
     fst (updateQuantity "p1" (-1) Sample.basket) = removeFromCart "p1" Sample.basket
     ∧ find_item "p1" (Client.cart (fst (updateQuantity "p1" (-1) Sample.basket))) = None).
Proof.
  apply (updateQuantity_up_then_down "p1" Sample.basket 0%nat Sample.two_laptops).
  - vm_compute; reflexivity.
  - simpl; lia.
Defined.

Lemma totalItems_from (cart : list CartItem.t) (a : Z) :
  fold_left (fun sum item => sum + CartItem.quantity item) cart a = a + totalItems cart.
Proof.
  unfold totalItems. revert a. induction cart as [|item cart IH]; intros a; simpl; [lia|].
  rewrite (IH (a + CartItem.quantity item)), (IH (0 + CartItem.quantity item)). lia.
Qed.

Lemma totalItems_app (cart1 cart2 : list CartItem.t) :
  totalItems (cart1 ++ cart2) = totalItems cart1 + totalItems cart2.
Proof.
  unfold totalItems at 1. rewrite fold_left_app. fold (totalItems cart1).
  by rewrite totalItems_from.
Qed.

Lemma totalItems_cons (item : CartItem.t) (cart : list CartItem.t) :
  totalItems (item :: cart) = CartItem.quantity item + totalItems cart.
Proof. unfold totalItems at 1. simpl. by rewrite totalItems_from. Qed.

Lemma totalItems_requantity (cart : list CartItem.t) (i : nat) (item : CartItem.t) (q : Z) :
  cart !! i = Some item →
  totalItems (<[ i := CartItem.with_quantity q item ]> cart)
  = totalItems cart - CartItem.quantity item + q.
Proof.
  revert i. induction cart as [|x cart IH]; intros i Hi; [done|].
  destruct i as [|i]; simpl in *.
  - injection Hi as ->. rewrite !totalItems_cons. simpl. lia.
  - rewrite !totalItems_cons. rewrite (IH i Hi). lia.
Qed.

(** X24. What an Add click does to the badge: [addToCart] of a product that
    is not listed does nothing; of a listed product whose cart item has
    reached the listed stock it only warns; in every other case the number
    of items [updateCart] shows grows by exactly 1 and the toast says
    "<name> added to cart". *)
Theorem addToCart_counts (productId : string) (st : Client.t) :
  (find_product productId (Client.products st) = None →
   addToCart productId st = (st, None))
  ∧ (∀ j product, find_product productId (Client.products st) = Some (j, product) →
       (∀ i item, find_item productId (Client.cart st) = Some (i, item) →
                  Product.stock (Listed.row product) <= CartItem.quantity item →
                  addToCart productId st = (st, Some stock_limit_reached))
       ∧ (find_item productId (Client.cart st) = None
          ∨ (∃ i item, find_item productId (Client.cart st) = Some (i, item)
                       ∧ CartItem.quantity item < Product.stock (Listed.row product)) →
          totalItems (Client.cart (fst (addToCart productId st)))
          = totalItems (Client.cart st) + 1
          ∧ snd (addToCart productId st)
            = Some (Product.name (Listed.row product) +:+ " added to cart", "success"))).
Proof.
  split.
  - intros Hnone. unfold addToCart. by rewrite Hnone.
  - intros j product Hprod. split.
    + intros i item Hitem Hfull. unfold addToCart. rewrite Hprod, Hitem.
      assert ((CartItem.quantity item >=? Product.stock (Listed.row product)) = true) as ->
        by (rewrite Z.geb_leb; apply Z.leb_le; lia).
      done.
    + intros [Hnone|(i & item & Hitem & Hroom)]; unfold addToCart; rewrite Hprod.
      * rewrite Hnone. cbn [fst snd Client.cart Client.set_cart]. split; [|done].
        rewrite totalItems_app, totalItems_cons. unfold totalItems at 2. simpl. lia.
      * rewrite Hitem.
        assert ((CartItem.quantity item >=? Product.stock (Listed.row product)) = false)
          as -> by (rewrite Z.geb_leb; apply Z.leb_gt; lia).
        cbn [fst snd Client.cart Client.set_cart]. split; [|done].
        apply find_item_Some in Hitem as [Hi _].
        rewrite (totalItems_requantity _ i item _ Hi). lia.
Qed.

(** * Orders, once more *)



(** * The engine under plain and under serial use *)

Lemma plain_requests_keep_stock_nonneg_witness :
  stock_nonneg (run Sample.plain_calls Fixture.db0) ∧ quantities_nonneg (run Sample.plain_calls Fixture.db0).
Proof.
  apply (plain_requests_keep_stock_nonneg Sample.plain_calls Fixture.db0).
  - apply Forall_cons; split; [|repeat constructor].
    intros items Hitems; injection Hitems as <-.
    split; [apply (bool_decide_unpack _); vm_compute; exact I|repeat constructor; simpl; lia].
  - split; [exact db0_stock_nonneg|apply Forall_nil_2].
Defined.

Lemma serve_more_requests_than_stock_witness :
  ∃ oks db',
    serve Sample.three_customers (single_body "u1" "p1" None) Sample.db_two_left
    = ((oks ++ replicate 1%nat (Err (InsufficientStockFor (Product.name (Product.with_stock 2 Fixture.laptop)))))%list, db')
    ∧ length oks = 2%nat
    ∧ Forall (fun r => is_ok r = true) oks
    ∧ stock_of db' "p1" = Some 0.
Proof.
  apply (serve_more_requests_than_stock
           Sample.three_customers 2%nat 1%nat Sample.db_two_left "u1" "p1" None
           (Product.with_stock 2 Fixture.laptop)).
  - discriminate.
  - exists Fixture.tester; vm_compute; reflexivity.
  - vm_compute; reflexivity.
  - reflexivity.
  - split; [apply (bool_decide_unpack _); vm_compute; exact I|].
    split; [apply (bool_decide_unpack _); vm_compute; exact I|].
    repeat constructor; apply not_elem_of_nil.
  - reflexivity.
Defined.
